(** * oracle-n-plus-1-demo: the three retrieval strategies and the timing report

    A shallow embedding of the Go packages [models], [repository] and
    [service].  The database handle [*sql.DB] is the only collaborator of the
    repositories: it is modelled as a [World] that answers every statement sent
    to it, and every repository method runs in a state monad whose state is the
    log of the statements issued so far. *)

From Stdlib Require Import ZArith QArith.
From Stdlib Require Import Floats.PrimFloat Floats.SpecFloat Floats.FloatOps.
From Stdlib Require Floats.FloatAxioms.
From stdpp Require Import gmap strings list fin_maps pretty sorting.

Local Open Scope Z_scope.

(** ** Go values *)

Module Go.

(** A Go slice value: [nil], or a (possibly empty) backing sequence.  Only
    the distinction between [nil] and the empty non-nil slice and the element
    sequence are observable in this program. *)
Inductive slice (A : Type) : Type :=
| nil_slice
| slice_of (elems : list A).
Arguments nil_slice {A}.
Arguments slice_of {A} elems.

Definition elems {A} (s : slice A) : list A :=
  match s with
  | nil_slice => []
  | slice_of l => l
  end.

Definition len {A} (s : slice A) : nat := List.length (elems s).

Definition is_nil {A} (s : slice A) : bool :=
  match s with
  | nil_slice => true
  | slice_of _ => false
  end.

(** [append(s, x)]: the result is never nil. *)
Definition append {A} (s : slice A) (x : A) : slice A :=
  slice_of (elems s ++ [x]).

(** [make([]T, n)]: [n] zero values. *)
Definition make {A} (zero : A) (n : nat) : slice A :=
  slice_of (replicate n zero).

(** [s[i] = x] on an index below [len s] (the only use in this program). *)
Definition set_index {A} (s : slice A) (i : nat) (x : A) : slice A :=
  match s with
  | nil_slice => nil_slice
  | slice_of l => slice_of (<[i := x]> l)
  end.

(** [float64] is IEEE-754 binary64. *)
Definition float64 : Set := PrimFloat.float.

(** Errors: the sentinel [sql.ErrNoRows], an error produced by the driver
    or by [Scan], and the result of [fmt.Errorf] with a [%w] verb, which
    keeps its cause. *)
Inductive error : Type :=
| ErrNoRows
| DriverError (msg : string)
| Wrapped (msg : string) (cause : error).

(** [err.Error()] *)
Definition Error (e : error) : string :=
  match e with
  | ErrNoRows => "sql: no rows in result set"
  | DriverError msg => msg
  | Wrapped msg _ => msg
  end.

(** [fmt.Errorf(prefix + "%w", err)] *)
Definition Errorf (prefix : string) (err : error) : error :=
  Wrapped (prefix +:+ Error err) err.

(** [errors.Unwrap] *)
Definition Unwrap (e : error) : option error :=
  match e with
  | Wrapped _ cause => Some cause
  | _ => None
  end.

(** [%d] of an integer. *)
Definition fmt_d (z : Z) : string := pretty z.

End Go.
Export Go.

(** ** package models *)

Module Order.
Record t : Type := mk {
  OrderID : Z;
  CustomerID : Z;
  OrderDate : string;
  TotalAmount : float64
}.
Definition zero : t := mk 0 0 EmptyString 0%float.
End Order.

Module OrderDetail.
Record t : Type := mk {
  DetailID : Z;
  OrderID : Z;
  ProductID : Z;
  Quantity : Z;
  UnitPrice : float64
}.
End OrderDetail.

Module OrderWithDetails.
Record t : Type := mk {
  Order : Order.t;
  Details : slice OrderDetail.t
}.
Definition zero : t := mk Order.zero nil_slice.
End OrderWithDetails.

Module Employee.
Record t : Type := mk {
  EmployeeID : Z;
  FirstName : string;
  LastName : string;
  Email : string;
  DepartmentID : Z;
  HireDate : string;
  Salary : float64
}.
Definition zero : t := mk 0 EmptyString EmptyString EmptyString 0 EmptyString 0%float.
End Employee.

Module Department.
Record t : Type := mk {
  DepartmentID : Z;
  DepartmentName : string;
  Location : string
}.
End Department.

Module EmployeeWithDepartment.
(** [Department *Department]: [None] is the nil pointer. *)
Record t : Type := mk {
  Employee : Employee.t;
  Department : option Department.t
}.
Definition zero : t := mk Employee.zero None.
End EmployeeWithDepartment.

(** ** The database handle

    Every statement of the two repositories, with its bind arguments.  The
    SQL text is fixed per constructor, except for the two membership
    statements, whose [IN (...)] list is built at run time. *)

Inductive Query : Type :=
| SelectOrdersByDays (days : Z)
(* SELECT order_id, customer_id, order_date, total_amount FROM orders
   WHERE order_date >= SYSDATE - :1 ORDER BY order_id *)
| SelectDetailsByOrderID (orderID : Z)
(* SELECT detail_id, order_id, product_id, quantity, unit_price
   FROM order_details WHERE order_id = :1 ORDER BY detail_id *)
| SelectOrdersJoinDetails (days : Z)
(* SELECT o.*, od.* FROM orders o LEFT JOIN order_details od
   ON o.order_id = od.order_id WHERE o.order_date >= SYSDATE - :1
   ORDER BY o.order_id, od.detail_id *)
| SelectDetailsByOrderIDs (placeholders : string) (args : list Z)
(* SELECT detail_id, order_id, product_id, quantity, unit_price
   FROM order_details WHERE order_id IN (%s) ORDER BY order_id, detail_id *)
| SelectAllEmployees
(* SELECT employee_id, ..., salary FROM employees ORDER BY employee_id *)
| SelectDepartmentByID (departmentID : Z)
(* SELECT department_id, department_name, location FROM departments
   WHERE department_id = :1 *)
| SelectEmployeesJoinDepartments
(* SELECT e.*, d.department_name, d.location FROM employees e
   LEFT JOIN departments d ON e.department_id = d.department_id
   ORDER BY e.employee_id *)
| SelectDepartmentsByIDs (placeholders : string) (args : list Z).
(* SELECT department_id, department_name, location FROM departments
   WHERE department_id IN (%s) *)

(** The scan targets of the two join statements: the child-side columns are
    scanned into pointers, [None] being the SQL NULL. *)
Record OrderJoinRow : Type := {
  jr_orderID : Z;
  jr_customerID : Z;
  jr_orderDate : string;
  jr_totalAmount : float64;
  jr_detailID : option Z;
  jr_productID : option Z;
  jr_quantity : option Z;
  jr_unitPrice : option float64
}.

Record EmployeeJoinRow : Type := {
  jr_employee : Employee.t;
  jr_departmentName : option string;
  jr_location : option string
}.

(** One row of a cursor, as [rows.Scan] delivers it. *)
Inductive Scanned (A : Type) : Type :=
| ScanOk (a : A)
| ScanErr (e : error).
Arguments ScanOk {A} a.
Arguments ScanErr {A} e.

(** [db.Query]: an error, or the rows the cursor yields until [rows.Next]
    returns false. *)
Inductive QueryResult (A : Type) : Type :=
| QueryErr (e : error)
| QueryRows (rows : list (Scanned A)).
Arguments QueryErr {A} e.
Arguments QueryRows {A} rows.

(** What a statement is answered with.  [SelectDepartmentByID] goes through
    [db.QueryRow(...).Scan]: an error ([sql.ErrNoRows] when no row matches) or
    the scanned row. *)
Definition Answer (q : Query) : Type :=
  match q with
  | SelectOrdersByDays _ => QueryResult Order.t
  | SelectDetailsByOrderID _ => QueryResult OrderDetail.t
  | SelectOrdersJoinDetails _ => QueryResult OrderJoinRow
  | SelectDetailsByOrderIDs _ _ => QueryResult OrderDetail.t
  | SelectAllEmployees => QueryResult Employee.t
  | SelectDepartmentByID _ => (error + Department.t)%type
  | SelectEmployeesJoinDepartments => QueryResult EmployeeJoinRow
  | SelectDepartmentsByIDs _ _ => QueryResult Department.t
  end.

(** The environment of a run: the answer to the [n]-th statement issued
    (counting from 0), and the order in which the Go runtime enumerates the
    keys of a map in a [range] loop, given the keys. *)
Record World : Type := {
  respond : nat → ∀ q : Query, Answer q;
  map_order : list Z → list Z
}.

(** The language leaves the order of a [range] over a map unspecified: every
    key is visited exactly once. *)
Definition fair_order (ρ : list Z → list Z) : Prop := ∀ l, ρ l ≡ₚ l.

(** [for k, v := range m]: the entries in the order the runtime picks. *)
Definition range_entries {V} (ρ : list Z → list Z) (m : gmap Z V) : list (Z * V) :=
  omap (λ k, (k,.) <$> m !! k) (ρ (map_to_list m).*1).

(** [for _, v := range m] and [for k := range m]. *)
Definition range_values {V} (ρ : list Z → list Z) (m : gmap Z V) : list V :=
  (range_entries ρ m).*2.

Definition range_keys {V} (ρ : list Z → list Z) (m : gmap Z V) : list Z :=
  (range_entries ρ m).*1.

(** The state of a run is the log of statements issued, oldest first. *)
Definition M (A : Type) : Type := list Query → A * list Query.

#[global] Instance M_ret : MRet M := λ A a log, (a, log).
#[global] Instance M_bind : MBind M := λ A B f m log,
  let '(a, log') := m log in f a log'.

(** [db.Query] and [db.QueryRow]: one round trip. *)
Definition db_Query (w : World) (q : Query) : M (Answer q) :=
  λ log, (respond w (List.length log) q, log ++ [q]).

(** The result and the statements issued by a run that starts with an empty
    log. *)
Definition run {A} (m : M A) : A * list Query := m [].
Definition result {A} (m : M A) : A := (run m).1.
Definition queries {A} (m : M A) : list Query := (run m).2.

(** ** package repository *)

(** The loop every plain fetch method runs over its cursor:
<<
    var xs []T
    for rows.Next() {
        var x T
        if err := rows.Scan(...); err != nil { return nil, fmt.Errorf(msg+"%w", err) }
        xs = append(xs, x)
    }
    return xs, nil
>> *)
Fixpoint scan_all {A} (msg : string) (rows : list (Scanned A)) (xs : slice A)
  : slice A * option error :=
  match rows with
  | [] => (xs, None)
  | ScanOk x :: rows' => scan_all msg rows' (append xs x)
  | ScanErr err :: _ => (nil_slice, Some (Errorf msg err))
  end.

(** [for i, x := range src { dst[i] = f(i, x) }] *)
Definition fill_by_index {A B} (f : nat → A → B) (src : list A) (dst : slice B)
  : slice B :=
  foldl (λ dst ix, set_index dst ix.1 (f ix.1 ix.2)) dst (imap pair src).

(** [placeholders[i] = fmt.Sprintf(":%d", i+1)], joined with [","]. *)
Definition placeholder (i : nat) : string := ":" +:+ fmt_d (Z.of_nat i + 1).

Definition in_list {A} (ids : slice A) : string :=
  String.concat ","
    (elems (fill_by_index (λ i _, placeholder i) (elems ids) (make EmptyString (len ids)))).

Module ProblemOrderRepository.
Section Methods.
Variable r : World.

Definition GetOrdersByDays (days : Z) : M (slice Order.t * option error) :=
  res ← db_Query r (SelectOrdersByDays days);
  match res with
  | QueryErr err =>
      mret (nil_slice, Some (Errorf "failed to execute orders query: " err))
  | QueryRows rows =>
      mret (scan_all "failed to scan order row: " rows nil_slice)
  end.

Definition GetDetailsByOrderID (orderID : Z)
  : M (slice OrderDetail.t * option error) :=
  res ← db_Query r (SelectDetailsByOrderID orderID);
  match res with
  | QueryErr err =>
      mret (nil_slice, Some (Errorf "failed to execute order details query: " err))
  | QueryRows rows =>
      mret (scan_all "failed to scan order detail row: " rows nil_slice)
  end.

(** The body of [for _, order := range orders] in [GetOrdersWithDetails]. *)
Fixpoint details_per_order (orders : list Order.t)
    (result : slice OrderWithDetails.t)
  : M (slice OrderWithDetails.t * option error) :=
  match orders with
  | [] => mret (result, None)
  | order :: orders' =>
      '(details, err) ← GetDetailsByOrderID (Order.OrderID order);
      match err with
      | Some err =>
          mret (nil_slice,
                Some (Errorf ("failed to get details for order "
                              +:+ fmt_d (Order.OrderID order) +:+ ": ") err))
      | None =>
          details_per_order orders'
            (append result (OrderWithDetails.mk order details))
      end
  end.

Definition GetOrdersWithDetails (days : Z)
  : M (slice OrderWithDetails.t * option error) :=
  '(orders, err) ← GetOrdersByDays days;
  match err with
  | Some err => mret (nil_slice, Some (Errorf "failed to get orders: " err))
  | None => details_per_order (elems orders) nil_slice
  end.

End Methods.
End ProblemOrderRepository.

Module ProblemEmployeeRepository.
Section Methods.
Variable r : World.

Definition GetAllEmployees : M (slice Employee.t * option error) :=
  res ← db_Query r SelectAllEmployees;
  match res with
  | QueryErr err =>
      mret (nil_slice, Some (Errorf "failed to execute employees query: " err))
  | QueryRows rows =>
      mret (scan_all "failed to scan employee row: " rows nil_slice)
  end.

(** [sql.ErrNoRows] is mapped to [(nil, nil)]; the comparison is with the
    sentinel itself. *)
Definition GetDepartmentByID (departmentID : Z)
  : M (option Department.t * option error) :=
  res ← db_Query r (SelectDepartmentByID departmentID);
  match res with
  | inl ErrNoRows => mret (None, None)
  | inl err => mret (None, Some (Errorf "failed to query department: " err))
  | inr dept => mret (Some dept, None)
  end.

(** The body of [for _, employee := range employees]. *)
Fixpoint department_per_employee (employees : list Employee.t)
    (result : slice EmployeeWithDepartment.t)
  : M (slice EmployeeWithDepartment.t * option error) :=
  match employees with
  | [] => mret (result, None)
  | employee :: employees' =>
      '(department, err) ← GetDepartmentByID (Employee.DepartmentID employee);
      match err with
      | Some err =>
          mret (nil_slice,
                Some (Errorf ("failed to get department for employee "
                              +:+ fmt_d (Employee.EmployeeID employee) +:+ ": ") err))
      | None =>
          department_per_employee employees'
            (append result (EmployeeWithDepartment.mk employee department))
      end
  end.

Definition GetEmployeesWithDepartment
  : M (slice EmployeeWithDepartment.t * option error) :=
  '(employees, err) ← GetAllEmployees;
  match err with
  | Some err => mret (nil_slice, Some (Errorf "failed to get employees: " err))
  | None => department_per_employee (elems employees) nil_slice
  end.

End Methods.
End ProblemEmployeeRepository.

Module OptimizedOrderRepository.
Section Methods.
Variable r : World.

Definition GetOrdersByDays (days : Z) : M (slice Order.t * option error) :=
  res ← db_Query r (SelectOrdersByDays days);
  match res with
  | QueryErr err =>
      mret (nil_slice, Some (Errorf "failed to execute orders query: " err))
  | QueryRows rows =>
      mret (scan_all "failed to scan order row: " rows nil_slice)
  end.

(** One iteration of the row loop of [GetOrdersWithDetailsJoin] after a
    successful [Scan], on [orderMap map[int64]*OrderWithDetails].  [None] is
    the run-time panic of dereferencing a nil [*productID], [*quantity] or
    [*unitPrice] under a non-nil [detailID]. *)
Definition join_row (row : OrderJoinRow)
    (orderMap : gmap Z OrderWithDetails.t)
  : option (gmap Z OrderWithDetails.t) :=
  let orderID := jr_orderID row in
  let orderMap :=
    match orderMap !! orderID with
    | Some _ => orderMap
    | None =>
        <[orderID :=
            OrderWithDetails.mk
              (Order.mk orderID (jr_customerID row) (jr_orderDate row)
                 (jr_totalAmount row))
              (slice_of [])]> orderMap
    end in
  match jr_detailID row with
  | None => Some orderMap
  | Some detailID =>
      productID ← jr_productID row;
      quantity ← jr_quantity row;
      unitPrice ← jr_unitPrice row;
      let detail :=
        OrderDetail.mk detailID orderID productID quantity unitPrice in
      Some (alter (λ o, OrderWithDetails.mk (OrderWithDetails.Order o)
                          (append (OrderWithDetails.Details o) detail))
              orderID orderMap)
  end.

(** [for rows.Next() { ... }]: the map at the end of the cursor, the
    wrapped [Scan] error, or [None] for a panic. *)
Fixpoint join_rows (rows : list (Scanned OrderJoinRow))
    (orderMap : gmap Z OrderWithDetails.t)
  : option (error + gmap Z OrderWithDetails.t) :=
  match rows with
  | [] => Some (inr orderMap)
  | ScanErr err :: _ => Some (inl (Errorf "failed to scan row: " err))
  | ScanOk row :: rows' =>
      match join_row row orderMap with
      | None => None
      | Some orderMap => join_rows rows' orderMap
      end
  end.

(** The result is [None] when the method panics. *)
Definition GetOrdersWithDetailsJoin (days : Z)
  : M (option (slice OrderWithDetails.t * option error)) :=
  res ← db_Query r (SelectOrdersJoinDetails days);
  match res with
  | QueryErr err =>
      mret (Some (nil_slice, Some (Errorf "failed to execute join query: " err)))
  | QueryRows rows =>
      match join_rows rows ∅ with
      | None => mret None
      | Some (inl err) => mret (Some (nil_slice, Some err))
      | Some (inr orderMap) =>
(* result := make([]T, 0, len(orderMap));
   for _, order := range orderMap { result = append(result, *order) } *)
mret (Some (foldl append (slice_of [])
              (range_values (map_order r) orderMap), None))
end
end.

Definition GetDetailsByOrderIDs (orderIDs : slice Z)
  : M (slice OrderDetail.t * option error) :=
  if decide (len orderIDs = 0%nat) then mret (slice_of [], None)
  else
    let args := fill_by_index (λ _ id, id) (elems orderIDs) (make 0 (len orderIDs)) in
    res ← db_Query r (SelectDetailsByOrderIDs (in_list orderIDs) (elems args));
    match res with
    | QueryErr err =>
        mret (nil_slice, Some (Errorf "failed to execute batch query: " err))
    | QueryRows rows =>
        mret (scan_all "failed to scan detail row: " rows nil_slice)
    end.

(** [detailsByOrderID[detail.OrderID] = append(detailsByOrderID[detail.OrderID], detail)]:
    a missing key reads as the nil slice. *)
Definition group_details (allDetails : list OrderDetail.t)
  : gmap Z (slice OrderDetail.t) :=
  foldl (λ m detail,
           <[OrderDetail.OrderID detail :=
               append (default nil_slice (m !! OrderDetail.OrderID detail)) detail]> m)
        ∅ allDetails.

Definition assemble_order (detailsByOrderID : gmap Z (slice OrderDetail.t))
    (order : Order.t) : OrderWithDetails.t :=
  let details := default nil_slice (detailsByOrderID !! Order.OrderID order) in
  OrderWithDetails.mk order (if is_nil details then slice_of [] else details).

Definition GetOrdersWithDetailsBatch (days : Z)
  : M (slice OrderWithDetails.t * option error) :=
  '(orders, err) ← GetOrdersByDays days;
  match err with
  | Some err => mret (nil_slice, Some (Errorf "failed to get orders: " err))
  | None =>
      if decide (len orders = 0%nat) then mret (slice_of [], None)
      else
        let orderIDs :=
          fill_by_index (λ _ order, Order.OrderID order) (elems orders)
            (make 0 (len orders)) in
        '(allDetails, err) ← GetDetailsByOrderIDs orderIDs;
        match err with
        | Some err => mret (nil_slice, Some (Errorf "failed to get details: " err))
        | None =>
            let detailsByOrderID := group_details (elems allDetails) in
            mret (fill_by_index (λ _ order, assemble_order detailsByOrderID order)
                    (elems orders) (make OrderWithDetails.zero (len orders)),
                  None)
        end
  end.

End Methods.
End OptimizedOrderRepository.

Module OptimizedEmployeeRepository.
Section Methods.
Variable r : World.

(** One iteration of the row loop of [GetEmployeesWithDepartmentJoin]
    after a successful [Scan]. *)
Definition join_employee (row : EmployeeJoinRow) : EmployeeWithDepartment.t :=
  let emp := jr_employee row in
  match jr_departmentName row, jr_location row with
  | Some departmentName, Some location =>
      EmployeeWithDepartment.mk emp
        (Some (Department.mk (Employee.DepartmentID emp) departmentName location))
  | _, _ => EmployeeWithDepartment.mk emp None
  end.

Fixpoint join_employees (rows : list (Scanned EmployeeJoinRow))
    (result : slice EmployeeWithDepartment.t)
  : slice EmployeeWithDepartment.t * option error :=
  match rows with
  | [] => (result, None)
  | ScanErr err :: _ => (nil_slice, Some (Errorf "failed to scan employee row: " err))
  | ScanOk row :: rows' => join_employees rows' (append result (join_employee row))
  end.

Definition GetEmployeesWithDepartmentJoin
  : M (slice EmployeeWithDepartment.t * option error) :=
  res ← db_Query r SelectEmployeesJoinDepartments;
  match res with
  | QueryErr err =>
      mret (nil_slice, Some (Errorf "failed to execute employee join query: " err))
  | QueryRows rows => mret (join_employees rows nil_slice)
  end.

Definition GetAllEmployees : M (slice Employee.t * option error) :=
  res ← db_Query r SelectAllEmployees;
  match res with
  | QueryErr err =>
      mret (nil_slice, Some (Errorf "failed to execute employee query: " err))
  | QueryRows rows =>
      mret (scan_all "failed to scan employee row: " rows nil_slice)
  end.

Definition GetDepartmentsByIDs (departmentIDs : slice Z)
  : M (slice Department.t * option error) :=
  if decide (len departmentIDs = 0%nat) then mret (slice_of [], None)
  else
    let args :=
      fill_by_index (λ _ id, id) (elems departmentIDs) (make 0 (len departmentIDs)) in
    res ← db_Query r (SelectDepartmentsByIDs (in_list departmentIDs) (elems args));
    match res with
    | QueryErr err =>
        mret (nil_slice, Some (Errorf "failed to execute department batch query: " err))
    | QueryRows rows =>
        mret (scan_all "failed to scan department row: " rows nil_slice)
    end.

(** [departmentIDSet[emp.DepartmentID] = true] for every employee. *)
Definition department_id_set (employees : list Employee.t) : gmap Z bool :=
  foldl (λ s emp, <[Employee.DepartmentID emp := true]> s) ∅ employees.

(** [departmentIDs := make([]int64, 0, len(set)); for id := range set { append }] *)
Definition department_ids (employees : list Employee.t) : slice Z :=
  foldl append (slice_of []) (range_keys (map_order r) (department_id_set employees)).

(** [departmentMap[dept.DepartmentID] = dept] for every fetched department. *)
Definition department_map (departments : list Department.t) : gmap Z Department.t :=
  foldl (λ m dept, <[Department.DepartmentID dept := dept]> m) ∅ departments.

Definition assemble_employee (departmentMap : gmap Z Department.t)
    (emp : Employee.t) : EmployeeWithDepartment.t :=
  match departmentMap !! Employee.DepartmentID emp with
  | Some dept => EmployeeWithDepartment.mk emp (Some dept)
  | None => EmployeeWithDepartment.mk emp None
  end.

Definition GetEmployeesWithDepartmentBatch
  : M (slice EmployeeWithDepartment.t * option error) :=
  '(employees, err) ← GetAllEmployees;
  match err with
  | Some err => mret (nil_slice, Some (Errorf "failed to get employees: " err))
  | None =>
      if decide (len employees = 0%nat) then mret (slice_of [], None)
      else
        let departmentIDs := department_ids (elems employees) in
        '(departments, err) ← GetDepartmentsByIDs departmentIDs;
        match err with
        | Some err =>
            mret (nil_slice, Some (Errorf "failed to get departments: " err))
        | None =>
            let departmentMap := department_map (elems departments) in
            mret (fill_by_index (λ _ emp, assemble_employee departmentMap emp)
                    (elems employees)
                    (make EmployeeWithDepartment.zero (len employees)),
                  None)
        end
  end.

End Methods.
End OptimizedEmployeeRepository.

(** ** package service: the timing report *)

Module service.

(** [time.Duration] is an [int64] count of nanoseconds. *)
Record PerformanceResult : Type := {
  Method : string;
  ExecutionTime : Z;
  RecordCount : Z;
  Description : string
}.

(** The conversion [float64(n)] of an [int64]: the nearest binary64, ties
    to even. *)
Definition float64_of_int64 (n : Z) : float64 :=
  SF2Prim (binary_normalize prec emax n 0 false).

(** [float64(base.Nanoseconds()) / float64(d.Nanoseconds())] *)
Definition improvement (baseDuration d : Z) : float64 :=
  PrimFloat.div (float64_of_int64 baseDuration) (float64_of_int64 d).

(** What [displayPerformanceComparison] prints, one value per [Printf]:
    the arguments of each format string, before formatting. *)
Inductive Line : Type :=
| Header
| BaseLine (method : string) (d : Z)
| SpeedupLine (method : string) (d : Z) (speedup : float64)
| BestMethodLine (method : string)
| BestEffectLine (speedup : float64) (base_ms best_ms : float64).

(** [for i := 2; i < len(results); i++ { if improvement > bestImprovement ... }] *)
Definition best_of (baseDuration : Z) (rest : list PerformanceResult)
    (best : PerformanceResult * float64) : PerformanceResult * float64 :=
  foldl (λ best result,
           let imp := improvement baseDuration (ExecutionTime result) in
           if PrimFloat.ltb best.2 imp then (result, imp) else best)
        best rest.

Definition displayPerformanceComparison (results : list PerformanceResult)
  : list Line :=
  match results with
  | [] | [_] => []
  | base :: (second :: others) as rest =>
      let baseDuration := ExecutionTime base in
      let '(bestResult, bestImprovement) :=
        best_of baseDuration others
          (second, improvement baseDuration (ExecutionTime second)) in
      [Header; BaseLine (Method base) (ExecutionTime base)]
      ++ ((λ result, SpeedupLine (Method result) (ExecutionTime result)
                       (improvement baseDuration (ExecutionTime result))) <$> rest)
      ++ [BestMethodLine (Method bestResult);
          BestEffectLine bestImprovement
            (PrimFloat.div (float64_of_int64 baseDuration) 1e6)
            (PrimFloat.div (float64_of_int64 (ExecutionTime bestResult)) 1e6)]
  end.

End service.

(** ** The database behind the handle

    A model of the four tables and of what the engine answers to each of the
    eight statements, for the claims that relate the strategies to each other
    through the data they read.  Rows are kept as the values a successful
    [Scan] delivers; the engine never fails and the data does not change
    during a run. *)

Module Relational.

Record Database : Type := {
  orders : list Order.t;
  order_details : list OrderDetail.t;
  employees : list Employee.t;
  departments : list Department.t;
(** [order_date >= SYSDATE - :1], evaluated by the engine *)
recent : Z → Order.t → bool
}.

(** [ORDER BY k] and [ORDER BY k1, k2] on integer keys, with NULLs last. *)
Definition key_le {A} (k : A → Z) : relation A := λ x y, k x ≤ k y.

Definition null_last_leb (a b : option Z) : bool :=
  match a, b with
  | _, None => true
  | None, Some _ => false
  | Some x, Some y => bool_decide (x ≤ y)
  end.

Definition keys_le {A} (k1 : A → Z) (k2 : A → option Z) : relation A :=
  λ x y, k1 x < k1 y ∨ (k1 x = k1 y ∧ null_last_leb (k2 x) (k2 y)).

#[global] Instance key_le_dec {A} (k : A → Z) x y : Decision (key_le k x y).
Proof. unfold key_le. apply _. Defined.
#[global] Instance keys_le_dec {A} (k1 : A → Z) k2 x y : Decision (keys_le k1 k2 x y).
Proof. unfold keys_le. apply _. Defined.

Section Statements.
Variable db : Database.

Definition select_orders_by_days (days : Z) : list Order.t :=
  merge_sort (key_le Order.OrderID)
    (filter (λ o, recent db days o) (orders db)).

Definition select_details_by_order_id (orderID : Z) : list OrderDetail.t :=
  merge_sort (key_le OrderDetail.DetailID)
    (filter (λ d, OrderDetail.OrderID d = orderID) (order_details db)).

Definition select_details_by_order_ids (ids : list Z) : list OrderDetail.t :=
  merge_sort (keys_le OrderDetail.OrderID (Some ∘ OrderDetail.DetailID))
    (filter (λ d, OrderDetail.OrderID d ∈ ids) (order_details db)).

Definition order_join_row (o : Order.t) (d : option OrderDetail.t) : OrderJoinRow :=
  {| jr_orderID := Order.OrderID o;
     jr_customerID := Order.CustomerID o;
     jr_orderDate := Order.OrderDate o;
     jr_totalAmount := Order.TotalAmount o;
     jr_detailID := OrderDetail.DetailID <$> d;
     jr_productID := OrderDetail.ProductID <$> d;
     jr_quantity := OrderDetail.Quantity <$> d;
     jr_unitPrice := OrderDetail.UnitPrice <$> d |}.

(** [o LEFT JOIN order_details od ON o.order_id = od.order_id] for one
    order: its matching details, or one row of NULLs. *)
Definition order_left_join (o : Order.t) : list OrderJoinRow :=
  match filter (λ d, OrderDetail.OrderID d = Order.OrderID o) (order_details db) with
  | [] => [order_join_row o None]
  | ds => order_join_row o ∘ Some <$> ds
  end.

Definition select_orders_join_details (days : Z) : list OrderJoinRow :=
  merge_sort (keys_le jr_orderID jr_detailID)
    (filter (λ o, recent db days o) (orders db) ≫= order_left_join).

Definition select_all_employees : list Employee.t :=
  merge_sort (key_le Employee.EmployeeID) (employees db).

(** [QueryRow] keeps the first matching row. *)
Definition select_department_by_id (departmentID : Z) : error + Department.t :=
  match filter (λ d, Department.DepartmentID d = departmentID) (departments db) with
  | [] => inl ErrNoRows
  | dept :: _ => inr dept
  end.

Definition employee_left_join (e : Employee.t) : list EmployeeJoinRow :=
  match filter (λ d, Department.DepartmentID d = Employee.DepartmentID e)
          (departments db) with
  | [] => [ {| jr_employee := e; jr_departmentName := None; jr_location := None |} ]
  | ds => (λ d, {| jr_employee := e;
                   jr_departmentName := Some (Department.DepartmentName d);
                   jr_location := Some (Department.Location d) |}) <$> ds
  end.

Definition select_employees_join_departments : list EmployeeJoinRow :=
  merge_sort (key_le (Employee.EmployeeID ∘ jr_employee))
    (employees db ≫= employee_left_join).

Definition select_departments_by_ids (ids : list Z) : list Department.t :=
  filter (λ d, Department.DepartmentID d ∈ ids) (departments db).

Definition rows_of {A} (l : list A) : QueryResult A := QueryRows (ScanOk <$> l).

Definition answer (n : nat) (q : Query) : Answer q :=
  match q with
  | SelectOrdersByDays days => rows_of (select_orders_by_days days)
  | SelectDetailsByOrderID orderID => rows_of (select_details_by_order_id orderID)
  | SelectOrdersJoinDetails days => rows_of (select_orders_join_details days)
  | SelectDetailsByOrderIDs _ ids => rows_of (select_details_by_order_ids ids)
  | SelectAllEmployees => rows_of select_all_employees
  | SelectDepartmentByID departmentID => select_department_by_id departmentID
  | SelectEmployeesJoinDepartments => rows_of select_employees_join_departments
  | SelectDepartmentsByIDs _ ids => rows_of (select_departments_by_ids ids)
  end.

(** The world in which the repositories talk to [db] and the runtime
    enumerates maps in the order [ρ]. *)
Definition world (ρ : list Z → list Z) : World :=
  {| respond := answer; map_order := ρ |}.

End Statements.

(** A legal enumeration order: descending keys. *)
Definition descending (keys : list Z) : list Z := reverse (merge_sort Z.le keys).

End Relational.

(** ** Vocabulary of the properties *)







(** The rational number a finite binary64 value denotes. *)
Definition exact_value (f : float64) : option Q :=
  match Prim2SF f with
  | S754_zero _ => Some 0%Q
  | S754_finite s m e =>
      Some ((if s then -1 else 1) * inject_Z (Z.pos m) * Qpower 2 e)%Q
  | S754_infinity _ | S754_nan => None
  end.

(** The speedup printed for the [i]-th result ([i >= 1]) of a report. *)
Definition reported_speedup (results : list service.PerformanceResult) (i : nat)
  : option float64 :=
  match service.displayPerformanceComparison results !! (1 + i)%nat with
  | Some (service.SpeedupLine _ _ speedup) => Some speedup
  | _ => None
  end.

(** The reading of the report by exact rational arithmetic: every
    non-baseline speedup denotes the quotient of the two nanosecond counts. *)
Definition speedups_are_exact_quotients (results : list service.PerformanceResult)
  : Prop :=
  ∀ i base r, (0 < i)%nat → results !! 0%nat = Some base → results !! i = Some r →
    ∃ speedup q,
      reported_speedup results i = Some speedup
      ∧ exact_value speedup = Some q
      ∧ (q * inject_Z (service.ExecutionTime r)
         == inject_Z (service.ExecutionTime base))%Q.

(** An aggregate whose [Details] is not the nil slice. *)
Definition details_non_nil (a : OrderWithDetails.t) : Prop :=
  is_nil (OrderWithDetails.Details a) = false.


(** The parent and the child that one iteration of the join loop builds from
    a scanned row, and the rows on which building the child does not panic. *)
Definition row_order (row : OrderJoinRow) : Order.t :=
  Order.mk (jr_orderID row) (jr_customerID row) (jr_orderDate row) (jr_totalAmount row).

Definition row_detail (row : OrderJoinRow) : option OrderDetail.t :=
  detailID ← jr_detailID row;
  productID ← jr_productID row;
  quantity ← jr_quantity row;
  unitPrice ← jr_unitPrice row;
  Some (OrderDetail.mk detailID (jr_orderID row) productID quantity unitPrice).

Definition row_ok (row : OrderJoinRow) : Prop :=
  is_Some (jr_detailID row) → is_Some (row_detail row).

(** The aggregate of a group of rows of one parent, in cursor order, added
    to the entry [cur] the map already holds for that parent. *)
Definition group_aggregate (cur : option OrderWithDetails.t) (group : list OrderJoinRow)
  : option OrderWithDetails.t :=
  match cur, group with
  | Some a, _ =>
      Some (OrderWithDetails.mk (OrderWithDetails.Order a)
              (foldl append (OrderWithDetails.Details a) (omap row_detail group)))
  | None, [] => None
  | None, row :: _ =>
      Some (OrderWithDetails.mk (row_order row) (slice_of (omap row_detail group)))
  end.

(** ** Sample data *)

Module Samples.
Import Relational.

Definition order (id : Z) : Order.t := Order.mk id 100 "2025-01-15" 250%float.

Definition detail (detailID orderID : Z) : OrderDetail.t :=
  OrderDetail.mk detailID orderID 7 2 125%float.

Definition employee (id departmentID : Z) : Employee.t :=
  Employee.mk id "Taro" "Yamada" "taro@example.com" departmentID "2020-04-01" 5000%float.

Definition department (id : Z) : Department.t := Department.mk id "Sales" "Tokyo".

Definition empty_db : Database :=
  {| orders := []; order_details := []; employees := []; departments := [];
     recent := λ _ _, true |}.

(** Two orders, neither with a detail row. *)
Definition two_orders : Database :=
  {| orders := [order 1; order 2]; order_details := [];
     employees := []; departments := [];
     recent := λ _ _, true |}.

(** Parents 1, 2, 3 with children a, b under 1 and c under 3. *)
Definition three_orders : Database :=
  {| orders := [order 1; order 2; order 3];
     order_details := [detail 11 1; detail 12 1; detail 31 3];
     employees := []; departments := [];
     recent := λ _ _, true |}.

(** Three employees: two share department 10, the third refers to a
    department that has no row. *)
Definition staff : Database :=
  {| orders := []; order_details := [];
     employees := [employee 1 10; employee 2 10; employee 3 99];
     departments := [department 10];
     recent := λ _ _, true |}.

(** A connectivity failure of any statement. *)
Definition failure (q : Query) : Answer q :=
  let err := DriverError "ORA-03113: end-of-file on communication channel" in
  match q with
  | SelectOrdersByDays _ => QueryErr err
  | SelectDetailsByOrderID _ => QueryErr err
  | SelectOrdersJoinDetails _ => QueryErr err
  | SelectDetailsByOrderIDs _ _ => QueryErr err
  | SelectAllEmployees => QueryErr err
  | SelectDepartmentByID _ => inl err
  | SelectEmployeesJoinDepartments => QueryErr err
  | SelectDepartmentsByIDs _ _ => QueryErr err
  end.

(** The world of [db] in which the statement number [bad] fails. *)
Definition flaky (db : Database) (bad : nat) : World :=
  {| respond := λ n q, if decide (n = bad) then failure q else answer db n q;
     map_order := id |}.

(** The rows of an employee join: a matching department, a matching
    department whose location is NULL, and no matching department. *)
Definition employee_join_rows : list EmployeeJoinRow :=
  [ {| jr_employee := employee 1 10;
       jr_departmentName := Some "Sales"; jr_location := Some "Tokyo" |};
    {| jr_employee := employee 2 20;
       jr_departmentName := Some "Legal"; jr_location := None |};
    {| jr_employee := employee 3 99;
       jr_departmentName := None; jr_location := None |} ].

(** A world that answers the employee join with [rows] and fails every
    other statement. *)
Definition employee_join_world (rows : list EmployeeJoinRow) : World :=
  {| respond := λ _ q,
       match q with
       | SelectEmployeesJoinDepartments => QueryRows (ScanOk <$> rows)
       | q' => failure q'
       end;
     map_order := id |}.

End Samples.

Module Timings.

Definition naive (d : Z) : service.PerformanceResult :=
  {| service.Method := "N+1_Problem"; service.ExecutionTime := d;
     service.RecordCount := 3; service.Description := "N+1 demo" |}.

Definition join (d : Z) : service.PerformanceResult :=
  {| service.Method := "JOIN_Optimized"; service.ExecutionTime := d;
     service.RecordCount := 3; service.Description := "N+1 demo" |}.

Definition batch (d : Z) : service.PerformanceResult :=
  {| service.Method := "Batch_Optimized"; service.ExecutionTime := d;
     service.RecordCount := 3; service.Description := "N+1 demo" |}.

Definition ms (n : Z) : Z := n * 1000000.

End Timings.

(** Unfolds one monadic step of a repository method. *)
Ltac step_M := unfold mbind, mret, M_bind, M_ret, db_Query; cbn beta iota.


(** ** Further vocabulary *)

(** The parent key of an aggregate. *)
Definition aggregate_key (a : OrderWithDetails.t) : Z :=
  Order.OrderID (OrderWithDetails.Order a).


(** ** Further sample data *)

Module Cursors.

(** A world that answers the order join with the cursor [rows] and fails
    every other statement. *)
Definition order_join_world (rows : list (Scanned OrderJoinRow)) : World :=
  {| respond := λ _ q,
       match q with
       | SelectOrdersJoinDetails _ => QueryRows rows
       | q' => Samples.failure q'
       end;
     map_order := id |}.

(** Order 1 without details, then a row of order 2 whose [detail_id] is set
    while its [product_id] is NULL. *)
Definition half_null_cursor : list (Scanned OrderJoinRow) :=
  [ ScanOk {| jr_orderID := 1; jr_customerID := 100; jr_orderDate := "2025-01-15";
              jr_totalAmount := 250%float;
              jr_detailID := None; jr_productID := None;
              jr_quantity := None; jr_unitPrice := None |};
    ScanOk {| jr_orderID := 2; jr_customerID := 100; jr_orderDate := "2025-01-15";
              jr_totalAmount := 250%float;
              jr_detailID := Some 21; jr_productID := None;
              jr_quantity := Some 2; jr_unitPrice := Some 125%float |} ].

End Cursors.


(** ** package time *)

Module time.

(** [Time.Sub] on two readings of the monotonic clock, which are [int64]
    values: their difference, saturated to the range of [time.Duration]. *)
Definition Sub (t u : Z) : Z :=
  Z.max (- 2 ^ 63) (Z.min (2 ^ 63 - 1) (t - u)).

End time.

(** ** package service: the demonstration service *)

Module DemoService.
Import service.

(** What the service writes to standard output, one value per [Printf] or
    [Println]: the arguments of the format string, before formatting.  A
    text without arguments is kept as it is, apart from its line breaks. *)
Inductive Output : Type :=
| Println (text : string)
| OrderComparisonTitle (days : Z)
| Measured (d : Z) (count : nat)
| Comparison (l : Line)
| OrderSampleTitle (orderCount : Z)
| OrderLine (order : Order.t)
| DetailLine (detail : OrderDetail.t)
| MoreDetails (n : Z)
| EmployeeSampleTitle (employeeCount : Z)
| EmployeeLine (employee : Employee.t) (departmentInfo : string).

(** The surroundings of the service: the database behind its four
    repositories, and the readings of the monotonic clock in nanoseconds, in
    the order in which they are taken. *)
Record Env : Type := {
  db : World;
  clock : nat → Z
}.

(** The state of a run of the service: the statements issued, the number of
    clock readings taken, and the standard output, oldest first. *)
Record Process : Type := {
  statements : list Query;
  readings : nat;
  stdout : list Output
}.

Definition boot : Process := {| statements := []; readings := 0; stdout := [] |}.

Definition IO (A : Type) : Type := Process → A * Process.

#[global] Instance IO_ret : MRet IO := λ A a p, (a, p).
#[global] Instance IO_bind : MBind IO := λ A B f m p,
  let '(a, p') := m p in f a p'.

Definition Printf (o : Output) : IO unit :=
  λ p, (tt, {| statements := statements p; readings := readings p;
               stdout := stdout p ++ [o] |}).

(** A call of a repository method. *)
Definition call {A} (m : M A) : IO A :=
  λ p, let '(a, log) := m (statements p) in
       (a, {| statements := log; readings := readings p; stdout := stdout p |}).

Section Methods.
Variable s : Env.

Definition time_Now : IO Z :=
  λ p, (clock s (readings p),
        {| statements := statements p; readings := S (readings p);
           stdout := stdout p |}).

(** [time.Since(start)] is [time.Now().Sub(start)]. *)
Definition time_Since (start : Z) : IO Z :=
  now ← time_Now; mret (time.Sub now start).

Definition displayPerformanceComparison (results : slice PerformanceResult)
  : IO unit :=
  λ p, (tt, {| statements := statements p; readings := readings p;
               stdout := stdout p
                         ++ (Comparison <$> service.displayPerformanceComparison
                                              (elems results)) |}).

(** A panic of a repository method unwinds the service method as well:
    [None]. *)
Definition CompareOrderPerformance (days : Z)
  : IO (option (slice PerformanceResult * option error)) :=
  let results := nil_slice in
  _ ← Printf (OrderComparisonTitle days);
  _ ← Printf (Println "1. N+1問題のあるアプローチを実行中...");
  start ← time_Now;
  '(problemOrders, err) ←
    call (ProblemOrderRepository.GetOrdersWithDetails (db s) days);
  match err with
  | Some err =>
      mret (Some (nil_slice, Some (Errorf "N+1問題のあるアプローチでエラー: " err)))
  | None =>
      problemDuration ← time_Since start;
      let results :=
        append results
          {| Method := "N+1_Problem";
             ExecutionTime := problemDuration;
             RecordCount := Z.of_nat (len problemOrders);
             Description := "N+1問題のあるアプローチ（ループ内でDBアクセス）" |} in
      _ ← Printf (Measured problemDuration (len problemOrders));
      _ ← Printf (Println "2. JOIN使用の最適化アプローチを実行中...");
      start ← time_Now;
      joined ← call (OptimizedOrderRepository.GetOrdersWithDetailsJoin (db s) days);
      match joined with
      | None => mret None
      | Some (joinOrders, Some err) =>
          mret (Some (nil_slice, Some (Errorf "JOIN最適化アプローチでエラー: " err)))
      | Some (joinOrders, None) =>
          joinDuration ← time_Since start;
          let results :=
            append results
              {| Method := "JOIN_Optimized";
                 ExecutionTime := joinDuration;
                 RecordCount := Z.of_nat (len joinOrders);
                 Description := "JOIN使用の最適化アプローチ（一括取得）" |} in
          _ ← Printf (Measured joinDuration (len joinOrders));
          _ ← Printf (Println "3. IN句使用のバッチ取得アプローチを実行中...");
          start ← time_Now;
          '(batchOrders, err) ←
            call (OptimizedOrderRepository.GetOrdersWithDetailsBatch (db s) days);
          match err with
          | Some err =>
              mret (Some (nil_slice,
                          Some (Errorf "バッチ最適化アプローチでエラー: " err)))
          | None =>
              batchDuration ← time_Since start;
              let results :=
                append results
                  {| Method := "Batch_Optimized";
                     ExecutionTime := batchDuration;
                     RecordCount := Z.of_nat (len batchOrders);
                     Description := "IN句使用のバッチ取得アプローチ" |} in
              _ ← Printf (Measured batchDuration (len batchOrders));
              _ ← displayPerformanceComparison results;
              mret (Some (results, None))
          end
      end
  end.

Definition CompareEmployeePerformance
  : IO (slice PerformanceResult * option error) :=
  let results := nil_slice in
  _ ← Printf (Println "=== 社員データ取得パフォーマンス比較 ===");
  _ ← Printf (Println "1. N+1問題のあるアプローチを実行中...");
  start ← time_Now;
  '(problemEmployees, err) ←
    call (ProblemEmployeeRepository.GetEmployeesWithDepartment (db s));
  match err with
  | Some err =>
      mret (nil_slice, Some (Errorf "N+1問題のあるアプローチでエラー: " err))
  | None =>
      problemDuration ← time_Since start;
      let results :=
        append results
          {| Method := "N+1_Problem";
             ExecutionTime := problemDuration;
             RecordCount := Z.of_nat (len problemEmployees);
             Description := "N+1問題のあるアプローチ（ループ内でDBアクセス）" |} in
      _ ← Printf (Measured problemDuration (len problemEmployees));
      _ ← Printf (Println "2. JOIN使用の最適化アプローチを実行中...");
      start ← time_Now;
      '(joinEmployees, err) ←
        call (OptimizedEmployeeRepository.GetEmployeesWithDepartmentJoin (db s));
      match err with
      | Some err =>
          mret (nil_slice, Some (Errorf "JOIN最適化アプローチでエラー: " err))
      | None =>
          joinDuration ← time_Since start;
          let results :=
            append results
              {| Method := "JOIN_Optimized";
                 ExecutionTime := joinDuration;
                 RecordCount := Z.of_nat (len joinEmployees);
                 Description := "JOIN使用の最適化アプローチ（一括取得）" |} in
          _ ← Printf (Measured joinDuration (len joinEmployees));
          _ ← Printf (Println "3. バッチ取得アプローチを実行中...");
          start ← time_Now;
          '(batchEmployees, err) ←
            call (OptimizedEmployeeRepository.GetEmployeesWithDepartmentBatch (db s));
          match err with
          | Some err =>
              mret (nil_slice, Some (Errorf "バッチ最適化アプローチでエラー: " err))
          | None =>
              batchDuration ← time_Since start;
              let results :=
                append results
                  {| Method := "Batch_Optimized";
                     ExecutionTime := batchDuration;
                     RecordCount := Z.of_nat (len batchEmployees);
                     Description := "バッチ取得アプローチ" |} in
              _ ← Printf (Measured batchDuration (len batchEmployees));
              _ ← displayPerformanceComparison results;
              mret (results, None)
          end
      end
  end.

(** [for j, detail := range order.Details]: the details from index [j] on,
    of the [n] details of the order. *)
Fixpoint show_details (n : nat) (j : nat) (details : list OrderDetail.t)
  : IO unit :=
  match details with
  | [] => mret tt
  | detail :: details' =>
      if bool_decide (3 ≤ j)%nat
      then Printf (MoreDetails (Z.of_nat n - 3))
      else _ ← Printf (DetailLine detail); show_details n (S j) details'
  end.

(** [for i := 0; i < displayCount; i++] over the indexes [indexes] still to come;
    an index out of range panics. *)
Fixpoint show_orders (orders : slice OrderWithDetails.t) (indexes : list nat)
  : IO (option unit) :=
  match indexes with
  | [] => mret (Some tt)
  | i :: indexes' =>
      match elems orders !! i with
      | None => mret None
      | Some order =>
          _ ← Printf (OrderLine (OrderWithDetails.Order order));
          _ ← show_details (len (OrderWithDetails.Details order)) 0
                (elems (OrderWithDetails.Details order));
          _ ← Printf (Println EmptyString);
          show_orders orders indexes'
      end
  end.

Definition departmentInfo (emp : EmployeeWithDepartment.t) : string :=
  match EmployeeWithDepartment.Department emp with
  | Some department =>
      Department.DepartmentName department +:+ " ("
      +:+ Department.Location department +:+ ")"
  | None => "不明"
  end.

Fixpoint show_employees (employees : slice EmployeeWithDepartment.t)
    (indexes : list nat) : IO (option unit) :=
  match indexes with
  | [] => mret (Some tt)
  | i :: indexes' =>
      match elems employees !! i with
      | None => mret None
      | Some emp =>
          _ ← Printf (EmployeeLine (EmployeeWithDepartment.Employee emp)
                        (departmentInfo emp));
          show_employees employees indexes'
      end
  end.

(** [displayCount := count; if len(xs) < displayCount { displayCount = len(xs) }] *)
Definition displayCount (count : Z) (n : nat) : Z :=
  if bool_decide (Z.of_nat n < count) then Z.of_nat n else count.

(** The employee half of [DisplaySampleData]. *)
Definition DisplaySampleEmployees (employeeCount : Z) : IO (option (option error)) :=
  if bool_decide (0 < employeeCount) then
    _ ← Printf (EmployeeSampleTitle employeeCount);
    '(employees, err) ←
      call (OptimizedEmployeeRepository.GetEmployeesWithDepartmentJoin (db s));
    match err with
    | Some err => mret (Some (Some (Errorf "社員データの取得に失敗: " err)))
    | None =>
        shown ← show_employees employees
                  (seq 0 (Z.to_nat (displayCount employeeCount (len employees))));
        match shown with
        | None => mret None
        | Some _ => mret (Some None)
        end
    end
  else mret (Some None).

(** [None] is a panic, [Some err] the returned error. *)
Definition DisplaySampleData (orderCount employeeCount : Z)
  : IO (option (option error)) :=
  _ ← Printf (Println "=== サンプルデータ表示 ===");
  if bool_decide (0 < orderCount) then
    _ ← Printf (OrderSampleTitle orderCount);
    joined ← call (OptimizedOrderRepository.GetOrdersWithDetailsJoin (db s) 30);
    match joined with
    | None => mret None
    | Some (orders, Some err) =>
        mret (Some (Some (Errorf "受注データの取得に失敗: " err)))
    | Some (orders, None) =>
        shown ← show_orders orders
                  (seq 0 (Z.to_nat (displayCount orderCount (len orders))));
        match shown with
        | None => mret None
        | Some _ => DisplaySampleEmployees employeeCount
        end
    end
  else DisplaySampleEmployees employeeCount.

End Methods.
End DemoService.

(** ** Vocabulary of the service properties *)

(** The two shapes of what a comparison returns: the three measurements in
    their fixed order, or no measurement and the wrapped error of one
    strategy. *)
Definition all_or_nothing (res : slice service.PerformanceResult)
    (err : option error) : Prop :=
  (err = None
   ∧ service.Method <$> elems res = ["N+1_Problem"; "JOIN_Optimized"; "Batch_Optimized"])
  ∨ (res = nil_slice
     ∧ ∃ prefix cause,
         err = Some (Errorf prefix cause)
         ∧ prefix ∈ ["N+1問題のあるアプローチでエラー: ";
                     "JOIN最適化アプローチでエラー: ";
                     "バッチ最適化アプローチでエラー: "]).

(** The process [p] after it has written [out]. *)
Definition emit (p : DemoService.Process) (out : list DemoService.Output)
  : DemoService.Process :=
  {| DemoService.statements := DemoService.statements p;
     DemoService.readings := DemoService.readings p;
     DemoService.stdout := DemoService.stdout p ++ out |}.

(** The lines of one order in the sample display: the order, its first three
    details, the number of the details left out if there are any, and an
    empty line. *)
Definition order_block (a : OrderWithDetails.t) : list DemoService.Output :=
  let details := elems (OrderWithDetails.Details a) in
  DemoService.OrderLine (OrderWithDetails.Order a)
  :: (DemoService.DetailLine <$> take 3 details)
  ++ (if bool_decide (3 < List.length details)%nat
      then [DemoService.MoreDetails (Z.of_nat (List.length details) - 3)]
      else [])
  ++ [DemoService.Println EmptyString].

Definition employee_line (a : EmployeeWithDepartment.t) : DemoService.Output :=
  DemoService.EmployeeLine (EmployeeWithDepartment.Employee a)
    (DemoService.departmentInfo a).

(** ** Sample surroundings *)

Module Runs.

(** A clock whose readings are 0, 1, 4, 9, ... milliseconds. *)
Definition env (w : World) : DemoService.Env :=
  {| DemoService.db := w;
     DemoService.clock := λ k, Timings.ms (Z.of_nat (k * k)) |}.

(** The engine over [Samples.two_orders], except that the order join is
    answered with [Cursors.half_null_cursor]. *)
Definition half_null_join : World :=
  {| respond := λ n q,
       match q with
       | SelectOrdersJoinDetails _ => QueryRows Cursors.half_null_cursor
       | q' => Relational.answer Samples.two_orders n q'
       end;
     map_order := id |}.

(** Two orders, the first with five details, and two employees, the second
    in a department without a row. *)
Definition catalogue : Relational.Database :=
  {| Relational.orders := [Samples.order 1; Samples.order 2];
     Relational.order_details :=
       [Samples.detail 11 1; Samples.detail 12 1; Samples.detail 13 1;
        Samples.detail 14 1; Samples.detail 15 1; Samples.detail 21 2];
     Relational.employees := [Samples.employee 1 10; Samples.employee 2 99];
     Relational.departments := [Samples.department 10];
     Relational.recent := λ _ _, true |}.

End Runs.

(** ** package cache *)

(** [int64] arithmetic wraps around. *)
Definition int64 (z : Z) : Z := (z + 2 ^ 63) mod 2 ^ 64 - 2 ^ 63.

(** [if cond { recommendations = append(recommendations, text) }] *)
Definition append_if (cond : bool) (text : string) (l : list string) : list string :=
  if cond then l ++ [text] else l.

Module ResultCacheMetrics.
Record t : Type := mk {
  HitRatio : float64;
  ObjectCount : Z;
  BlockCount : Z;
  MemoryUsage : Z;
  CreatedObjects : Z;
  ExpiredObjects : Z;
  InvalidatedObjects : Z;
  TestExecutionTime : Z;
  CacheHits : Z;
  CacheMisses : Z;
  InvalidationDependencies : Z
}.
Definition zero : t := mk 0%float 0 0 0 0 0 0 0 0 0 0.
End ResultCacheMetrics.

Module OracleResultCache.
Import ResultCacheMetrics.

(** The surroundings of the cache test: whether the statement number [n] of
    the run, which is the query number [i] of [executeResultCacheTest],
    fails; and the readings of the monotonic clock.  The rows of a statement
    that succeeds are read and dropped, [Scan] errors included. *)
Record Env : Type := {
  respond : nat → nat → option error;
  clock : nat → Z
}.

(** The state of a run: the field [rc.metrics], the query numbers of the
    statements issued, and the number of clock readings taken.  Standard
    output is left out. *)
Record Process : Type := {
  metrics : option t;
  statements : list nat;
  readings : nat
}.

(** [NewOracleResultCache]: [metrics: &ResultCacheMetrics{}]. *)
Definition NewOracleResultCache : Process :=
  {| metrics := Some zero; statements := []; readings := 0 |}.

Definition IO (A : Type) : Type := Process → A * Process.

#[global] Instance IO_ret : MRet IO := λ A a p, (a, p).
#[global] Instance IO_bind : MBind IO := λ A B f m p,
  let '(a, p') := m p in f a p'.

(** [rc.metrics = m] *)
Definition set_metrics (m : t) : IO unit :=
  λ p, (tt, {| metrics := Some m; statements := statements p;
               readings := readings p |}).

(** [checkResultCacheStatus] only prints. *)
Definition checkResultCacheStatus : option error := None.

Definition collectMetrics : t * option error :=
  (mk 0%float 0 0 0 0 0 0 0 0 0 0, None).

Definition calculateDifferential (initial final : t) : t :=
  let diff :=
    {| HitRatio := HitRatio final;
       ObjectCount := int64 (ObjectCount final - ObjectCount initial);
       BlockCount := int64 (BlockCount final - BlockCount initial);
       MemoryUsage := int64 (MemoryUsage final - MemoryUsage initial);
       CreatedObjects := int64 (CreatedObjects final - CreatedObjects initial);
       ExpiredObjects := int64 (ExpiredObjects final - ExpiredObjects initial);
       InvalidatedObjects :=
         int64 (InvalidatedObjects final - InvalidatedObjects initial);
       TestExecutionTime := 0;
       CacheHits := 0;
       CacheMisses := 0;
       InvalidationDependencies :=
         int64 (InvalidationDependencies final - InvalidationDependencies initial) |} in
  if bool_decide (0 < CreatedObjects diff)
  then {| HitRatio := HitRatio diff;
          ObjectCount := ObjectCount diff;
          BlockCount := BlockCount diff;
          MemoryUsage := MemoryUsage diff;
          CreatedObjects := CreatedObjects diff;
          ExpiredObjects := ExpiredObjects diff;
          InvalidatedObjects := InvalidatedObjects diff;
          TestExecutionTime := TestExecutionTime diff;
          CacheHits := int64 (ObjectCount diff * 2);
          CacheMisses := CreatedObjects diff;
          InvalidationDependencies := InvalidationDependencies diff |}
  else diff.

(** [rc.metrics.TestExecutionTime = d] *)
Definition with_TestExecutionTime (m : t) (d : Z) : t :=
  {| HitRatio := HitRatio m;
     ObjectCount := ObjectCount m;
     BlockCount := BlockCount m;
     MemoryUsage := MemoryUsage m;
     CreatedObjects := CreatedObjects m;
     ExpiredObjects := ExpiredObjects m;
     InvalidatedObjects := InvalidatedObjects m;
     TestExecutionTime := d;
     CacheHits := CacheHits m;
     CacheMisses := CacheMisses m;
     InvalidationDependencies := InvalidationDependencies m |}.

Definition recommendations : list string :=
  [ "✓ Oracle Server Result Cacheは複雑な集計クエリの結果を自動キャッシュ";
    "✓ RESULT_CACHEヒントで明示的にキャッシュ対象を指定可能";
    "✓ データ変更時に関連キャッシュが自動的に無効化される";
    "✓ 外部キャッシュと異なり、SQL解析とデータ整合性チェックが不要";
    "✓ 複数セッション間でキャッシュを共有するため効率的" ].

Definition low_hit_ratio : string :=
  "⚠ Result Cacheヒット率が低い - RESULT_CACHEヒントの使用を増やす".
Definition frequent_invalidation : string :=
  "⚠ 無効化が頻繁 - 更新頻度の高いテーブルへのResult Cache使用を見直す".
Definition large_memory : string :=
  "⚠ Result Cacheメモリ使用量が大きい - RESULT_CACHE_MAX_SIZEパラメータの調整を検討".
Definition excellent_hit_ratio : string :=
  "✓ 優秀なResult Cacheヒット率（80%以上）- 現在の使用方法は適切".

(** The argument is the field [rc.metrics]; integer division truncates. *)
Definition GetOptimizationRecommendations (metrics : option t) : list string :=
  match metrics with
  | None => recommendations
  | Some m =>
      append_if (PrimFloat.leb 80 (HitRatio m)) excellent_hit_ratio
        (append_if (bool_decide (100 * 1024 * 1024 < MemoryUsage m)) large_memory
           (append_if (bool_decide (CreatedObjects m ÷ 2 < InvalidatedObjects m))
              frequent_invalidation
              (append_if (PrimFloat.ltb (HitRatio m) 50) low_hit_ratio
                 recommendations)))
  end.

Section Methods.
Variable s : Env.

Definition db_Query (i : nat) : IO (option error) :=
  λ p, (respond s (List.length (statements p)) i,
        {| metrics := metrics p; statements := statements p ++ [i];
           readings := readings p |}).

Definition time_Now : IO Z :=
  λ p, (clock s (readings p),
        {| metrics := metrics p; statements := statements p;
           readings := S (readings p) |}).

Definition time_Since (start : Z) : IO Z :=
  now ← time_Now; mret (time.Sub now start).

(** [for i, query := range queries] over the query numbers still to come. *)
Fixpoint run_queries (queries : list nat) : IO (option error) :=
  match queries with
  | [] => mret None
  | i :: queries' =>
      err ← db_Query i;
      match err with
      | Some err =>
          mret (Some (Errorf ("result cacheクエリ" +:+ fmt_d (Z.of_nat i + 1)
                              +:+ "実行エラー: ") err))
      | None => run_queries queries'
      end
  end.

(** The four statements are named by their index in [queries]. *)
Definition executeResultCacheTest (isFirstRun : bool) : IO (option error) :=
  run_queries [0; 1; 2; 3]%nat.

(** [for i := 0; i < runs; i++] with [n] iterations still to come: the sum
    of the durations, or the error that ends the test. *)
Fixpoint test_runs (n : nat) (i : Z) (totalDuration : Z) : IO (error + Z) :=
  match n with
  | O => mret (inr totalDuration)
  | S n' =>
      start ← time_Now;
      err ← executeResultCacheTest (bool_decide (i = 0));
      match err with
      | Some err => mret (inl (Errorf "result cacheテスト実行エラー: " err))
      | None =>
          duration ← time_Since start;
          test_runs n' (i + 1) (int64 (totalDuration + duration))
      end
  end.

(** [None] is a panic: the division by [time.Duration(runs)] when [runs] is
    zero. *)
Definition TestResultCachePerformance (runs : Z)
  : IO (option (option t * option error)) :=
  match checkResultCacheStatus with
  | Some err => mret (Some (None, Some (Errorf "result cache状態確認エラー: " err)))
  | None =>
      let '(initialMetrics, err) := collectMetrics in
      match err with
      | Some err => mret (Some (None, Some (Errorf "初期メトリクス取得エラー: " err)))
      | None =>
          total ← test_runs (Z.to_nat runs) 0 0;
          match total with
          | inl err => mret (Some (None, Some err))
          | inr totalDuration =>
              let '(finalMetrics, err) := collectMetrics in
              match err with
              | Some err =>
                  mret (Some (None, Some (Errorf "最終メトリクス取得エラー: " err)))
              | None =>
                  let diff := calculateDifferential initialMetrics finalMetrics in
                  _ ← set_metrics diff;
                  if bool_decide (runs = 0) then mret None
                  else
                    let measured :=
                      with_TestExecutionTime diff (int64 (totalDuration ÷ runs)) in
                    _ ← set_metrics measured;
                    mret (Some (Some measured, None))
              end
          end
      end
  end.

End Methods.
End OracleResultCache.

Module BufferCacheMetrics.
Record t : Type := mk {
  HitRatio : float64;
  PhysicalReads : Z;
  LogicalReads : Z;
  FreeBufferWaits : Z;
  BufferBusyWaits : Z;
  TotalSizeBytes : Z;
  AvgResponseTime : Z;
  TestExecutionTime : Z;
  ConsistentGets : Z;
  DbBlockGets : Z
}.
Definition zero : t := mk 0%float 0 0 0 0 0 0 0 0 0.
End BufferCacheMetrics.

Module OracleBufferCache.
Import BufferCacheMetrics.

Definition calculateDifferential (initial final : t) : t :=
  let diff :=
    {| HitRatio := HitRatio final;
       PhysicalReads := int64 (PhysicalReads final - PhysicalReads initial);
       LogicalReads := int64 (LogicalReads final - LogicalReads initial);
       FreeBufferWaits := int64 (FreeBufferWaits final - FreeBufferWaits initial);
       BufferBusyWaits := int64 (BufferBusyWaits final - BufferBusyWaits initial);
       TotalSizeBytes := TotalSizeBytes final;
       AvgResponseTime := 0;
       TestExecutionTime := 0;
       ConsistentGets := int64 (ConsistentGets final - ConsistentGets initial);
       DbBlockGets := int64 (DbBlockGets final - DbBlockGets initial) |} in
  if bool_decide (0 < LogicalReads diff)
  then {| HitRatio :=
            PrimFloat.mul
              (PrimFloat.sub 1
                 (PrimFloat.div (service.float64_of_int64 (PhysicalReads diff))
                    (service.float64_of_int64 (LogicalReads diff))))
              100;
          PhysicalReads := PhysicalReads diff;
          LogicalReads := LogicalReads diff;
          FreeBufferWaits := FreeBufferWaits diff;
          BufferBusyWaits := BufferBusyWaits diff;
          TotalSizeBytes := TotalSizeBytes diff;
          AvgResponseTime := AvgResponseTime diff;
          TestExecutionTime := TestExecutionTime diff;
          ConsistentGets := ConsistentGets diff;
          DbBlockGets := DbBlockGets diff |}
  else diff.

Definition recommendations : list string :=
  [ "✓ Oracle Database Buffer Cacheは自動的にLRU (Least Recently Used) アルゴリズムで管理される";
    "✓ 頻繁にアクセスされるデータブロックは自動的にメモリに保持される";
    "✓ 外部キャッシュと異なり、データの整合性が自動的に保証される";
    "✓ 複数のセッションでBuffer Cacheを共有するため、メモリ効率が高い" ].

Definition low_hit_ratio : string :=
  "⚠ Buffer Cacheヒット率が低い（90%未満）- Buffer Cacheサイズの増加を検討".
Definition free_buffer_waits : string :=
  "⚠ Free Buffer待機が発生 - Buffer CacheサイズまたはDBWRプロセス数の調整を検討".
Definition buffer_busy_waits : string :=
  "⚠ Buffer Busy待機が発生 - ホットブロックの分散またはFreelist調整を検討".
Definition excellent_hit_ratio : string :=
  "✓ 優秀なBuffer Cacheヒット率（95%以上）- 現在の設定は適切".

Definition GetOptimizationRecommendations (metrics : option t) : list string :=
  match metrics with
  | None => recommendations
  | Some m =>
      append_if (PrimFloat.leb 95 (HitRatio m)) excellent_hit_ratio
        (append_if (bool_decide (100 < BufferBusyWaits m))
           buffer_busy_waits
           (append_if (bool_decide (100 < FreeBufferWaits m))
              free_buffer_waits
              (append_if (PrimFloat.ltb (HitRatio m) 90) low_hit_ratio
                 recommendations)))
  end.

(** The statements of the buffer cache test: the query number [i] of
    [executeBufferCacheTest], and the three statements of the analysis. *)
Inductive Statement : Type :=
| TestQuery (i : nat)
| PoolQuery
| WaitEventQuery
| AdvisoryQuery.

(** Whether the statement number [n] of the run fails, and the readings of
    the monotonic clock.  Rows are only printed or dropped, and a row that
    fails to scan is skipped. *)
Record Env : Type := {
  respond : nat → Statement → option error;
  clock : nat → Z
}.

(** The field [bc.metrics], the statements issued, and the number of clock
    readings taken.  Standard output is left out. *)
Record Process : Type := {
  metrics : option t;
  statements : list Statement;
  readings : nat
}.

(** [NewOracleBufferCache]: [metrics: &BufferCacheMetrics{}]. *)
Definition NewOracleBufferCache : Process :=
  {| metrics := Some zero; statements := []; readings := 0 |}.

Definition IO (A : Type) : Type := Process → A * Process.

#[global] Instance IO_ret : MRet IO := λ A a p, (a, p).
#[global] Instance IO_bind : MBind IO := λ A B f m p,
  let '(a, p') := m p in f a p'.

(** [bc.metrics = m] *)
Definition set_metrics (m : t) : IO unit :=
  λ p, (tt, {| metrics := Some m; statements := statements p;
               readings := readings p |}).

Definition collectMetrics : t * option error :=
  (mk 0%float 0 0 0 0 0 0 0 0 0, None).

(** [bc.metrics.TestExecutionTime = d] *)
Definition with_TestExecutionTime (m : t) (d : Z) : t :=
  {| HitRatio := HitRatio m;
     PhysicalReads := PhysicalReads m;
     LogicalReads := LogicalReads m;
     FreeBufferWaits := FreeBufferWaits m;
     BufferBusyWaits := BufferBusyWaits m;
     TotalSizeBytes := TotalSizeBytes m;
     AvgResponseTime := AvgResponseTime m;
     TestExecutionTime := d;
     ConsistentGets := ConsistentGets m;
     DbBlockGets := DbBlockGets m |}.

Section Methods.
Variable s : Env.

Definition db_Query (q : Statement) : IO (option error) :=
  λ p, (respond s (List.length (statements p)) q,
        {| metrics := metrics p; statements := statements p ++ [q];
           readings := readings p |}).

Definition time_Now : IO Z :=
  λ p, (clock s (readings p),
        {| metrics := metrics p; statements := statements p;
           readings := S (readings p) |}).

Definition time_Since (start : Z) : IO Z :=
  now ← time_Now; mret (time.Sub now start).

(** [for i, query := range queries] over the query numbers still to come. *)
Fixpoint run_queries (queries : list nat) : IO (option error) :=
  match queries with
  | [] => mret None
  | i :: queries' =>
      err ← db_Query (TestQuery i);
      match err with
      | Some err =>
          mret (Some (Errorf ("クエリ" +:+ fmt_d (Z.of_nat i + 1)
                              +:+ "実行エラー: ") err))
      | None => run_queries queries'
      end
  end.

Definition executeBufferCacheTest (isFirstRun : bool) : IO (option error) :=
  run_queries [0; 1; 2; 3]%nat.

(** [for i := 0; i < runs; i++] with [n] iterations still to come: the sum
    of the durations, or the error that ends the test. *)
Fixpoint test_runs (n : nat) (i : Z) (totalDuration : Z) : IO (error + Z) :=
  match n with
  | O => mret (inr totalDuration)
  | S n' =>
      start ← time_Now;
      err ← executeBufferCacheTest (bool_decide (i = 0));
      match err with
      | Some err => mret (inl (Errorf "buffer Cacheテスト実行エラー: " err))
      | None =>
          duration ← time_Since start;
          test_runs n' (i + 1) (int64 (totalDuration + duration))
      end
  end.

Definition analyzeTopWaitEvents : IO (option error) := db_Query WaitEventQuery.

Definition analyzeBufferCacheAdvisory : IO (option error) := db_Query AdvisoryQuery.

(** The errors of the two later analyses are only printed. *)
Definition analyzeBufferCacheEfficiency : IO (option error) :=
  err ← db_Query PoolQuery;
  match err with
  | Some err => mret (Some (Errorf "buffer Pool情報取得エラー: " err))
  | None =>
      _ ← analyzeTopWaitEvents;
      _ ← analyzeBufferCacheAdvisory;
      mret None
  end.

(** [None] is a panic: the division by [time.Duration(runs)] when [runs] is
    zero.  The error of the analysis is only printed. *)
Definition TestBufferCachePerformance (runs : Z)
  : IO (option (option t * option error)) :=
  let '(initialMetrics, err) := collectMetrics in
  match err with
  | Some err => mret (Some (None, Some (Errorf "初期メトリクス取得エラー: " err)))
  | None =>
      total ← test_runs (Z.to_nat runs) 0 0;
      match total with
      | inl err => mret (Some (None, Some err))
      | inr totalDuration =>
          let '(finalMetrics, err) := collectMetrics in
          match err with
          | Some err =>
              mret (Some (None, Some (Errorf "最終メトリクス取得エラー: " err)))
          | None =>
              let diff := calculateDifferential initialMetrics finalMetrics in
              _ ← set_metrics diff;
              if bool_decide (runs = 0) then mret None
              else
                let measured :=
                  with_TestExecutionTime diff (int64 (totalDuration ÷ runs)) in
                _ ← set_metrics measured;
                _ ← analyzeBufferCacheEfficiency;
                mret (Some (Some measured, None))
          end
      end
  end.

End Methods.
End OracleBufferCache.

(** ** package service: the cache service *)

Module CacheService.

Record CacheResult : Type := {
  Method : string;
  ExecutionTime : Z;
  MemoryUsage : Z;
  HitRate : float64;
  Description : string
}.

(** The statements of [testDatabaseBufferCache]: its test query, and the
    statement of [getBufferCacheStats]. *)
Inductive Statement : Type :=
| BufferCacheQuery
| BufferCacheStats.

(** What the statement number [n] of the run is answered with when it is the
    test query, whether it fails when it is the statement on the statistics,
    and the readings of the monotonic clock. *)
Record Env : Type := {
  query : nat → QueryResult unit;
  query_row : nat → option error;
  clock : nat → Z
}.

(** The field [c.results], the statements issued, and the number of clock
    readings taken.  Standard output is left out. *)
Record Process : Type := {
  results : slice CacheResult;
  statements : list Statement;
  readings : nat
}.

(** [NewCacheService]: [results: make([]CacheResult, 0)]. *)
Definition NewCacheService : Process :=
  {| results := slice_of []; statements := []; readings := 0 |}.

Definition IO (A : Type) : Type := Process → A * Process.

#[global] Instance IO_ret : MRet IO := λ A a p, (a, p).
#[global] Instance IO_bind : MBind IO := λ A B f m p,
  let '(a, p') := m p in f a p'.

(** [c.results = append(c.results, r)] *)
Definition append_result (r : CacheResult) : IO unit :=
  λ p, (tt, {| results := append (results p) r; statements := statements p;
               readings := readings p |}).

(** The loop over the cursor: the first row that fails to scan ends the
    test. *)
Fixpoint scan_rows (rows : list (Scanned unit)) (count : Z) : error + Z :=
  match rows with
  | [] => inr count
  | ScanOk _ :: rows' => scan_rows rows' (int64 (count + 1))
  | ScanErr err :: _ => inl (Errorf "スキャンエラー: " err)
  end.

(** [result.HitRate == 0] in [DisplayCacheComparison]: [None] is the text
    [N/A], [Some rate] the rate that is formatted. *)
Definition hitRateStr (result : CacheResult) : option float64 :=
  if PrimFloat.eqb (HitRate result) 0 then None else Some (HitRate result).

Section Methods.
Variable s : Env.

Definition db_Query : IO (QueryResult unit) :=
  λ p, (query s (List.length (statements p)),
        {| results := results p; statements := statements p ++ [BufferCacheQuery];
           readings := readings p |}).

Definition db_QueryRow : IO (option error) :=
  λ p, (query_row s (List.length (statements p)),
        {| results := results p; statements := statements p ++ [BufferCacheStats];
           readings := readings p |}).

Definition time_Now : IO Z :=
  λ p, (clock s (readings p),
        {| results := results p; statements := statements p;
           readings := S (readings p) |}).

Definition time_Since (start : Z) : IO Z :=
  now ← time_Now; mret (time.Sub now start).

(** Its error is only printed by the caller. *)
Definition getBufferCacheStats : IO (option error) := db_QueryRow.

(** [for i := 0; i < runs; i++] of [testDatabaseBufferCache] with [n]
    iterations still to come: [totalDuration] and [hitCount] at its end, or
    the error that ends the test.  [50*time.Millisecond] is 50000000. *)
Fixpoint buffer_runs (n : nat) (i : Z) (totalDuration hitCount : Z)
  : IO (error + Z * Z) :=
  match n with
  | O => mret (inr (totalDuration, hitCount))
  | S n' =>
      start ← time_Now;
      res ← db_Query;
      match res with
      | QueryErr err =>
          mret (inl (Errorf "database buffer cacheクエリでエラー: " err))
      | QueryRows rows =>
          match scan_rows rows 0 with
          | inl err => mret (inl err)
          | inr count =>
              duration ← time_Since start;
              let totalDuration := int64 (totalDuration + duration) in
              let hitCount :=
                if bool_decide (0 < i) && bool_decide (duration < 50000000)
                then int64 (hitCount + 1) else hitCount in
              buffer_runs n' (i + 1) totalDuration hitCount
          end
      end
  end.

(** [None] is a panic: the division by [time.Duration(runs)] when [runs] is
    zero; [Some err] is the returned error. *)
Definition testDatabaseBufferCache (runs : Z) : IO (option (option error)) :=
  total ← buffer_runs (Z.to_nat runs) 0 0 0;
  match total with
  | inl err => mret (Some (Some err))
  | inr (totalDuration, hitCount) =>
      if bool_decide (runs = 0) then mret None
      else
        let avgDuration := int64 (totalDuration ÷ runs) in
        let hitRate :=
          PrimFloat.mul
            (PrimFloat.div (service.float64_of_int64 hitCount)
               (service.float64_of_int64 (int64 (runs - 1))))
            100 in
        _ ← append_result
              {| Method := "Oracle_Buffer_Cache";
                 ExecutionTime := avgDuration;
                 MemoryUsage := 0;
                 HitRate := hitRate;
                 Description :=
                   "Oracle Database Buffer Cache（データブロックキャッシュ）" |};
        _ ← getBufferCacheStats;
        mret (Some None)
  end.

End Methods.
End CacheService.

(** ** package config *)

Module config.

Record Config : Type := {
  DBHost : string;
  DBPort : Z;
  DBServiceName : string;
  DBUsername : string;
  DBPassword : string;
  RedisHost : string;
  RedisPort : Z;
  RedisPassword : string;
  RedisDB : Z
}.

(** The errors of [LoadConfig], by their message; [E] is the error type of
    [strconv.Atoi]. *)
Inductive LoadError (E : Type) : Type :=
| InvalidDBPort (err : E)
| InvalidRedisPort (err : E)
| UsernameRequired
| PasswordRequired.
Arguments InvalidDBPort {E} err.
Arguments InvalidRedisPort {E} err.
Arguments UsernameRequired {E}.
Arguments PasswordRequired {E}.

Section Environment.
(** [os.Getenv] once the [.env] file is loaded: the empty string for a
    variable that is not set; and [strconv.Atoi]. *)
Context {E : Type}.
Variables (Getenv : string → string) (Atoi : string → E + Z).

Definition getEnv (key defaultValue : string) : string :=
  if decide (Getenv key = EmptyString) then defaultValue else Getenv key.

Definition LoadConfig : LoadError E + Config :=
  let DBHost := getEnv "DB_HOST" "localhost" in
  let DBServiceName := getEnv "DB_SERVICE_NAME" "ORCLPDB1" in
  let DBUsername := getEnv "DB_USERNAME" EmptyString in
  let DBPassword := getEnv "DB_PASSWORD" EmptyString in
  let RedisHost := getEnv "REDIS_HOST" "localhost" in
  let RedisPassword := getEnv "REDIS_PASSWORD" EmptyString in
  match Atoi (getEnv "DB_PORT" "1521") with
  | inl err => inl (InvalidDBPort err)
  | inr port =>
      match Atoi (getEnv "REDIS_PORT" "6379") with
      | inl err => inl (InvalidRedisPort err)
      | inr redisPort =>
          if decide (DBUsername = EmptyString) then inl UsernameRequired
          else if decide (DBPassword = EmptyString) then inl PasswordRequired
          else inr {| DBHost := DBHost;
                      DBPort := port;
                      DBServiceName := DBServiceName;
                      DBUsername := DBUsername;
                      DBPassword := DBPassword;
                      RedisHost := RedisHost;
                      RedisPort := redisPort;
                      RedisPassword := RedisPassword;
                      RedisDB := 0 |}
      end
  end.

End Environment.
End config.

(** ** package main *)

Module main.

(** The command-line flags that select what a run does. *)
Record Flags : Type := {
  days : Z;
  showSample : bool;
  showStats : bool;
  orderOnly : bool;
  employeeOnly : bool;
  cacheTest : bool;
  cacheOnly : bool;
  benchmarkRuns : Z;
  help : bool
}.

(** The test functions [main] calls. *)
Inductive Call : Type :=
| runOrderTests (days : Z)
| runEmployeeTests
| runCacheTests (benchmarkRuns : Z).

Definition runAllTests (days : Z) : list Call :=
  [runOrderTests days; runEmployeeTests].

(** The [switch] on the mode flags in [main]: the calls of the first case
    that holds, in their order. *)
Definition mode (f : Flags) : list Call :=
  if cacheOnly f then [runCacheTests (benchmarkRuns f)]
  else if cacheTest f && negb (orderOnly f) && negb (employeeOnly f)
  then runAllTests (days f) ++ [runCacheTests (benchmarkRuns f)]
  else if orderOnly f
  then runOrderTests (days f)
       :: (if cacheTest f then [runCacheTests (benchmarkRuns f)] else [])
  else if employeeOnly f
  then runEmployeeTests
       :: (if cacheTest f then [runCacheTests (benchmarkRuns f)] else [])
  else runAllTests (days f).

End main.

(** ** Vocabulary of the cache properties *)

(** The sum [totalDuration] after [n] runs that start at the clock reading
    number [r]: run [k] lasts from reading [r + 2k] to reading [r + 2k + 1]. *)
Definition total_duration (clock : nat → Z) (r n : nat) : Z :=
  foldl (λ total k,
           int64 (total + time.Sub (clock (r + 2 * k + 1)%nat) (clock (r + 2 * k)%nat)))
        0 (seq 0 n).

(** The number of the runs [1], ..., [n - 1] that last less than 50
    milliseconds, run [k] lasting from the clock reading [r + 2k] to the
    reading [r + 2k + 1]. *)
Definition fast_later_runs (clock : nat → Z) (r n : nat) : Z :=
  Z.of_nat
    (List.length
       (filter (λ k, (0 < k)%nat
                     ∧ time.Sub (clock (r + 2 * k + 1)%nat) (clock (r + 2 * k)%nat)
                       < 50000000)
          (seq 0 n))).

(** ** Sample environments *)

Module Environments.

(** Only the credentials are set. *)
Definition credentials (key : string) : string :=
  if decide (key = "DB_USERNAME") then "demo"
  else if decide (key = "DB_PASSWORD") then "secret"
  else EmptyString.

(** A parser that knows the two default ports. *)
Definition default_ports (text : string) : string + Z :=
  if decide (text = "1521") then inr 1521
  else if decide (text = "6379") then inr 6379
  else inl "invalid syntax".

End Environments.

(** ** Sample surroundings of the cache test *)

Module CacheRuns.

(** Every statement succeeds. *)
Definition healthy : OracleResultCache.Env :=
  {| OracleResultCache.respond := λ _ _, None;
     OracleResultCache.clock := λ k, Timings.ms (Z.of_nat (k * k)) |}.

(** The statement number [bad] fails. *)
Definition flaky (bad : nat) : OracleResultCache.Env :=
  {| OracleResultCache.respond := λ n _,
       if decide (n = bad)
       then Some (DriverError "ORA-03113: end-of-file on communication channel")
       else None;
     OracleResultCache.clock := λ k, Timings.ms (Z.of_nat (k * k)) |}.

(** Every statement of the buffer cache test succeeds, and every statement
    of its analysis fails. *)
Definition analysis_fails : OracleBufferCache.Env :=
  {| OracleBufferCache.respond := λ _ q,
       match q with
       | OracleBufferCache.TestQuery _ => None
       | _ => Some (DriverError "ORA-00942: table or view does not exist")
       end;
     OracleBufferCache.clock := λ k, Timings.ms (Z.of_nat (k * k)) |}.

(** Only the statement on the wait events fails. *)
Definition wait_events_fail : OracleBufferCache.Env :=
  {| OracleBufferCache.respond := λ _ q,
       match q with
       | OracleBufferCache.WaitEventQuery =>
           Some (DriverError "ORA-00942: table or view does not exist")
       | _ => None
       end;
     OracleBufferCache.clock := λ k, Timings.ms (Z.of_nat (k * k)) |}.

(** Every test query of the cache service returns two rows, and the
    statement on the statistics fails. *)
Definition two_rows : CacheService.Env :=
  {| CacheService.query := λ _, QueryRows [ScanOk tt; ScanOk tt];
     CacheService.query_row := λ _,
       Some (DriverError "ORA-00942: table or view does not exist");
     CacheService.clock := λ k, Timings.ms (Z.of_nat (k * k)) |}.

End CacheRuns.
(** * Properties *)

(** ** Slices and loops *)

Section SliceFacts.
Context {A B : Type}.
Implicit Types (s : slice A) (l : list A).

Lemma foldl_append_elems l s : elems (foldl append s l) = elems s ++ l.
Proof.
  revert s. induction l as [|x l IH]; intros s; simpl.
  - by rewrite app_nil_r.
  - rewrite IH. simpl. by rewrite <-app_assoc.
Qed.

Lemma foldl_append_slice_of l xs : foldl append (slice_of xs) l = slice_of (xs ++ l).
Proof.
  revert xs. induction l as [|x l IH]; intros xs; simpl.
  - by rewrite app_nil_r.
  - unfold append at 2. simpl. rewrite IH. by rewrite <-app_assoc.
Qed.

Lemma fill_by_index_from (f : nat → A → B) src : ∀ (pre suf : list B),
  length suf = length src →
  foldl (λ dst ix, set_index dst ix.1 (f ix.1 ix.2)) (slice_of (pre ++ suf))
        (imap (λ i x, (length pre + i, x)%nat) src)
  = slice_of (pre ++ imap (λ i, f (length pre + i)%nat) src).
Proof.
  induction src as [|x src IH]; intros pre suf Hlen.
  - destruct suf; [done|discriminate].
  - destruct suf as [|y suf]; [discriminate|]. injection Hlen as Hlen.
    cbn [imap foldl set_index fst snd].
    rewrite Nat.add_0_r.
    replace (<[length pre := f (length pre) x]> (pre ++ y :: suf))
      with ((pre ++ [f (length pre) x]) ++ suf).
    2:{ rewrite <-app_assoc. simpl.
        rewrite insert_app_r_alt by lia. by rewrite Nat.sub_diag. }
    specialize (IH (pre ++ [f (length pre) x]) suf Hlen).
    rewrite length_app in IH. simpl in IH.
    rewrite (imap_ext _ (λ i x0, ((length pre + 1 + i)%nat, x0)) src).
    2:{ intros i z _. simpl. f_equal. lia. }
    rewrite IH. rewrite <-app_assoc. simpl. do 3 f_equal.
    apply imap_ext. intros i z _. simpl. f_equal. lia.
Qed.

(** Filling a fresh [make([]B, len(src))] by index is a map over [src]. *)
Lemma fill_by_index_make (f : nat → A → B) (zero : B) src :
  fill_by_index f src (make zero (length src)) = slice_of (imap f src).
Proof.
  unfold fill_by_index, make.
  pose proof (fill_by_index_from f src [] (replicate (length src) zero)) as H.
  simpl in H. apply H. by rewrite length_replicate.
Qed.

Lemma fill_by_index_make_map (g : A → B) (zero : B) src :
  fill_by_index (λ _, g) src (make zero (length src)) = slice_of (g <$> src).
Proof.
  rewrite fill_by_index_make. f_equal.
  induction src; simpl; [done|]. f_equal. done.
Qed.

Lemma scan_all_ok msg l s :
  scan_all msg (ScanOk <$> l) s = (foldl append s l, None).
Proof. revert s. induction l as [|x l IH]; intros s; simpl; [done|apply IH]. Qed.

(** A fetch loop that reports an error returns the nil slice. *)
Lemma scan_all_error msg rows s res err :
  scan_all msg rows s = (res, Some err) → res = nil_slice.
Proof.
  revert s. induction rows as [|[x|e] rows IH]; intros s; simpl.
  - congruence.
  - apply IH.
  - congruence.
Qed.

(** A successful fetch loop scanned every row. *)
Lemma scan_all_success msg rows s res :
  scan_all msg rows s = (res, None) →
  ∃ l, rows = ScanOk <$> l ∧ res = foldl append s l.
Proof.
  revert s. induction rows as [|[x|e] rows IH]; intros s; simpl.
  - intros [= <-]. by exists [].
  - intros H. destruct (IH _ H) as (l & -> & ->). by exists (x :: l).
  - congruence.
Qed.

End SliceFacts.

(** ** The statements each method issues *)

Section Fetches.
Variable w : World.
Implicit Types (log : list Query).

Lemma problem_GetOrdersByDays_run days log :
  ProblemOrderRepository.GetOrdersByDays w days log =
  (match respond w (List.length log) (SelectOrdersByDays days) with
   | QueryErr err => (nil_slice, Some (Errorf "failed to execute orders query: " err))
   | QueryRows rows => scan_all "failed to scan order row: " rows nil_slice
   end, log ++ [SelectOrdersByDays days]).
Proof.
  unfold ProblemOrderRepository.GetOrdersByDays. step_M.
  by destruct (respond w (List.length log) (SelectOrdersByDays days)).
Qed.

Lemma optimized_GetOrdersByDays_run days log :
  OptimizedOrderRepository.GetOrdersByDays w days log =
  ProblemOrderRepository.GetOrdersByDays w days log.
Proof. reflexivity. Qed.

Lemma GetDetailsByOrderID_run orderID log :
  ProblemOrderRepository.GetDetailsByOrderID w orderID log =
  (match respond w (List.length log) (SelectDetailsByOrderID orderID) with
   | QueryErr err =>
       (nil_slice, Some (Errorf "failed to execute order details query: " err))
   | QueryRows rows => scan_all "failed to scan order detail row: " rows nil_slice
   end, log ++ [SelectDetailsByOrderID orderID]).
Proof.
  unfold ProblemOrderRepository.GetDetailsByOrderID. step_M.
  by destruct (respond w (List.length log) (SelectDetailsByOrderID orderID)).
Qed.

Lemma GetDetailsByOrderID_error orderID log res err log' :
  ProblemOrderRepository.GetDetailsByOrderID w orderID log = ((res, Some err), log') →
  res = nil_slice.
Proof.
  rewrite GetDetailsByOrderID_run.
  destruct (respond w _ _) as [e|rows]; intros [= H]; [congruence|].
  by eapply scan_all_error.
Qed.

Lemma GetDetailsByOrderIDs_run (orderIDs : slice Z) log :
  len orderIDs ≠ 0%nat →
  OptimizedOrderRepository.GetDetailsByOrderIDs w orderIDs log =
  (match respond w (List.length log)
           (SelectDetailsByOrderIDs (in_list orderIDs) (elems orderIDs)) with
   | QueryErr err => (nil_slice, Some (Errorf "failed to execute batch query: " err))
   | QueryRows rows => scan_all "failed to scan detail row: " rows nil_slice
   end, log ++ [SelectDetailsByOrderIDs (in_list orderIDs) (elems orderIDs)]).
Proof.
  intros Hlen. unfold OptimizedOrderRepository.GetDetailsByOrderIDs.
  destruct (decide (len orderIDs = 0%nat)) as [|_]; [done|]. step_M.
  unfold len. rewrite fill_by_index_make_map, list_fmap_id. simpl.
  by destruct (respond w _ _).
Qed.

Lemma problem_GetAllEmployees_run log :
  ProblemEmployeeRepository.GetAllEmployees w log =
  (match respond w (List.length log) SelectAllEmployees with
   | QueryErr err => (nil_slice, Some (Errorf "failed to execute employees query: " err))
   | QueryRows rows => scan_all "failed to scan employee row: " rows nil_slice
   end, log ++ [SelectAllEmployees]).
Proof.
  unfold ProblemEmployeeRepository.GetAllEmployees. step_M.
  by destruct (respond w (List.length log) SelectAllEmployees).
Qed.

Lemma optimized_GetAllEmployees_run log :
  OptimizedEmployeeRepository.GetAllEmployees w log =
  (match respond w (List.length log) SelectAllEmployees with
   | QueryErr err => (nil_slice, Some (Errorf "failed to execute employee query: " err))
   | QueryRows rows => scan_all "failed to scan employee row: " rows nil_slice
   end, log ++ [SelectAllEmployees]).
Proof.
  unfold OptimizedEmployeeRepository.GetAllEmployees. step_M.
  by destruct (respond w (List.length log) SelectAllEmployees).
Qed.

Lemma GetDepartmentByID_run departmentID log :
  ProblemEmployeeRepository.GetDepartmentByID w departmentID log =
  (match respond w (List.length log) (SelectDepartmentByID departmentID) with
   | inl ErrNoRows => (None, None)
   | inl err => (None, Some (Errorf "failed to query department: " err))
   | inr dept => (Some dept, None)
   end, log ++ [SelectDepartmentByID departmentID]).
Proof.
  unfold ProblemEmployeeRepository.GetDepartmentByID. step_M.
  by destruct (respond w (List.length log) (SelectDepartmentByID departmentID))
    as [[]|].
Qed.

Lemma GetDepartmentsByIDs_run (departmentIDs : slice Z) log :
  len departmentIDs ≠ 0%nat →
  OptimizedEmployeeRepository.GetDepartmentsByIDs w departmentIDs log =
  (match respond w (List.length log)
           (SelectDepartmentsByIDs (in_list departmentIDs) (elems departmentIDs)) with
   | QueryErr err =>
       (nil_slice, Some (Errorf "failed to execute department batch query: " err))
   | QueryRows rows => scan_all "failed to scan department row: " rows nil_slice
   end, log ++ [SelectDepartmentsByIDs (in_list departmentIDs) (elems departmentIDs)]).
Proof.
  intros Hlen. unfold OptimizedEmployeeRepository.GetDepartmentsByIDs.
  destruct (decide (len departmentIDs = 0%nat)) as [|_]; [done|]. step_M.
  unfold len. rewrite fill_by_index_make_map, list_fmap_id. simpl.
  by destruct (respond w _ _).
Qed.

End Fetches.

(** ** The naive strategy *)

Section Naive.
Variable w : World.

Lemma GetDetailsByOrderID_log orderID log :
  (ProblemOrderRepository.GetDetailsByOrderID w orderID log).2
  = log ++ [SelectDetailsByOrderID orderID].
Proof. by rewrite GetDetailsByOrderID_run. Qed.

Lemma GetDepartmentByID_log departmentID log :
  (ProblemEmployeeRepository.GetDepartmentByID w departmentID log).2
  = log ++ [SelectDepartmentByID departmentID].
Proof. by rewrite GetDepartmentByID_run. Qed.

Lemma details_per_order_step order orders result log :
  ProblemOrderRepository.details_per_order w (order :: orders) result log =
  let lookup := ProblemOrderRepository.GetDetailsByOrderID w (Order.OrderID order) log in
  match lookup.1.2 with
  | Some err =>
      (nil_slice,
       Some (Errorf ("failed to get details for order "
                     +:+ fmt_d (Order.OrderID order) +:+ ": ") err),
       log ++ [SelectDetailsByOrderID (Order.OrderID order)])
  | None =>
      ProblemOrderRepository.details_per_order w orders
        (append result (OrderWithDetails.mk order lookup.1.1))
        (log ++ [SelectDetailsByOrderID (Order.OrderID order)])
  end.
Proof.
  cbn [ProblemOrderRepository.details_per_order]. step_M.
  pose proof (GetDetailsByOrderID_log (Order.OrderID order) log) as Hlog.
  destruct (ProblemOrderRepository.GetDetailsByOrderID w _ log) as [[details err] log'].
  simpl in *. subst log'. by destruct err.
Qed.

Lemma department_per_employee_step employee employees result log :
  ProblemEmployeeRepository.department_per_employee w (employee :: employees) result log =
  let lookup :=
    ProblemEmployeeRepository.GetDepartmentByID w (Employee.DepartmentID employee) log in
  match lookup.1.2 with
  | Some err =>
      (nil_slice,
       Some (Errorf ("failed to get department for employee "
                     +:+ fmt_d (Employee.EmployeeID employee) +:+ ": ") err),
       log ++ [SelectDepartmentByID (Employee.DepartmentID employee)])
  | None =>
      ProblemEmployeeRepository.department_per_employee w employees
        (append result (EmployeeWithDepartment.mk employee lookup.1.1))
        (log ++ [SelectDepartmentByID (Employee.DepartmentID employee)])
  end.
Proof.
  cbn [ProblemEmployeeRepository.department_per_employee]. step_M.
  pose proof (GetDepartmentByID_log (Employee.DepartmentID employee) log) as Hlog.
  destruct (ProblemEmployeeRepository.GetDepartmentByID w _ log) as [[dept err] log'].
  simpl in *. subst log'. by destruct err.
Qed.



(** Whatever fails, the naive strategies return the nil slice with the error. *)
Lemma details_per_order_error orders : ∀ result log res err,
  (ProblemOrderRepository.details_per_order w orders result log).1 = (res, Some err) →
  res = nil_slice.
Proof.
  induction orders as [|o orders IH]; intros result log res err.
  - by intros [= _ ?].
  - rewrite details_per_order_step. cbn zeta.
    destruct (_.1.2); [by intros [= <- _]|apply IH].
Qed.

(** A successful loop has issued one lookup per parent and kept one aggregate
    per parent, in the order of the parents. *)
Lemma details_per_order_success orders : ∀ result log res log',
  ProblemOrderRepository.details_per_order w orders result log = (res, None, log') →
  log' = log ++ (SelectDetailsByOrderID ∘ Order.OrderID <$> orders)
  ∧ ∃ aggs, res = foldl append result aggs
      ∧ OrderWithDetails.Order <$> aggs = orders.
Proof.
  induction orders as [|o orders IH]; intros result log res log'.
  - intros [= <- <-]. rewrite app_nil_r. split; [done|]. by exists [].
  - rewrite details_per_order_step. cbn zeta.
    destruct (_.1.2) eqn:E; [by intros [= ]|].
    intros H. apply IH in H as (-> & aggs & -> & Haggs).
    split; [by rewrite <-app_assoc|].
    eexists (_ :: aggs). split; [reflexivity|]. simpl. by f_equal.
Qed.

End Naive.

(** ** The batch strategy *)

Lemma foldl_append_nil_slice {A} (l : list A) :
  foldl append nil_slice l = match l with [] => nil_slice | _ => slice_of l end.
Proof.
  destruct l as [|x l]; [done|]. cbn [foldl].
  change (append nil_slice x) with (slice_of [x]). by rewrite foldl_append_slice_of.
Qed.

Lemma snoc_two {A} (l : list A) a b : l ++ [a; b] = (l ++ [a]) ++ [b].
Proof. by rewrite <-app_assoc. Qed.

Section Batch.
Variable w : World.

(** With no parent the method stops after its first statement. *)
Lemma batch_orders_run_empty days log :
  respond w (List.length log) (SelectOrdersByDays days) = QueryRows [] →
  OptimizedOrderRepository.GetOrdersWithDetailsBatch w days log
  = (slice_of [], None, log ++ [SelectOrdersByDays days]).
Proof.
  intros Hresp. unfold OptimizedOrderRepository.GetOrdersWithDetailsBatch. step_M.
  rewrite optimized_GetOrdersByDays_run, problem_GetOrdersByDays_run, Hresp.
  reflexivity.
Qed.

(** With parents [P] it issues the membership statement over their keys and
    assembles one aggregate per parent, in the order of [P]. *)
Lemma batch_orders_run days log (P : list Order.t) :
  P ≠ [] →
  respond w (List.length log) (SelectOrdersByDays days) = QueryRows (ScanOk <$> P) →
  let ids := slice_of (Order.OrderID <$> P) in
  let q2 := SelectDetailsByOrderIDs (in_list ids) (elems ids) in
  OptimizedOrderRepository.GetOrdersWithDetailsBatch w days log =
  (match respond w (List.length (log ++ [SelectOrdersByDays days])) q2 with
   | QueryErr err =>
       (nil_slice,
        Some (Errorf "failed to get details: "
                (Errorf "failed to execute batch query: " err)))
   | QueryRows rows =>
       match scan_all "failed to scan detail row: " rows nil_slice with
       | (_, Some err) => (nil_slice, Some (Errorf "failed to get details: " err))
       | (allDetails, None) =>
           (slice_of (OptimizedOrderRepository.assemble_order
                        (OptimizedOrderRepository.group_details (elems allDetails)) <$> P),
            None)
       end
   end,
   log ++ [SelectOrdersByDays days; q2]).
Proof.
  intros HP Hresp ids q2.
  unfold OptimizedOrderRepository.GetOrdersWithDetailsBatch. step_M.
  rewrite optimized_GetOrdersByDays_run, problem_GetOrdersByDays_run, Hresp.
  rewrite scan_all_ok, foldl_append_nil_slice.
  destruct P as [|p P']; [done|]. set (P := p :: P') in *.
  destruct (decide (len (slice_of P) = 0%nat)) as [|_]; [done|].
  unfold len. cbn [elems]. rewrite !fill_by_index_make_map.
  rewrite GetDetailsByOrderIDs_run by done.
  subst ids q2. cbn [elems].
  rewrite snoc_two.
  destruct (respond w (List.length (log ++ _)) _) as [err|rows]; [done|].
  destruct (scan_all _ rows nil_slice) as [allDetails [err|]]; [done|].
  by rewrite fill_by_index_make_map.
Qed.

Lemma batch_employees_run_empty log :
  respond w (List.length log) SelectAllEmployees = QueryRows [] →
  OptimizedEmployeeRepository.GetEmployeesWithDepartmentBatch w log
  = (slice_of [], None, log ++ [SelectAllEmployees]).
Proof.
  intros Hresp. unfold OptimizedEmployeeRepository.GetEmployeesWithDepartmentBatch. step_M.
  rewrite optimized_GetAllEmployees_run, Hresp. reflexivity.
Qed.

Lemma batch_employees_run log (P : list Employee.t) :
  P ≠ [] →
  len (OptimizedEmployeeRepository.department_ids w P) ≠ 0%nat →
  respond w (List.length log) SelectAllEmployees = QueryRows (ScanOk <$> P) →
  let ids := OptimizedEmployeeRepository.department_ids w P in
  let q2 := SelectDepartmentsByIDs (in_list ids) (elems ids) in
  OptimizedEmployeeRepository.GetEmployeesWithDepartmentBatch w log =
  (match respond w (List.length (log ++ [SelectAllEmployees])) q2 with
   | QueryErr err =>
       (nil_slice,
        Some (Errorf "failed to get departments: "
                (Errorf "failed to execute department batch query: " err)))
   | QueryRows rows =>
       match scan_all "failed to scan department row: " rows nil_slice with
       | (_, Some err) => (nil_slice, Some (Errorf "failed to get departments: " err))
       | (departments, None) =>
           (slice_of (OptimizedEmployeeRepository.assemble_employee
                        (OptimizedEmployeeRepository.department_map (elems departments))
                        <$> P),
            None)
       end
   end,
   log ++ [SelectAllEmployees; q2]).
Proof.
  intros HP Hids Hresp ids q2.
  unfold OptimizedEmployeeRepository.GetEmployeesWithDepartmentBatch. step_M.
  rewrite optimized_GetAllEmployees_run, Hresp.
  rewrite scan_all_ok, foldl_append_nil_slice.
  destruct P as [|p P']; [done|]. set (P := p :: P') in *.
  destruct (decide (len (slice_of P) = 0%nat)) as [|_]; [done|].
  unfold len. cbn [elems].
  rewrite GetDepartmentsByIDs_run by done.
  subst ids q2. cbn [elems].
  rewrite snoc_two.
  destruct (respond w (List.length (log ++ _)) _) as [err|rows]; [done|].
  destruct (scan_all _ rows nil_slice) as [departments [err|]]; [done|].
  by rewrite fill_by_index_make_map.
Qed.

End Batch.

(** ** Round trips and failures of the naive strategy *)

Lemma naive_orders_run w days log (P : list Order.t) :
  respond w (List.length log) (SelectOrdersByDays days) = QueryRows (ScanOk <$> P) →
  ProblemOrderRepository.GetOrdersWithDetails w days log =
  ProblemOrderRepository.details_per_order w P nil_slice (log ++ [SelectOrdersByDays days]).
Proof.
  intros Hresp. unfold ProblemOrderRepository.GetOrdersWithDetails. step_M.
  rewrite problem_GetOrdersByDays_run, Hresp, scan_all_ok.
  by rewrite foldl_append_elems.
Qed.

Lemma naive_employees_run w log (P : list Employee.t) :
  respond w (List.length log) SelectAllEmployees = QueryRows (ScanOk <$> P) →
  ProblemEmployeeRepository.GetEmployeesWithDepartment w log =
  ProblemEmployeeRepository.department_per_employee w P nil_slice
    (log ++ [SelectAllEmployees]).
Proof.
  intros Hresp. unfold ProblemEmployeeRepository.GetEmployeesWithDepartment. step_M.
  rewrite problem_GetAllEmployees_run, Hresp, scan_all_ok.
  by rewrite foldl_append_elems.
Qed.

Lemma join_orders_log w days log :
  (OptimizedOrderRepository.GetOrdersWithDetailsJoin w days log).2
  = log ++ [SelectOrdersJoinDetails days].
Proof.
  unfold OptimizedOrderRepository.GetOrdersWithDetailsJoin. step_M.
  destruct (respond w _ _) as [err|rows]; [done|].
  by destruct (OptimizedOrderRepository.join_rows rows ∅) as [[err|m]|].
Qed.

(** C3: a batch strategy whose first statement matches no parent returns the
    empty, non-nil slice without error, and that first statement is the only
    one it has issued: it stops before the membership statement is built. *)
Theorem batch_without_parents_stops_after_one_query
    (w : World) (days : Z) (log : list Query) :
  (respond w (List.length log) (SelectOrdersByDays days) = QueryRows [] →
   OptimizedOrderRepository.GetOrdersWithDetailsBatch w days log
   = (slice_of [], None, log ++ [SelectOrdersByDays days]))
  ∧ (respond w (List.length log) SelectAllEmployees = QueryRows [] →
     OptimizedEmployeeRepository.GetEmployeesWithDepartmentBatch w log
     = (slice_of [], None, log ++ [SelectAllEmployees])).
Proof.
  split.
  - apply batch_orders_run_empty.
  - apply batch_employees_run_empty.
Qed.

Lemma batch_without_parents_stops_after_one_query_witness :
  run (OptimizedOrderRepository.GetOrdersWithDetailsBatch
         (Relational.world Samples.empty_db id) 30)
  = (slice_of [], None, [SelectOrdersByDays 30])
  ∧ run (OptimizedEmployeeRepository.GetEmployeesWithDepartmentBatch
           (Relational.world Samples.empty_db id))
    = (slice_of [], None, [SelectAllEmployees]).
Proof.
  destruct (batch_without_parents_stops_after_one_query
              (Relational.world Samples.empty_db id) 30 []) as [Horders Hemployees].
  split; [apply Horders | apply Hemployees]; reflexivity.
Defined.

(** C4: on a successful run over the parents [P], the naive strategy has
    issued [1 + |P|] statements, the join strategy one, and the batch strategy
    two when [P] is not empty and one when it is. *)
Theorem round_trips_per_strategy (w : World) (days : Z) (P : list Order.t) :
  respond w 0 (SelectOrdersByDays days) = QueryRows (ScanOk <$> P) →
  (∀ res, result (ProblemOrderRepository.GetOrdersWithDetails w days) = (res, None) →
     List.length (queries (ProblemOrderRepository.GetOrdersWithDetails w days))
     = (1 + List.length P)%nat)
  ∧ (∀ res, result (OptimizedOrderRepository.GetOrdersWithDetailsJoin w days)
            = Some (res, None) →
     List.length (queries (OptimizedOrderRepository.GetOrdersWithDetailsJoin w days))
     = 1%nat)
  ∧ (∀ res, result (OptimizedOrderRepository.GetOrdersWithDetailsBatch w days) = (res, None) →
     List.length (queries (OptimizedOrderRepository.GetOrdersWithDetailsBatch w days))
     = match P with [] => 1%nat | _ => 2%nat end).
Proof.
  intros Hresp. unfold result, queries, run. repeat split.
  - intros res Hres. rewrite (naive_orders_run w days [] P Hresp) in *.
    destruct (ProblemOrderRepository.details_per_order w P nil_slice _)
      as [[res' err] log'] eqn:E.
    simpl in Hres. injection Hres as -> ->.
    apply details_per_order_success in E as [-> _].
    simpl. by rewrite length_fmap.
  - intros res _. by rewrite join_orders_log.
  - intros res Hres. destruct P as [|p P'].
    + by rewrite (batch_orders_run_empty w days [] Hresp).
    + by rewrite (batch_orders_run w days [] (p :: P') ltac:(done) Hresp).
Qed.

Lemma round_trips_per_strategy_witness :
  List.length (queries (ProblemOrderRepository.GetOrdersWithDetails
                     (Relational.world Samples.three_orders id) 30)) = 4%nat
  ∧ List.length (queries (OptimizedOrderRepository.GetOrdersWithDetailsJoin
                       (Relational.world Samples.three_orders id) 30)) = 1%nat
  ∧ List.length (queries (OptimizedOrderRepository.GetOrdersWithDetailsBatch
                       (Relational.world Samples.three_orders id) 30)) = 2%nat.
Proof.
  destruct (round_trips_per_strategy (Relational.world Samples.three_orders id) 30
              [Samples.order 1; Samples.order 2; Samples.order 3] eq_refl)
    as (Hnaive & Hjoin & Hbatch).
  split; [|split].
  - eapply Hnaive. vm_compute. reflexivity.
  - eapply Hjoin. vm_compute. reflexivity.
  - eapply Hbatch. vm_compute. reflexivity.
Defined.



(** ** The employee join *)

Lemma join_employees_ok rows : ∀ result,
  OptimizedEmployeeRepository.join_employees (ScanOk <$> rows) result
  = (foldl append result (OptimizedEmployeeRepository.join_employee <$> rows), None).
Proof. induction rows as [|row rows IH]; intros result; simpl; [done|apply IH]. Qed.

Lemma join_employees_run w log rows :
  respond w (List.length log) SelectEmployeesJoinDepartments = QueryRows (ScanOk <$> rows) →
  OptimizedEmployeeRepository.GetEmployeesWithDepartmentJoin w log
  = (foldl append nil_slice (OptimizedEmployeeRepository.join_employee <$> rows), None,
     log ++ [SelectEmployeesJoinDepartments]).
Proof.
  intros Hresp. unfold OptimizedEmployeeRepository.GetEmployeesWithDepartmentJoin. step_M.
  by rewrite Hresp, join_employees_ok.
Qed.

(** C10: in the employee join, row by row, the aggregate carries a department
    exactly when both [department_name] and [location] were scanned non-NULL;
    the department's key is then the employee row's [department_id], its name
    and location are the scanned ones; a row with a NULL location yields no
    department, whatever its department name. *)
Theorem employee_join_attaches_department_iff_both_columns
    (w : World) (rows : list EmployeeJoinRow) :
  respond w 0 SelectEmployeesJoinDepartments = QueryRows (ScanOk <$> rows) →
  ∃ res,
    result (OptimizedEmployeeRepository.GetEmployeesWithDepartmentJoin w) = (res, None)
    ∧ Forall2
        (λ row agg,
           EmployeeWithDepartment.Employee agg = jr_employee row
           ∧ (is_Some (EmployeeWithDepartment.Department agg)
              ↔ is_Some (jr_departmentName row) ∧ is_Some (jr_location row))
           ∧ (∀ d, EmployeeWithDepartment.Department agg = Some d →
                Department.DepartmentID d = Employee.DepartmentID (jr_employee row)
                ∧ jr_departmentName row = Some (Department.DepartmentName d)
                ∧ jr_location row = Some (Department.Location d))
           ∧ (jr_location row = None → EmployeeWithDepartment.Department agg = None))
        rows (elems res).
Proof.
  intros Hresp. eexists. unfold result, run.
  rewrite (join_employees_run w [] rows Hresp). split; [reflexivity|].
  rewrite foldl_append_elems. cbn [elems app].
  apply Forall2_fmap_r, Forall_Forall2_diag, Forall_forall.
  intros [emp [name|] [loc|]] _; unfold OptimizedEmployeeRepository.join_employee;
    cbn; (split; [done|]); (split; [|split]);
    try done; try (intros d [= <-]; done);
    try (split; [by eauto|intros [[??] [??]]; done]).
Qed.

Lemma employee_join_attaches_department_iff_both_columns_witness :
  ∃ res,
    result (OptimizedEmployeeRepository.GetEmployeesWithDepartmentJoin
              (Samples.employee_join_world Samples.employee_join_rows)) = (res, None)
    ∧ Forall2
        (λ row agg,
           EmployeeWithDepartment.Employee agg = jr_employee row
           ∧ (is_Some (EmployeeWithDepartment.Department agg)
              ↔ is_Some (jr_departmentName row) ∧ is_Some (jr_location row))
           ∧ (∀ d, EmployeeWithDepartment.Department agg = Some d →
                Department.DepartmentID d = Employee.DepartmentID (jr_employee row)
                ∧ jr_departmentName row = Some (Department.DepartmentName d)
                ∧ jr_location row = Some (Department.Location d))
           ∧ (jr_location row = None → EmployeeWithDepartment.Department agg = None))
        Samples.employee_join_rows (elems res).
Proof.
  apply (employee_join_attaches_department_iff_both_columns
           (Samples.employee_join_world Samples.employee_join_rows)
           Samples.employee_join_rows).
  reflexivity.
Defined.

(** The three sample rows: a department, none for a NULL location, none for
    no match. *)
Example employee_join_on_sample_rows :
  result (OptimizedEmployeeRepository.GetEmployeesWithDepartmentJoin
            (Samples.employee_join_world Samples.employee_join_rows))
  = (slice_of
       [EmployeeWithDepartment.mk (Samples.employee 1 10)
          (Some (Department.mk 10 "Sales" "Tokyo"));
        EmployeeWithDepartment.mk (Samples.employee 2 20) None;
        EmployeeWithDepartment.mk (Samples.employee 3 99) None],
     None).
Proof. vm_compute. reflexivity. Qed.

(** ** Ranging over a map *)

Section Range.
Context {V : Type}.
Implicit Types (m : gmap Z V) (ρ : list Z → list Z).

Lemma omap_lookup_entries m (l : list (Z * V)) :
  (∀ k v, (k, v) ∈ l → m !! k = Some v) →
  omap (λ k, (k,.) <$> m !! k) l.*1 = l.
Proof.
  induction l as [|[k v] l IH]; intros Hl; [done|].
  cbn. rewrite (Hl k v) by left. cbn. f_equal.
  apply IH. intros k' v' Hin. apply Hl. by right.
Qed.

(** Under a fair order a [range] visits every entry exactly once. *)
Lemma range_entries_fair ρ m : fair_order ρ → range_entries ρ m ≡ₚ map_to_list m.
Proof.
  intros Hfair. unfold range_entries. rewrite (Hfair _).
  rewrite omap_lookup_entries; [done|].
  intros k v. apply elem_of_map_to_list.
Qed.

Lemma range_keys_fair ρ m : fair_order ρ → range_keys ρ m ≡ₚ (map_to_list m).*1.
Proof. intros Hfair. unfold range_keys. by rewrite range_entries_fair. Qed.

Lemma range_values_fair ρ m : fair_order ρ → range_values ρ m ≡ₚ (map_to_list m).*2.
Proof. intros Hfair. unfold range_values. by rewrite range_entries_fair. Qed.

Lemma range_keys_NoDup ρ m : fair_order ρ → NoDup (range_keys ρ m).
Proof.
  intros Hfair. rewrite (range_keys_fair ρ m Hfair). apply NoDup_fst_map_to_list.
Qed.

Lemma elem_of_range_keys ρ m k : fair_order ρ → k ∈ range_keys ρ m ↔ is_Some (m !! k).
Proof.
  intros Hfair. rewrite (range_keys_fair ρ m Hfair).
  rewrite list_elem_of_fmap. split.
  - intros [[k' v] [-> Hin]]. apply elem_of_map_to_list in Hin. by eexists.
  - intros [v Hv]. exists (k, v). split; [done|]. by apply elem_of_map_to_list.
Qed.

End Range.

Lemma fair_order_id : fair_order id.
Proof. by intros l. Qed.

Lemma fair_order_descending : fair_order Relational.descending.
Proof.
  intros l. unfold Relational.descending.
  by rewrite reverse_Permutation, merge_sort_Permutation.
Qed.

(** ** The membership list of the employee batch *)

Lemma department_id_set_lookup (P : list Employee.t) (id : Z) :
  is_Some (OptimizedEmployeeRepository.department_id_set P !! id)
  ↔ id ∈ Employee.DepartmentID <$> P.
Proof.
  unfold OptimizedEmployeeRepository.department_id_set.
  induction P as [|e P IH] using rev_ind.
  - simpl. rewrite lookup_empty. split; [by intros [? ?]|by intros ?%elem_of_nil].
  - rewrite foldl_snoc, fmap_app, elem_of_app. cbn [fmap list_fmap].
    rewrite list_elem_of_singleton.
    destruct (decide (Employee.DepartmentID e = id)) as [<-|Hne].
    + rewrite lookup_insert_eq. split; [by right|by eexists].
    + rewrite lookup_insert_ne by done. rewrite IH.
      split; [by left|]. by intros [?|?].
Qed.

Section MembershipList.
Variable w : World.
Hypothesis Hfair : fair_order (map_order w).

Lemma department_ids_elems (P : list Employee.t) :
  elems (OptimizedEmployeeRepository.department_ids w P)
  = range_keys (map_order w) (OptimizedEmployeeRepository.department_id_set P).
Proof.
  unfold OptimizedEmployeeRepository.department_ids. by rewrite foldl_append_elems.
Qed.

Lemma department_ids_NoDup (P : list Employee.t) :
  NoDup (elems (OptimizedEmployeeRepository.department_ids w P)).
Proof. rewrite department_ids_elems. by apply range_keys_NoDup. Qed.

Lemma elem_of_department_ids (P : list Employee.t) (id : Z) :
  id ∈ elems (OptimizedEmployeeRepository.department_ids w P)
  ↔ id ∈ Employee.DepartmentID <$> P.
Proof.
  rewrite department_ids_elems, elem_of_range_keys by done.
  apply department_id_set_lookup.
Qed.

Lemma department_ids_submseteq (P : list Employee.t) :
  elems (OptimizedEmployeeRepository.department_ids w P) ⊆+ Employee.DepartmentID <$> P.
Proof.
  apply NoDup_submseteq; [apply department_ids_NoDup|].
  intros id. by rewrite elem_of_department_ids.
Qed.

End MembershipList.

(** C7: with a non-empty employee list, the second statement of the employee
    batch is the membership statement, and its value list holds every
    department key of the employees exactly once; so it is no longer than the
    employee list, and as long only when no two employees share a key. *)
Theorem batch_membership_list_is_deduplicated (w : World) (P : list Employee.t) :
  fair_order (map_order w) →
  P ≠ [] →
  respond w 0 SelectAllEmployees = QueryRows (ScanOk <$> P) →
  ∃ placeholders ids,
    queries (OptimizedEmployeeRepository.GetEmployeesWithDepartmentBatch w)
    = [SelectAllEmployees; SelectDepartmentsByIDs placeholders ids]
    ∧ NoDup ids
    ∧ (∀ id, id ∈ ids ↔ ∃ e, e ∈ P ∧ Employee.DepartmentID e = id)
    ∧ (List.length ids ≤ List.length P)%nat
    ∧ (List.length ids = List.length P ↔ NoDup (Employee.DepartmentID <$> P)).
Proof.
  intros Hfair HP Hresp.
  set (ids := OptimizedEmployeeRepository.department_ids w P).
  assert (len ids ≠ 0%nat) as Hlen.
  { destruct P as [|e P']; [done|]. unfold len.
    assert (Employee.DepartmentID e ∈ elems ids) as Hin.
    { apply elem_of_department_ids; [done|]. by left. }
    by destruct (elems ids); [apply elem_of_nil in Hin|]. }
  exists (in_list ids), (elems ids). split; [|split; [|split; [|split]]].
  - unfold queries, run. by rewrite (batch_employees_run w [] P HP Hlen Hresp).
  - by apply department_ids_NoDup.
  - intros id. unfold ids.
    rewrite elem_of_department_ids, list_elem_of_fmap by done.
    split; intros (e & ? & ?); by exists e.
  - rewrite <-(length_fmap Employee.DepartmentID P).
    by apply submseteq_length, department_ids_submseteq.
  - rewrite <-(length_fmap Employee.DepartmentID P). split.
    + intros Heq.
      rewrite <-(submseteq_length_Permutation (elems ids) (Employee.DepartmentID <$> P)).
      * by apply department_ids_NoDup.
      * by apply department_ids_submseteq.
      * by rewrite Heq.
    + intros Hnodup. apply Permutation_length, NoDup_Permutation; [|done|].
      * by apply department_ids_NoDup.
      * intros id. by apply elem_of_department_ids.
Qed.

Lemma batch_membership_list_is_deduplicated_witness :
  ∃ placeholders ids,
    queries (OptimizedEmployeeRepository.GetEmployeesWithDepartmentBatch
               (Relational.world Samples.staff id))
    = [SelectAllEmployees; SelectDepartmentsByIDs placeholders ids]
    ∧ NoDup ids
    ∧ (∀ id, id ∈ ids ↔
         ∃ e, e ∈ [Samples.employee 1 10; Samples.employee 2 10; Samples.employee 3 99]
              ∧ Employee.DepartmentID e = id)
    ∧ (List.length ids ≤ 3)%nat
    ∧ (List.length ids = 3%nat ↔
         NoDup (Employee.DepartmentID <$>
                  [Samples.employee 1 10; Samples.employee 2 10; Samples.employee 3 99])).
Proof.
  apply (batch_membership_list_is_deduplicated (Relational.world Samples.staff id)
           [Samples.employee 1 10; Samples.employee 2 10; Samples.employee 3 99]).
  - intros l. reflexivity.
  - discriminate.
  - reflexivity.
Defined.

(** On the sample staff the list is the two distinct keys of three employees. *)
Example batch_membership_list_sample :
  queries (OptimizedEmployeeRepository.GetEmployeesWithDepartmentBatch
             (Relational.world Samples.staff id))
  = [SelectAllEmployees; SelectDepartmentsByIDs ":1,:2" [99; 10]].
Proof. vm_compute. reflexivity. Qed.

(** ** The order of the join strategy's output *)

(** C1: the join strategy hands back its aggregates in the order in which the
    runtime enumerates [orderMap], not in the order of the parent keys.  The
    cursor delivers the parents 1, 2, 3 in ascending order; under the legal
    enumeration order [descending] the method returns them as 3, 2, 1. *)
Theorem join_output_order_is_map_order :
  fair_order Relational.descending
  ∧ jr_orderID <$> Relational.select_orders_join_details Samples.three_orders 30
    = [1; 1; 2; 3]
  ∧ result (OptimizedOrderRepository.GetOrdersWithDetailsJoin
              (Relational.world Samples.three_orders Relational.descending) 30)
    = Some (slice_of
              [OrderWithDetails.mk (Samples.order 3) (slice_of [Samples.detail 31 3]);
               OrderWithDetails.mk (Samples.order 2) (slice_of []);
               OrderWithDetails.mk (Samples.order 1)
                 (slice_of [Samples.detail 11 1; Samples.detail 12 1])],
            None).
Proof.
  split; [apply fair_order_descending|]. split; vm_compute; reflexivity.
Qed.

(** C2: over the same tables the naive and the batch strategy return the
    parents 1, 2, 3 in this order, the join strategy returns them in the
    enumeration order of its map (here 3, 2, 1); and the naive strategy gives
    the parent without children a nil [Details] where the other two give the
    empty slice. *)
Theorem strategies_disagree_on_sample :
  let w := Relational.world Samples.three_orders Relational.descending in
  result (ProblemOrderRepository.GetOrdersWithDetails w 30)
  = (slice_of
       [OrderWithDetails.mk (Samples.order 1)
          (slice_of [Samples.detail 11 1; Samples.detail 12 1]);
        OrderWithDetails.mk (Samples.order 2) nil_slice;
        OrderWithDetails.mk (Samples.order 3) (slice_of [Samples.detail 31 3])],
     None)
  ∧ result (OptimizedOrderRepository.GetOrdersWithDetailsBatch w 30)
    = (slice_of
         [OrderWithDetails.mk (Samples.order 1)
            (slice_of [Samples.detail 11 1; Samples.detail 12 1]);
          OrderWithDetails.mk (Samples.order 2) (slice_of []);
          OrderWithDetails.mk (Samples.order 3) (slice_of [Samples.detail 31 3])],
       None)
  ∧ result (OptimizedOrderRepository.GetOrdersWithDetailsJoin w 30)
    = Some (slice_of
              [OrderWithDetails.mk (Samples.order 3) (slice_of [Samples.detail 31 3]);
               OrderWithDetails.mk (Samples.order 2) (slice_of []);
               OrderWithDetails.mk (Samples.order 1)
                 (slice_of [Samples.detail 11 1; Samples.detail 12 1])],
            None).
Proof. repeat split; vm_compute; reflexivity. Qed.

(** C5: the naive strategy leaves [Details] nil for an order without detail
    rows: its fetch loop starts from [var details []OrderDetail] and never
    appends. *)
Theorem naive_details_nil_without_rows :
  result (ProblemOrderRepository.GetOrdersWithDetails
            (Relational.world Samples.two_orders id) 30)
  = (slice_of [OrderWithDetails.mk (Samples.order 1) nil_slice;
               OrderWithDetails.mk (Samples.order 2) nil_slice],
     None).
Proof. vm_compute. reflexivity. Qed.

(** ** Employees over the relational database *)

Section EmployeesRelational.
Import Relational.
Variables (db : Database) (ρ : list Z → list Z).
Let w : World := world db ρ.








End EmployeesRelational.



(** The three strategies on the sample staff. *)
Example employees_on_sample_staff :
  let w := Relational.world Samples.staff id in
  let expected :=
    [EmployeeWithDepartment.mk (Samples.employee 1 10) (Some (Samples.department 10));
     EmployeeWithDepartment.mk (Samples.employee 2 10) (Some (Samples.department 10));
     EmployeeWithDepartment.mk (Samples.employee 3 99) None] in
  result (ProblemEmployeeRepository.GetEmployeesWithDepartment w) = (slice_of expected, None)
  ∧ result (OptimizedEmployeeRepository.GetEmployeesWithDepartmentJoin w)
    = (slice_of expected, None)
  ∧ result (OptimizedEmployeeRepository.GetEmployeesWithDepartmentBatch w)
    = (slice_of expected, None).
Proof. repeat split; vm_compute; reflexivity. Qed.

(** ** The timing report *)

Lemma display_lookup_speedup (results : list service.PerformanceResult)
    (base r : service.PerformanceResult) (i : nat) :
  results !! 0%nat = Some base →
  results !! (S i) = Some r →
  service.displayPerformanceComparison results !! (2 + i)%nat
  = Some (service.SpeedupLine (service.Method r) (service.ExecutionTime r)
            (service.improvement (service.ExecutionTime base) (service.ExecutionTime r))).
Proof.
  destruct results as [|b [|second others]]; [done|done|].
  intros [= ->] Hr.
  change ((base :: second :: others) !! S i) with ((second :: others) !! i) in Hr.
  unfold service.displayPerformanceComparison.
  destruct (service.best_of _ _ _) as [bestResult bestImprovement].
  rewrite lookup_app_r; cbn [List.length]; [|lia].
  replace (2 + i - 2)%nat with i by lia.
  rewrite lookup_app_l.
  - by rewrite list_lookup_fmap, Hr.
  - rewrite length_fmap. by eapply lookup_lt_Some.
Qed.

(** C9, as stated, fails: for a baseline of 10ms against 3ms the printed
    speedup is a binary64 value, and no binary64 value is 10/3. *)
Lemma speedup_is_not_the_exact_quotient :
  ¬ speedups_are_exact_quotients [Timings.naive (Timings.ms 10); Timings.join (Timings.ms 3)].
Proof.
  intros Hexact.
  destruct (Hexact 1%nat (Timings.naive (Timings.ms 10)) (Timings.join (Timings.ms 3)))
    as (speedup & q & Hs & Hq & Heq); [lia|done|done|].
  vm_compute in Hs. injection Hs as <-.
  vm_compute in Hq. injection Hq as <-.
  vm_compute in Heq. discriminate.
Qed.

(** C9, amended: the speedup printed for every non-baseline result is the
    binary64 quotient of the two nanosecond counts, each converted to binary64
    first; the baseline is the first result. *)
Theorem reported_speedup_is_float64_quotient
    (results : list service.PerformanceResult)
    (base r : service.PerformanceResult) (i : nat) :
  (0 < i)%nat →
  results !! 0%nat = Some base →
  results !! i = Some r →
  reported_speedup results i
  = Some (PrimFloat.div (service.float64_of_int64 (service.ExecutionTime base))
            (service.float64_of_int64 (service.ExecutionTime r))).
Proof.
  intros Hi Hbase Hr. destruct i as [|i]; [lia|].
  unfold reported_speedup.
  change (1 + S i)%nat with (2 + i)%nat.
  by rewrite (display_lookup_speedup results base r i Hbase Hr).
Qed.

(** A baseline of 30ms against 3ms is reported as 10.0, which is exact. *)
Lemma reported_speedup_is_float64_quotient_witness :
  reported_speedup [Timings.naive (Timings.ms 30); Timings.join (Timings.ms 3)] 1
  = Some 10%float
  ∧ ∃ q, exact_value 10%float = Some q ∧ (q == 10 # 1)%Q.
Proof.
  split.
  - rewrite (reported_speedup_is_float64_quotient
               [Timings.naive (Timings.ms 30); Timings.join (Timings.ms 3)]
               (Timings.naive (Timings.ms 30)) (Timings.join (Timings.ms 3)) 1%nat);
      [vm_compute; reflexivity | lia | reflexivity | reflexivity].
  - eexists. split; [vm_compute; reflexivity|]. reflexivity.
Defined.

(** ** [Details] of the optimized strategies *)

Lemma batch_orders_success w days log res log' :
  OptimizedOrderRepository.GetOrdersWithDetailsBatch w days log = (res, None, log') →
  ∃ P : list Order.t,
    respond w (List.length log) (SelectOrdersByDays days) = QueryRows (ScanOk <$> P)
    ∧ ((P = [] ∧ res = slice_of [])
       ∨ (P ≠ [] ∧ ∃ D : list OrderDetail.t,
            res = slice_of (OptimizedOrderRepository.assemble_order
                              (OptimizedOrderRepository.group_details D) <$> P))).
Proof.
  intros Hrun.
  destruct (respond w (List.length log) (SelectOrdersByDays days)) as [err|rows] eqn:Hresp.
  { revert Hrun. unfold OptimizedOrderRepository.GetOrdersWithDetailsBatch. step_M.
    rewrite optimized_GetOrdersByDays_run, problem_GetOrdersByDays_run, Hresp. done. }
  destruct (scan_all "failed to scan order row: " rows nil_slice) as [orders [err|]] eqn:Hscan.
  { revert Hrun. unfold OptimizedOrderRepository.GetOrdersWithDetailsBatch. step_M.
    rewrite optimized_GetOrdersByDays_run, problem_GetOrdersByDays_run, Hresp, Hscan. done. }
  apply scan_all_success in Hscan as (P & -> & _).
  exists P. split; [done|]. destruct P as [|p P'].
  - left. rewrite (batch_orders_run_empty w days log Hresp) in Hrun. by injection Hrun as <- _.
  - right. split; [done|].
    rewrite (batch_orders_run w days log (p :: P') ltac:(done) Hresp) in Hrun.
    cbn zeta in Hrun.
    destruct (respond w _ (SelectDetailsByOrderIDs _ _)) as [err|drows]; [done|].
    destruct (scan_all _ drows nil_slice) as [allDetails [err|]]; [done|].
    injection Hrun as <- _. by eexists.
Qed.

Lemma assemble_order_details_non_nil m order :
  is_nil (OrderWithDetails.Details (OptimizedOrderRepository.assemble_order m order)) = false.
Proof.
  unfold OptimizedOrderRepository.assemble_order. cbn.
  by destruct (default nil_slice (m !! Order.OrderID order)).
Qed.

Lemma join_row_details_non_nil row m m' :
  map_Forall (λ _, details_non_nil) m →
  OptimizedOrderRepository.join_row row m = Some m' →
  map_Forall (λ _, details_non_nil) m'.
Proof.
  intros Hm. unfold OptimizedOrderRepository.join_row.
  set (m1 := match m !! jr_orderID row with Some _ => m | None => _ end).
  assert (map_Forall (λ _, details_non_nil) m1) as Hm1.
  { subst m1. destruct (m !! jr_orderID row); [done|].
    by apply map_Forall_insert_2. }
  destruct (jr_detailID row) as [detailID|]; [|by intros [= <-]].
  destruct (jr_productID row) as [productID|]; cbn; [|done].
  destruct (jr_quantity row) as [quantity|]; cbn; [|done].
  destruct (jr_unitPrice row) as [unitPrice|]; cbn; [|done].
  intros [= <-]. intros k a.
  rewrite lookup_alter. case_decide as Hk.
  - destruct (m1 !! _); [|done]. by intros [= <-].
  - apply Hm1.
Qed.

Lemma join_rows_details_non_nil rows : ∀ m m',
  map_Forall (λ _, details_non_nil) m →
  OptimizedOrderRepository.join_rows rows m = Some (inr m') →
  map_Forall (λ _, details_non_nil) m'.
Proof.
  induction rows as [|[row|err] rows IH]; intros m m' Hm; cbn.
  - by intros [= <-].
  - destruct (OptimizedOrderRepository.join_row row m) as [m1|] eqn:E; [|done].
    apply IH. by eapply join_row_details_non_nil.
  - done.
Qed.

Lemma elem_of_range_values {V} (ρ : list Z → list Z) (m : gmap Z V) (v : V) :
  v ∈ range_values ρ m → ∃ k, m !! k = Some v.
Proof.
  unfold range_values, range_entries.
  intros ([k v'] & -> & Hin)%list_elem_of_fmap.
  apply list_elem_of_omap in Hin as (k' & _ & Hk').
  destruct (m !! k') as [v''|] eqn:E; [|done].
  injection Hk' as <- <-. by exists k'.
Qed.

(** In a successful run of the join and of the batch strategy every
    aggregate has a non-nil [Details], also for an order without detail
    rows. *)
Theorem optimized_details_never_nil (w : World) (days : Z) (log : list Query) :
  (∀ res log',
     OptimizedOrderRepository.GetOrdersWithDetailsJoin w days log = (Some (res, None), log') →
     Forall details_non_nil (elems res))
  ∧ (∀ res log',
       OptimizedOrderRepository.GetOrdersWithDetailsBatch w days log = (res, None, log') →
       Forall details_non_nil (elems res)).
Proof.
  split.
  - intros res log'. unfold OptimizedOrderRepository.GetOrdersWithDetailsJoin. step_M.
    destruct (respond w _ _) as [err|rows]; [done|].
    destruct (OptimizedOrderRepository.join_rows rows ∅) as [[err|m]|] eqn:E; [done| |done].
    intros [= <- _]. rewrite foldl_append_elems. cbn [elems app].
    apply Forall_forall. intros a [k Hk]%elem_of_range_values.
    eapply (join_rows_details_non_nil rows ∅ m); [apply map_Forall_empty|exact E|exact Hk].
  - intros res log' Hrun.
    apply batch_orders_success in Hrun as (P & _ & [[_ ->]|(_ & D & ->)]).
    + constructor.
    + cbn [elems]. apply Forall_fmap, Forall_forall. intros o _.
      apply assemble_order_details_non_nil.
Qed.

Lemma optimized_details_never_nil_witness :
  Forall details_non_nil
    [OrderWithDetails.mk (Samples.order 1) (slice_of []);
     OrderWithDetails.mk (Samples.order 2) (slice_of [])].
Proof.
  destruct (optimized_details_never_nil (Relational.world Samples.two_orders id) 30 [])
    as [_ Hbatch].
  eapply (Hbatch (slice_of _)). vm_compute. reflexivity.
Defined.

(** ** ORDER BY *)

Section OrderBy.
Import Relational.
Context {A : Type}.

#[global] Instance key_le_total (k : A → Z) : Total (key_le k).
Proof. intros x y. unfold key_le. lia. Qed.

#[global] Instance key_le_trans (k : A → Z) : Transitive (key_le k).
Proof. intros x y z. unfold key_le. lia. Qed.

Lemma null_last_leb_total a b : null_last_leb a b ∨ null_last_leb b a.
Proof.
  destruct a as [x|], b as [y|]; cbn; auto.
  destruct (decide (x ≤ y)).
  - left. by apply bool_decide_pack.
  - right. apply bool_decide_pack. lia.
Qed.

Lemma null_last_leb_trans a b c :
  null_last_leb a b → null_last_leb b c → null_last_leb a c.
Proof.
  destruct a as [x|], b as [y|], c as [z|]; cbn; try done.
  rewrite !bool_decide_spec. lia.
Qed.

#[global] Instance keys_le_total (k1 : A → Z) (k2 : A → option Z) : Total (keys_le k1 k2).
Proof.
  intros x y. unfold keys_le.
  destruct (Z.lt_trichotomy (k1 x) (k1 y)) as [?|[Heq|?]]; [by left; left| |by right; left].
  destruct (null_last_leb_total (k2 x) (k2 y)); [left|right]; right; by rewrite Heq.
Qed.

#[global] Instance keys_le_trans (k1 : A → Z) (k2 : A → option Z) : Transitive (keys_le k1 k2).
Proof.
  intros x y z [?|[Hxy ?]] [?|[Hyz ?]]; unfold keys_le.
  - left. lia.
  - left. lia.
  - left. lia.
  - right. split; [lia|]. by eapply null_last_leb_trans.
Qed.




End OrderBy.

(** ** Orders over the relational database *)


Lemma group_details_lookup (D : list OrderDetail.t) (k : Z) :
  elems (default nil_slice (OptimizedOrderRepository.group_details D !! k))
  = filter (λ d, OrderDetail.OrderID d = k) D.
Proof.
  unfold OptimizedOrderRepository.group_details.
  induction D as [|d D IH] using rev_ind; [simpl; by rewrite lookup_empty|].
  rewrite foldl_snoc, filter_app, filter_cons, filter_nil.
  destruct (decide (OrderDetail.OrderID d = k)) as [<-|Hne].
  - rewrite lookup_insert_eq. cbn. by rewrite IH.
  - rewrite lookup_insert_ne by done. by rewrite IH, app_nil_r.
Qed.

Section OrdersRelational.
Import Relational.
Variables (db : Database) (ρ : list Z → list Z).
Let w : World := world db ρ.





End OrdersRelational.



(** ** Grouping the rows of the join *)

Lemma join_row_ok row m :
  row_ok row →
  OptimizedOrderRepository.join_row row m =
  Some (let m1 := match m !! jr_orderID row with
                  | Some _ => m
                  | None => <[jr_orderID row :=
                                OrderWithDetails.mk (row_order row) (slice_of [])]> m
                  end in
        match row_detail row with
        | None => m1
        | Some detail =>
            alter (λ o, OrderWithDetails.mk (OrderWithDetails.Order o)
                          (append (OrderWithDetails.Details o) detail))
              (jr_orderID row) m1
        end).
Proof.
  unfold row_ok, row_detail, OptimizedOrderRepository.join_row, row_order.
  destruct (jr_detailID row) as [detailID|]; cbn; [|done].
  intros Hok. destruct (Hok ltac:(by eexists)) as [d Hd].
  destruct (jr_productID row); cbn in *; [|done].
  destruct (jr_quantity row); cbn in *; [|done].
  by destruct (jr_unitPrice row); cbn in *.
Qed.

(** After the cursor, the map holds for every parent key the aggregate of the
    rows with that key, in cursor order; the parent's columns are those of
    the first such row. *)
Lemma join_rows_lookup rows : ∀ m0,
  Forall row_ok rows →
  ∃ m, OptimizedOrderRepository.join_rows (ScanOk <$> rows) m0 = Some (inr m)
       ∧ ∀ k, m !! k = group_aggregate (m0 !! k) (filter (λ r, jr_orderID r = k) rows).
Proof.
  induction rows as [|row rows IH]; intros m0 Hok.
  { exists m0. split; [done|]. intros k. cbn. by destruct (m0 !! k) as [[]|]. }
  apply Forall_cons in Hok as [Hrow Hrows].
  cbn [fmap list_fmap OptimizedOrderRepository.join_rows].
  rewrite (join_row_ok row m0 Hrow). cbn zeta.
  set (m1 := match m0 !! jr_orderID row with Some _ => m0 | None => _ end).
  set (m2 := match row_detail row with None => m1 | Some _ => _ end).
  destruct (IH m2 Hrows) as (m & -> & Hm). exists m. split; [done|].
  intros k. rewrite Hm, filter_cons. case_decide as Hk.
  - subst k. unfold group_aggregate at 2.
    assert (m2 !! jr_orderID row
            = Some (match m0 !! jr_orderID row with
                    | Some a =>
                        OrderWithDetails.mk (OrderWithDetails.Order a)
                          (foldl append (OrderWithDetails.Details a)
                             (option_list (row_detail row)))
                    | None =>
                        OrderWithDetails.mk (row_order row)
                          (slice_of (option_list (row_detail row)))
                    end)) as ->.
    { subst m2 m1. destruct (m0 !! jr_orderID row) as [a|] eqn:E0,
        (row_detail row) as [d|]; cbn.
      - by rewrite lookup_alter_eq, E0.
      - rewrite E0. by destruct a.
      - by rewrite lookup_alter_eq, lookup_insert_eq.
      - by rewrite lookup_insert_eq. }
    unfold group_aggregate. cbn [omap list_omap].
    destruct (m0 !! jr_orderID row) as [a|], (row_detail row) as [d|]; cbn; try done;
      by rewrite foldl_append_slice_of.
  - assert (m2 !! k = m0 !! k) as ->; [|done].
    subst m2 m1. destruct (row_detail row);
      rewrite ?lookup_alter_ne by done;
      destruct (m0 !! jr_orderID row); by rewrite ?lookup_insert_ne by done.
Qed.

(** ** The join over the relational database *)



Section JoinRelational.
Import Relational.
Variables (db : Database) (days : Z).
Hypothesis Horder_keys : NoDup (Order.OrderID <$> orders db).
Hypothesis Hdetail_keys : NoDup (OrderDetail.DetailID <$> order_details db).













End JoinRelational.

Section JoinVersusBatch.
Import Relational.
Variables (db : Database) (days : Z).
Hypothesis Horder_keys : NoDup (Order.OrderID <$> orders db).
Hypothesis Hdetail_keys : NoDup (OrderDetail.DetailID <$> order_details db).







End JoinVersusBatch.



(** ** No partial result beside an error *)

Lemma join_rows_inl_is_scan_error rows : ∀ m err,
  OptimizedOrderRepository.join_rows rows m = Some (inl err) →
  ∃ cause, err = Errorf "failed to scan row: " cause.
Proof.
  induction rows as [|[row|e] rows IH]; intros m err; cbn.
  - done.
  - destruct (OptimizedOrderRepository.join_row row m); [apply IH|done].
  - intros [= <-]. by eexists.
Qed.

Lemma join_employees_error rows : ∀ acc res err,
  OptimizedEmployeeRepository.join_employees rows acc = (res, Some err) → res = nil_slice.
Proof.
  induction rows as [|[row|e] rows IH]; intros acc res err; cbn.
  - congruence.
  - apply IH.
  - congruence.
Qed.

Lemma department_per_employee_error w employees : ∀ result log res err,
  (ProblemEmployeeRepository.department_per_employee w employees result log).1
  = (res, Some err) →
  res = nil_slice.
Proof.
  induction employees as [|e employees IH]; intros result log res err.
  - by intros [= _ ?].
  - rewrite department_per_employee_step. cbn zeta.
    destruct (_.1.2); [by intros [= <- _]|apply IH].
Qed.

(** Whenever one of the six strategies returns an error, the slice it returns
    with it is nil: none hands back the aggregates assembled before the
    failure. *)
Theorem error_comes_with_nil_result (w : World) (days : Z) (log : list Query) :
  (∀ res err,
     (ProblemOrderRepository.GetOrdersWithDetails w days log).1 = (res, Some err) →
     res = nil_slice)
  ∧ (∀ res err,
       (OptimizedOrderRepository.GetOrdersWithDetailsJoin w days log).1
       = Some (res, Some err) →
       res = nil_slice)
  ∧ (∀ res err,
       (OptimizedOrderRepository.GetOrdersWithDetailsBatch w days log).1 = (res, Some err) →
       res = nil_slice)
  ∧ (∀ res err,
       (ProblemEmployeeRepository.GetEmployeesWithDepartment w log).1 = (res, Some err) →
       res = nil_slice)
  ∧ (∀ res err,
       (OptimizedEmployeeRepository.GetEmployeesWithDepartmentJoin w log).1
       = (res, Some err) →
       res = nil_slice)
  ∧ (∀ res err,
       (OptimizedEmployeeRepository.GetEmployeesWithDepartmentBatch w log).1
       = (res, Some err) →
       res = nil_slice).
Proof.
  repeat split; intros res err.
  - unfold ProblemOrderRepository.GetOrdersWithDetails. step_M.
    rewrite problem_GetOrdersByDays_run.
    destruct (respond w _ _) as [e|rows]; [by intros [= <- _]|].
    destruct (scan_all _ rows nil_slice) as [orders [e|]]; [by intros [= <- _]|].
    apply details_per_order_error.
  - unfold OptimizedOrderRepository.GetOrdersWithDetailsJoin. step_M.
    destruct (respond w _ _) as [e|rows]; [by intros [= <- _]|].
    destruct (OptimizedOrderRepository.join_rows rows ∅) as [[e|m]|]; cbn;
      [by intros [= <- _]|by intros [= _ ?]|done].
  - unfold OptimizedOrderRepository.GetOrdersWithDetailsBatch. step_M.
    rewrite optimized_GetOrdersByDays_run, problem_GetOrdersByDays_run.
    destruct (respond w _ _) as [e|rows]; [by intros [= <- _]|].
    destruct (scan_all _ rows nil_slice) as [orders [e|]]; [by intros [= <- _]|].
    destruct (decide (len orders = 0%nat)); [by intros [= _ ?]|].
    destruct (OptimizedOrderRepository.GetDetailsByOrderIDs w _ _) as [[allDetails [e|]] log'];
      cbn; [by intros [= <- _]|by intros [= _ ?]].
  - unfold ProblemEmployeeRepository.GetEmployeesWithDepartment. step_M.
    rewrite problem_GetAllEmployees_run.
    destruct (respond w _ _) as [e|rows]; [by intros [= <- _]|].
    destruct (scan_all _ rows nil_slice) as [employees [e|]]; [by intros [= <- _]|].
    apply department_per_employee_error.
  - unfold OptimizedEmployeeRepository.GetEmployeesWithDepartmentJoin. step_M.
    destruct (respond w _ _) as [e|rows]; [by intros [= <- _]|].
    cbn. apply join_employees_error.
  - unfold OptimizedEmployeeRepository.GetEmployeesWithDepartmentBatch. step_M.
    rewrite optimized_GetAllEmployees_run.
    destruct (respond w _ _) as [e|rows]; [by intros [= <- _]|].
    destruct (scan_all _ rows nil_slice) as [employees [e|]]; [by intros [= <- _]|].
    destruct (decide (len employees = 0%nat)); [by intros [= _ ?]|].
    destruct (OptimizedEmployeeRepository.GetDepartmentsByIDs w _ _)
      as [[departments [e|]] log']; cbn; [by intros [= <- _]|by intros [= _ ?]].
Qed.

Lemma error_comes_with_nil_result_witness :
  (OptimizedOrderRepository.GetOrdersWithDetailsBatch
     (Samples.flaky Samples.three_orders 1) 30 []).1.1 = nil_slice
  ∧ (OptimizedEmployeeRepository.GetEmployeesWithDepartmentBatch
       (Samples.flaky Samples.staff 1) []).1.1 = nil_slice.
Proof.
  destruct (error_comes_with_nil_result (Samples.flaky Samples.three_orders 1) 30 [])
    as (_ & _ & Horders & _).
  destruct (error_comes_with_nil_result (Samples.flaky Samples.staff 1) 30 [])
    as (_ & _ & _ & _ & _ & Hemployees).
  split.
  - eapply Horders. vm_compute. reflexivity.
  - eapply Hemployees. vm_compute. reflexivity.
Defined.

(** ** The statements of a failing naive run *)





(** ** What the join strategy returns for any cursor *)

Lemma join_orders_run_rows w days log (rows : list OrderJoinRow) :
  respond w (List.length log) (SelectOrdersJoinDetails days) = QueryRows (ScanOk <$> rows) →
  Forall row_ok rows →
  ∃ m, OptimizedOrderRepository.GetOrdersWithDetailsJoin w days log
       = (Some (slice_of (range_values (map_order w) m), None),
          log ++ [SelectOrdersJoinDetails days])
       ∧ ∀ k, m !! k = group_aggregate None (filter (λ r, jr_orderID r = k) rows).
Proof.
  intros Hresp Hok.
  destruct (join_rows_lookup rows ∅ Hok) as (m & Hm & Hlookup).
  exists m. split.
  - unfold OptimizedOrderRepository.GetOrdersWithDetailsJoin. step_M.
    by rewrite Hresp, Hm, foldl_append_slice_of.
  - intros k. by rewrite Hlookup, lookup_empty.
Qed.

Lemma group_aggregate_key (group : list OrderJoinRow) (k : Z) (a : OrderWithDetails.t) :
  group_aggregate None (filter (λ r, jr_orderID r = k) group) = Some a →
  aggregate_key a = k.
Proof.
  destruct (filter _ group) as [|r g] eqn:E; [done|].
  assert (r ∈ filter (λ r, jr_orderID r = k) group) as Hr by (rewrite E; left).
  apply list_elem_of_filter in Hr as [Hr _]. by intros [= <-].
Qed.

(** With a cursor whose rows all scan and none of which makes the loop panic,
    the join strategy returns one aggregate per distinct [order_id] of the
    cursor: the parent columns are those of the first row with that key, the
    details are those of all rows with that key, in cursor order. *)
Theorem join_returns_one_aggregate_per_order_id
    (w : World) (days : Z) (rows : list OrderJoinRow) :
  fair_order (map_order w) →
  respond w 0 (SelectOrdersJoinDetails days) = QueryRows (ScanOk <$> rows) →
  Forall row_ok rows →
  ∃ res,
    result (OptimizedOrderRepository.GetOrdersWithDetailsJoin w days) = Some (res, None)
    ∧ NoDup (aggregate_key <$> elems res)
    ∧ (∀ k, k ∈ aggregate_key <$> elems res ↔ k ∈ jr_orderID <$> rows)
    ∧ (∀ a, a ∈ elems res →
         group_aggregate None (filter (λ r, jr_orderID r = aggregate_key a) rows) = Some a).
Proof.
  intros Hfair Hresp Hok.
  destruct (join_orders_run_rows w days [] rows Hresp Hok) as (m & Hrun & Hm).
  eexists. unfold result, run. rewrite Hrun. split; [reflexivity|]. cbn [elems fst].
  assert (∀ k a, m !! k = Some a → aggregate_key a = k) as Hkey.
  { intros k a. rewrite Hm. apply group_aggregate_key. }
  assert (aggregate_key <$> range_values (map_order w) m ≡ₚ (map_to_list m).*1) as Hkeys.
  { rewrite (range_values_fair _ m Hfair). rewrite <-list_fmap_compose.
    apply reflexive_eq, list_fmap_ext. intros i [k a] Hka. cbn.
    apply Hkey. apply elem_of_map_to_list. by eapply list_elem_of_lookup_2. }
  split; [|split].
  - rewrite Hkeys. apply NoDup_fst_map_to_list.
  - intros k. rewrite Hkeys. rewrite list_elem_of_fmap. split.
    + intros ([k' a] & -> & Hin). apply elem_of_map_to_list in Hin. cbn.
      rewrite Hm in Hin. destruct (filter _ rows) as [|r g] eqn:E; [done|].
      assert (r ∈ filter (λ r, jr_orderID r = k') rows) as Hr by (rewrite E; left).
      apply list_elem_of_filter in Hr as [<- Hr]. apply list_elem_of_fmap. by exists r.
    + intros (r & -> & Hr)%list_elem_of_fmap.
      destruct (m !! jr_orderID r) as [a|] eqn:E.
      * exists (jr_orderID r, a). split; [done|]. by apply elem_of_map_to_list.
      * rewrite Hm in E.
        assert (r ∈ filter (λ r', jr_orderID r' = jr_orderID r) rows) as Hin.
        { by apply list_elem_of_filter. }
        by destruct (filter _ rows); [apply elem_of_nil in Hin|].
  - intros a [k Hk]%elem_of_range_values.
    rewrite (Hkey k a Hk). by rewrite <-Hm.
Qed.

#[global] Instance row_ok_dec row : Decision (row_ok row).
Proof.
  unfold row_ok.
  destruct (jr_detailID row) as [d|].
  - destruct (row_detail row) as [x|] eqn:E.
    + left. by eexists.
    + right. intros H. destruct (H ltac:(by eexists)) as [? ?]. congruence.
  - left. by intros [??].
Defined.

Lemma join_returns_one_aggregate_per_order_id_witness :
  ∃ res,
    result (OptimizedOrderRepository.GetOrdersWithDetailsJoin
              (Relational.world Samples.three_orders Relational.descending) 30)
    = Some (res, None)
    ∧ NoDup (aggregate_key <$> elems res)
    ∧ (∀ k, k ∈ aggregate_key <$> elems res
            ↔ k ∈ jr_orderID <$> Relational.select_orders_join_details Samples.three_orders 30)
    ∧ (∀ a, a ∈ elems res →
         group_aggregate None
           (filter (λ r, jr_orderID r = aggregate_key a)
              (Relational.select_orders_join_details Samples.three_orders 30)) = Some a).
Proof.
  apply (join_returns_one_aggregate_per_order_id
           (Relational.world Samples.three_orders Relational.descending) 30
           (Relational.select_orders_join_details Samples.three_orders 30)).
  - apply fair_order_descending.
  - reflexivity.
  - apply (bool_decide_unpack _). vm_compute. exact I.
Defined.

(** ** The panic of the join strategy *)

Lemma join_row_not_ok row m :
  ¬ row_ok row → OptimizedOrderRepository.join_row row m = None.
Proof.
  unfold row_ok, row_detail, OptimizedOrderRepository.join_row.
  destruct (jr_detailID row) as [detailID|]; cbn.
  - destruct (jr_productID row); cbn; [|done].
    destruct (jr_quantity row); cbn; [|done].
    destruct (jr_unitPrice row); cbn; [|done].
    intros Hnot. destruct Hnot. by eexists.
  - intros Hnot. destruct Hnot. by intros [??].
Qed.

Lemma join_rows_panic_iff rows : ∀ m,
  OptimizedOrderRepository.join_rows rows m = None
  ↔ ∃ before row after,
      rows = (ScanOk <$> before) ++ ScanOk row :: after
      ∧ Forall row_ok before ∧ ¬ row_ok row.
Proof.
  induction rows as [|[row|err] rows IH]; intros m.
  - split; [done|]. intros (before & row & after & H & _). by destruct before.
  - cbn. destruct (decide (row_ok row)) as [Hok|Hnot].
    + rewrite (join_row_ok row m Hok). rewrite IH. split.
      * intros (before & r & after & -> & Hbefore & Hr).
        exists (row :: before), r, after.
        split; [done|]. split; [by constructor|done].
      * intros (before & r & after & Heq & Hbefore & Hr).
        destruct before as [|b before]; cbn in Heq.
        -- injection Heq as -> _. done.
        -- injection Heq as -> ->. apply Forall_cons in Hbefore as [_ Hbefore].
           by exists before, r, after.
    + rewrite (join_row_not_ok row m Hnot). split; [|done]. intros _.
      by exists [], row, rows.
  - cbn. split; [done|]. intros (before & r & after & Heq & _).
    by destruct before.
Qed.

(** The join strategy panics exactly when the cursor delivers, before any
    row that fails to scan, a row with a [detail_id] but a NULL [product_id],
    [quantity] or [unit_price]: the loop tests only [detailID] for nil before
    it dereferences the other three pointers. *)
Theorem join_panics_on_half_null_child_columns
    (w : World) (days : Z) (rows : list (Scanned OrderJoinRow)) :
  respond w 0 (SelectOrdersJoinDetails days) = QueryRows rows →
  (result (OptimizedOrderRepository.GetOrdersWithDetailsJoin w days) = None
   ↔ ∃ before row after,
       rows = (ScanOk <$> before) ++ ScanOk row :: after
       ∧ Forall row_ok before ∧ ¬ row_ok row).
Proof.
  intros Hresp. rewrite <-(join_rows_panic_iff rows ∅).
  unfold result, run, OptimizedOrderRepository.GetOrdersWithDetailsJoin. step_M.
  change (List.length (@nil Query)) with 0%nat. rewrite Hresp.
  by destruct (OptimizedOrderRepository.join_rows rows ∅) as [[err|m]|].
Qed.

Lemma join_panics_on_half_null_child_columns_witness :
  result (OptimizedOrderRepository.GetOrdersWithDetailsJoin
            (Cursors.order_join_world Cursors.half_null_cursor) 30) = None.
Proof.
  apply (join_panics_on_half_null_child_columns
           (Cursors.order_join_world Cursors.half_null_cursor) 30
           Cursors.half_null_cursor eq_refl).
  eexists [_], _, []. split; [reflexivity|]. split.
  - apply (bool_decide_unpack _). vm_compute. exact I.
  - apply (bool_decide_unpack _). vm_compute. exact I.
Defined.

(** ** What the batch strategies return for any answers *)

Lemma imap_index {A B} (g : nat → B) (l : list A) (n : nat) :
  imap (λ i _, g (n + i)%nat) l = g <$> seq n (List.length l).
Proof.
  revert n. induction l as [|x l IH]; intros n; [done|].
  cbn [imap List.length seq fmap list_fmap]. rewrite Nat.add_0_r. f_equal.
  rewrite <-IH. apply imap_ext. intros i y _. cbn. f_equal. lia.
Qed.

(** The [IN (...)] list has one placeholder per id, numbered from 1. *)
Lemma in_list_placeholders {A} (ids : slice A) :
  in_list ids = String.concat "," (placeholder <$> seq 0 (len ids)).
Proof.
  unfold in_list, len. rewrite fill_by_index_make. cbn [elems].
  by rewrite <-(imap_index placeholder (elems ids) 0).
Qed.

Lemma assemble_order_details (D : list OrderDetail.t) (o : Order.t) :
  OptimizedOrderRepository.assemble_order (OptimizedOrderRepository.group_details D) o
  = OrderWithDetails.mk o
      (slice_of (filter (λ d, OrderDetail.OrderID d = Order.OrderID o) D)).
Proof.
  unfold OptimizedOrderRepository.assemble_order. rewrite <-group_details_lookup.
  by destruct (default nil_slice (_ !! Order.OrderID o)).
Qed.

(** With parents [P] and the rows [D] answered to the membership statement,
    the batch strategy binds the keys of [P], in the order of [P] and with one
    placeholder each, and returns the parents in the order of [P], each with
    the rows of [D] that carry its key, in the order of [D]; rows of [D] with
    another key are dropped. *)
Theorem batch_attaches_details_by_order_id
    (w : World) (days : Z) (P : list Order.t) (D : list OrderDetail.t) :
  P ≠ [] →
  respond w 0 (SelectOrdersByDays days) = QueryRows (ScanOk <$> P) →
  respond w 1 (SelectDetailsByOrderIDs
                 (String.concat "," (placeholder <$> seq 0 (List.length P)))
                 (Order.OrderID <$> P))
  = QueryRows (ScanOk <$> D) →
  run (OptimizedOrderRepository.GetOrdersWithDetailsBatch w days)
  = (slice_of
       ((λ o, OrderWithDetails.mk o
                (slice_of (filter (λ d, OrderDetail.OrderID d = Order.OrderID o) D)))
          <$> P),
     None,
     [SelectOrdersByDays days;
      SelectDetailsByOrderIDs
        (String.concat "," (placeholder <$> seq 0 (List.length P)))
        (Order.OrderID <$> P)]).
Proof.
  intros HP Hresp HD. unfold run.
  rewrite (batch_orders_run w days [] P HP Hresp). cbn zeta.
  rewrite in_list_placeholders. unfold len. cbn [elems app List.length].
  rewrite length_fmap, HD, scan_all_ok. cbn [fst snd].
  rewrite foldl_append_elems. cbn [elems app].
  do 3 f_equal. apply list_fmap_ext. intros i o _. apply assemble_order_details.
Qed.

Lemma batch_attaches_details_by_order_id_witness :
  run (OptimizedOrderRepository.GetOrdersWithDetailsBatch
         (Relational.world Samples.three_orders id) 30)
  = (slice_of
       [OrderWithDetails.mk (Samples.order 1)
          (slice_of [Samples.detail 11 1; Samples.detail 12 1]);
        OrderWithDetails.mk (Samples.order 2) (slice_of []);
        OrderWithDetails.mk (Samples.order 3) (slice_of [Samples.detail 31 3])],
     None,
     [SelectOrdersByDays 30; SelectDetailsByOrderIDs ":1,:2,:3" [1; 2; 3]]).
Proof.
  apply (batch_attaches_details_by_order_id (Relational.world Samples.three_orders id) 30
           [Samples.order 1; Samples.order 2; Samples.order 3]
           [Samples.detail 11 1; Samples.detail 12 1; Samples.detail 31 3]).
  - discriminate.
  - reflexivity.
  - reflexivity.
Defined.

Lemma department_map_last (l : list Department.t) (k : Z) :
  OptimizedEmployeeRepository.department_map l !! k
  = last (filter (λ d, Department.DepartmentID d = k) l).
Proof.
  unfold OptimizedEmployeeRepository.department_map.
  induction l as [|x l IH] using rev_ind; [simpl; by rewrite lookup_empty|].
  rewrite foldl_snoc, filter_app, filter_cons, filter_nil.
  destruct (decide (Department.DepartmentID x = k)) as [<-|Hne].
  - by rewrite lookup_insert_eq, last_snoc.
  - by rewrite lookup_insert_ne, app_nil_r.
Qed.

Lemma department_ids_nonempty w (P : list Employee.t) :
  fair_order (map_order w) → P ≠ [] →
  len (OptimizedEmployeeRepository.department_ids w P) ≠ 0%nat.
Proof.
  intros Hfair HP. destruct P as [|e P']; [done|]. unfold len.
  assert (Employee.DepartmentID e
          ∈ elems (OptimizedEmployeeRepository.department_ids w (e :: P'))) as Hin.
  { apply elem_of_department_ids; [done|]. by left. }
  by destruct (elems _); [apply elem_of_nil in Hin|].
Qed.

Lemma batch_employees_result
    (w : World) (P : list Employee.t) (D : list Department.t) :
  fair_order (map_order w) →
  P ≠ [] →
  respond w 0 SelectAllEmployees = QueryRows (ScanOk <$> P) →
  respond w 1 (SelectDepartmentsByIDs
                 (in_list (OptimizedEmployeeRepository.department_ids w P))
                 (elems (OptimizedEmployeeRepository.department_ids w P)))
  = QueryRows (ScanOk <$> D) →
  result (OptimizedEmployeeRepository.GetEmployeesWithDepartmentBatch w)
  = (slice_of
       ((λ e, EmployeeWithDepartment.mk e
                (last (filter (λ d, Department.DepartmentID d = Employee.DepartmentID e) D)))
          <$> P),
     None).
Proof.
  intros Hfair HP Hresp HD. unfold result, run.
  rewrite (batch_employees_run w [] P HP (department_ids_nonempty w P Hfair HP) Hresp).
  cbn zeta. cbn [app List.length]. rewrite HD, scan_all_ok. cbn [fst snd].
  rewrite foldl_append_elems. cbn [elems app].
  do 2 f_equal. apply list_fmap_ext. intros i e _.
  unfold OptimizedEmployeeRepository.assemble_employee.
  rewrite department_map_last. by destruct (last _).
Qed.

(** With employees [P] and the rows [D] answered to the membership
    statement, the employee batch returns the employees in the order of [P],
    each with the last row of [D] that carries its [department_id], or with
    nil when [D] has none. *)
Theorem employee_batch_attaches_last_fetched_department
    (w : World) (P : list Employee.t) (D : list Department.t) :
  fair_order (map_order w) →
  P ≠ [] →
  respond w 0 SelectAllEmployees = QueryRows (ScanOk <$> P) →
  respond w 1 (SelectDepartmentsByIDs
                 (in_list (OptimizedEmployeeRepository.department_ids w P))
                 (elems (OptimizedEmployeeRepository.department_ids w P)))
  = QueryRows (ScanOk <$> D) →
  result (OptimizedEmployeeRepository.GetEmployeesWithDepartmentBatch w)
  = (slice_of
       ((λ e, EmployeeWithDepartment.mk e
                (last (filter (λ d, Department.DepartmentID d = Employee.DepartmentID e) D)))
          <$> P),
     None).
Proof. exact (batch_employees_result w P D). Qed.

Lemma employee_batch_attaches_last_fetched_department_witness :
  result (OptimizedEmployeeRepository.GetEmployeesWithDepartmentBatch
            (Relational.world Samples.staff id))
  = (slice_of
       [EmployeeWithDepartment.mk (Samples.employee 1 10) (Some (Samples.department 10));
        EmployeeWithDepartment.mk (Samples.employee 2 10) (Some (Samples.department 10));
        EmployeeWithDepartment.mk (Samples.employee 3 99) None],
     None).
Proof.
  apply (employee_batch_attaches_last_fetched_department
           (Relational.world Samples.staff id)
           [Samples.employee 1 10; Samples.employee 2 10; Samples.employee 3 99]
           [Samples.department 10]).
  - intros l. reflexivity.
  - discriminate.
  - reflexivity.
  - reflexivity.
Defined.

(** ** Runs without parents *)

Lemma range_values_empty {V} (ρ : list Z → list Z) : range_values ρ (∅ : gmap Z V) = [].
Proof.
  unfold range_values, range_entries.
  induction (ρ (map_to_list (∅ : gmap Z V)).*1) as [|k l IH]; [done|].
  cbn. by rewrite lookup_empty.
Qed.

(** When the first statement returns no row: the naive strategies and the
    employee join return the nil slice, the order join and the two batch
    strategies the empty non-nil slice; none reports an error. *)
Theorem results_without_parents (w : World) (days : Z) :
  (respond w 0 (SelectOrdersByDays days) = QueryRows [] →
   result (ProblemOrderRepository.GetOrdersWithDetails w days) = (nil_slice, None)
   ∧ result (OptimizedOrderRepository.GetOrdersWithDetailsBatch w days) = (slice_of [], None))
  ∧ (respond w 0 (SelectOrdersJoinDetails days) = QueryRows [] →
     result (OptimizedOrderRepository.GetOrdersWithDetailsJoin w days)
     = Some (slice_of [], None))
  ∧ (respond w 0 SelectAllEmployees = QueryRows [] →
     result (ProblemEmployeeRepository.GetEmployeesWithDepartment w) = (nil_slice, None)
     ∧ result (OptimizedEmployeeRepository.GetEmployeesWithDepartmentBatch w)
       = (slice_of [], None))
  ∧ (respond w 0 SelectEmployeesJoinDepartments = QueryRows [] →
     result (OptimizedEmployeeRepository.GetEmployeesWithDepartmentJoin w)
     = (nil_slice, None)).
Proof.
  unfold result, run. split; [|split; [|split]].
  - intros Hresp. split.
    + rewrite (naive_orders_run w days [] [] Hresp). reflexivity.
    + by rewrite (batch_orders_run_empty w days [] Hresp).
  - intros Hresp. unfold OptimizedOrderRepository.GetOrdersWithDetailsJoin. step_M.
    change (List.length (@nil Query)) with 0%nat. rewrite Hresp.
    cbn [fmap list_fmap OptimizedOrderRepository.join_rows fst].
    by rewrite range_values_empty.
  - intros Hresp. split.
    + rewrite (naive_employees_run w [] [] Hresp). reflexivity.
    + by rewrite (batch_employees_run_empty w [] Hresp).
  - intros Hresp. by rewrite (join_employees_run w [] [] Hresp).
Qed.

Lemma results_without_parents_witness :
  (result (ProblemOrderRepository.GetOrdersWithDetails
             (Relational.world Samples.empty_db id) 30) = (nil_slice, None)
   ∧ result (OptimizedOrderRepository.GetOrdersWithDetailsBatch
               (Relational.world Samples.empty_db id) 30) = (slice_of [], None))
  ∧ result (OptimizedOrderRepository.GetOrdersWithDetailsJoin
              (Relational.world Samples.empty_db id) 30) = Some (slice_of [], None)
  ∧ (result (ProblemEmployeeRepository.GetEmployeesWithDepartment
               (Relational.world Samples.empty_db id)) = (nil_slice, None)
     ∧ result (OptimizedEmployeeRepository.GetEmployeesWithDepartmentBatch
                 (Relational.world Samples.empty_db id)) = (slice_of [], None))
  ∧ result (OptimizedEmployeeRepository.GetEmployeesWithDepartmentJoin
              (Relational.world Samples.empty_db id)) = (nil_slice, None).
Proof.
  destruct (results_without_parents (Relational.world Samples.empty_db id) 30)
    as (H1 & H2 & H3 & H4).
  split; [|split; [|split]]; [apply H1|apply H2|apply H3|apply H4]; reflexivity.
Defined.

(** ** Round trips of the employee strategies *)

Lemma department_per_employee_success w employees : ∀ result log res log',
  ProblemEmployeeRepository.department_per_employee w employees result log
  = (res, None, log') →
  log' = log ++ (SelectDepartmentByID ∘ Employee.DepartmentID <$> employees)
  ∧ ∃ aggs, res = foldl append result aggs
      ∧ EmployeeWithDepartment.Employee <$> aggs = employees.
Proof.
  induction employees as [|e employees IH]; intros result log res log'.
  - intros [= <- <-]. rewrite app_nil_r. split; [done|]. by exists [].
  - rewrite department_per_employee_step. cbn zeta.
    destruct (_.1.2) eqn:E; [by intros [= ]|].
    intros H. apply IH in H as (-> & aggs & -> & Haggs).
    split; [by rewrite <-app_assoc|].
    eexists (_ :: aggs). split; [reflexivity|]. simpl. by f_equal.
Qed.

(** On a successful run over the employees [P], the naive strategy has
    issued one statement per employee besides the first one, also for
    employees that share a department; the join strategy one statement; the
    batch strategy two, however many departments are referred to, and one when
    [P] is empty. *)
Theorem employee_round_trips (w : World) (P : list Employee.t) :
  fair_order (map_order w) →
  respond w 0 SelectAllEmployees = QueryRows (ScanOk <$> P) →
  (∀ res, result (ProblemEmployeeRepository.GetEmployeesWithDepartment w) = (res, None) →
     List.length (queries (ProblemEmployeeRepository.GetEmployeesWithDepartment w))
     = (1 + List.length P)%nat
     ∧ len res = List.length P)
  ∧ List.length (queries (OptimizedEmployeeRepository.GetEmployeesWithDepartmentJoin w))
    = 1%nat
  ∧ (∀ res, result (OptimizedEmployeeRepository.GetEmployeesWithDepartmentBatch w)
            = (res, None) →
     List.length (queries (OptimizedEmployeeRepository.GetEmployeesWithDepartmentBatch w))
     = match P with [] => 1%nat | _ => 2%nat end).
Proof.
  intros Hfair Hresp. unfold result, queries, run. split; [|split].
  - intros res Hres. rewrite (naive_employees_run w [] P Hresp) in *.
    destruct (ProblemEmployeeRepository.department_per_employee w P nil_slice _)
      as [[res' err] log'] eqn:E.
    simpl in Hres. injection Hres as -> ->.
    apply department_per_employee_success in E as (-> & aggs & -> & <-).
    split.
    + simpl. by rewrite !length_fmap.
    + unfold len. by rewrite foldl_append_elems, length_fmap.
  - unfold OptimizedEmployeeRepository.GetEmployeesWithDepartmentJoin. step_M.
    by destruct (respond w _ SelectEmployeesJoinDepartments).
  - intros res Hres. destruct P as [|p P'].
    + by rewrite (batch_employees_run_empty w [] Hresp).
    + by rewrite (batch_employees_run w [] (p :: P') ltac:(done)
                    (department_ids_nonempty w (p :: P') Hfair ltac:(done)) Hresp).
Qed.

Lemma employee_round_trips_witness :
  List.length (queries (ProblemEmployeeRepository.GetEmployeesWithDepartment
                          (Relational.world Samples.staff id))) = 4%nat
  ∧ List.length (queries (OptimizedEmployeeRepository.GetEmployeesWithDepartmentJoin
                            (Relational.world Samples.staff id))) = 1%nat
  ∧ List.length (queries (OptimizedEmployeeRepository.GetEmployeesWithDepartmentBatch
                            (Relational.world Samples.staff id))) = 2%nat.
Proof.
  destruct (employee_round_trips (Relational.world Samples.staff id)
              [Samples.employee 1 10; Samples.employee 2 10; Samples.employee 3 99]
              fair_order_id eq_refl)
    as (Hnaive & Hjoin & Hbatch).
  split; [|split].
  - eapply Hnaive. vm_compute. reflexivity.
  - exact Hjoin.
  - eapply Hbatch. vm_compute. reflexivity.
Defined.

(** ** The employee strategies over the relational database *)




Section EmployeesAgree.
Import Relational.
Variables (db : Database).
Hypothesis Hemployee_keys : NoDup (Employee.EmployeeID <$> employees db).
Hypothesis Hdepartment_keys : NoDup (Department.DepartmentID <$> departments db).






End EmployeesAgree.



(** ** The demonstration service *)

(** Unfolds the monadic steps of a service method. *)
Ltac step_IO :=
  unfold mbind, mret, DemoService.IO_bind, DemoService.IO_ret, DemoService.Printf,
    DemoService.time_Since, DemoService.time_Now, DemoService.call,
    DemoService.displayPerformanceComparison;
  cbn beta iota zeta;
  cbn [DemoService.statements DemoService.readings DemoService.stdout].

(** A comparison returns the three measurements, in the order naive, join,
    batch, or it returns the nil slice together with the error of one
    strategy wrapped under the prefix of that strategy: it never returns the
    measurements taken before a failure. *)
Theorem comparison_is_all_or_nothing
    (s : DemoService.Env) (days : Z) (p : DemoService.Process) :
  (∀ res err,
     (DemoService.CompareOrderPerformance s days p).1 = Some (res, err) →
     all_or_nothing res err)
  ∧ (∀ res err,
       (DemoService.CompareEmployeePerformance s p).1 = (res, err) →
       all_or_nothing res err).
Proof.
  split; intros res err.
  - unfold DemoService.CompareOrderPerformance. step_IO.
    destruct (ProblemOrderRepository.GetOrdersWithDetails _ _ _) as [[n [e|]] log1].
    { intros [= <- <-]. right. split; [done|]. eexists _, e. split; [done|]. set_solver. }
    step_IO.
    destruct (OptimizedOrderRepository.GetOrdersWithDetailsJoin _ _ _)
      as [[[j [e|]]|] log2]; [| |done].
    { intros [= <- <-]. right. split; [done|]. eexists _, e. split; [done|]. set_solver. }
    step_IO.
    destruct (OptimizedOrderRepository.GetOrdersWithDetailsBatch _ _ _) as [[b [e|]] log3].
    { intros [= <- <-]. right. split; [done|]. eexists _, e. split; [done|]. set_solver. }
    intros [= <- <-]. by left.
  - unfold DemoService.CompareEmployeePerformance. step_IO.
    destruct (ProblemEmployeeRepository.GetEmployeesWithDepartment _ _) as [[n [e|]] log1].
    { intros [= <- <-]. right. split; [done|]. eexists _, e. split; [done|]. set_solver. }
    step_IO.
    destruct (OptimizedEmployeeRepository.GetEmployeesWithDepartmentJoin _ _)
      as [[j [e|]] log2].
    { intros [= <- <-]. right. split; [done|]. eexists _, e. split; [done|]. set_solver. }
    step_IO.
    destruct (OptimizedEmployeeRepository.GetEmployeesWithDepartmentBatch _ _)
      as [[b [e|]] log3].
    { intros [= <- <-]. right. split; [done|]. eexists _, e. split; [done|]. set_solver. }
    intros [= <- <-]. by left.
Qed.

Lemma comparison_is_all_or_nothing_witness :
  all_or_nothing nil_slice
    (Some (Errorf "バッチ最適化アプローチでエラー: "
             (Errorf "failed to get details: "
                (Errorf "failed to execute batch query: "
                   (DriverError "ORA-03113: end-of-file on communication channel")))))
  ∧ ∃ res, all_or_nothing res None
           ∧ (DemoService.CompareEmployeePerformance
                (Runs.env (Relational.world Samples.staff id)) DemoService.boot).1
             = (res, None).
Proof.
  destruct (comparison_is_all_or_nothing
              (Runs.env (Samples.flaky Samples.three_orders 6)) 30 DemoService.boot)
    as [Horders _].
  destruct (comparison_is_all_or_nothing
              (Runs.env (Relational.world Samples.staff id)) 30 DemoService.boot)
    as [_ Hemployees].
  split.
  - apply Horders. vm_compute. reflexivity.
  - eexists. split; [apply Hemployees|]; vm_compute; reflexivity.
Defined.



(** The employee comparison stops in the same way at the first strategy
    that fails. *)
Theorem employee_comparison_stops_at_failed_strategy
    (s : DemoService.Env) (p : DemoService.Process) :
  (∀ n e log1,
     ProblemEmployeeRepository.GetEmployeesWithDepartment (DemoService.db s)
       (DemoService.statements p) = (n, Some e, log1) →
     DemoService.CompareEmployeePerformance s p
     = ((nil_slice, Some (Errorf "N+1問題のあるアプローチでエラー: " e)),
        {| DemoService.statements := log1;
           DemoService.readings := 1 + DemoService.readings p;
           DemoService.stdout :=
             DemoService.stdout p
             ++ [DemoService.Println "=== 社員データ取得パフォーマンス比較 ===";
                 DemoService.Println "1. N+1問題のあるアプローチを実行中..."] |}))
  ∧ (∀ n log1 j e log2,
       ProblemEmployeeRepository.GetEmployeesWithDepartment (DemoService.db s)
         (DemoService.statements p) = (n, None, log1) →
       OptimizedEmployeeRepository.GetEmployeesWithDepartmentJoin (DemoService.db s) log1
       = (j, Some e, log2) →
       DemoService.CompareEmployeePerformance s p
       = ((nil_slice, Some (Errorf "JOIN最適化アプローチでエラー: " e)),
          {| DemoService.statements := log2;
             DemoService.readings := 3 + DemoService.readings p;
             DemoService.stdout :=
               DemoService.stdout p
               ++ [DemoService.Println "=== 社員データ取得パフォーマンス比較 ===";
                   DemoService.Println "1. N+1問題のあるアプローチを実行中...";
                   DemoService.Measured
                     (time.Sub (DemoService.clock s (1 + DemoService.readings p))
                               (DemoService.clock s (DemoService.readings p))) (len n);
                   DemoService.Println "2. JOIN使用の最適化アプローチを実行中..."] |}))
  ∧ (∀ n log1 j log2 b e log3,
       ProblemEmployeeRepository.GetEmployeesWithDepartment (DemoService.db s)
         (DemoService.statements p) = (n, None, log1) →
       OptimizedEmployeeRepository.GetEmployeesWithDepartmentJoin (DemoService.db s) log1
       = (j, None, log2) →
       OptimizedEmployeeRepository.GetEmployeesWithDepartmentBatch (DemoService.db s) log2
       = (b, Some e, log3) →
       DemoService.CompareEmployeePerformance s p
       = ((nil_slice, Some (Errorf "バッチ最適化アプローチでエラー: " e)),
          {| DemoService.statements := log3;
             DemoService.readings := 5 + DemoService.readings p;
             DemoService.stdout :=
               DemoService.stdout p
               ++ [DemoService.Println "=== 社員データ取得パフォーマンス比較 ===";
                   DemoService.Println "1. N+1問題のあるアプローチを実行中...";
                   DemoService.Measured
                     (time.Sub (DemoService.clock s (1 + DemoService.readings p))
                               (DemoService.clock s (DemoService.readings p))) (len n);
                   DemoService.Println "2. JOIN使用の最適化アプローチを実行中...";
                   DemoService.Measured
                     (time.Sub (DemoService.clock s (3 + DemoService.readings p))
                               (DemoService.clock s (2 + DemoService.readings p))) (len j);
                   DemoService.Println "3. バッチ取得アプローチを実行中..."] |})).
Proof.
  repeat split.
  - intros n e log1 Hn. unfold DemoService.CompareEmployeePerformance. step_IO.
    rewrite Hn. step_IO. by rewrite <-!app_assoc.
  - intros n log1 j e log2 Hn Hj. unfold DemoService.CompareEmployeePerformance. step_IO.
    rewrite Hn. step_IO. rewrite Hj. step_IO. by rewrite <-!app_assoc.
  - intros n log1 j log2 b e log3 Hn Hj Hb.
    unfold DemoService.CompareEmployeePerformance. step_IO.
    rewrite Hn. step_IO. rewrite Hj. step_IO. rewrite Hb. step_IO.
    by rewrite <-!app_assoc.
Qed.

Lemma employee_comparison_stops_at_failed_strategy_witness :
  DemoService.statements
    (DemoService.CompareEmployeePerformance
       (Runs.env (Samples.flaky Samples.staff 0)) DemoService.boot).2
  = [SelectAllEmployees]
  ∧ DemoService.statements
      (DemoService.CompareEmployeePerformance
         (Runs.env (Samples.flaky Samples.staff 4)) DemoService.boot).2
    = [SelectAllEmployees; SelectDepartmentByID 10; SelectDepartmentByID 10;
       SelectDepartmentByID 99; SelectEmployeesJoinDepartments]
  ∧ DemoService.readings
      (DemoService.CompareEmployeePerformance
         (Runs.env (Samples.flaky Samples.staff 5)) DemoService.boot).2 = 5%nat.
Proof.
  destruct (employee_comparison_stops_at_failed_strategy
              (Runs.env (Samples.flaky Samples.staff 0)) DemoService.boot)
    as (Hnaive & _).
  destruct (employee_comparison_stops_at_failed_strategy
              (Runs.env (Samples.flaky Samples.staff 4)) DemoService.boot)
    as (_ & Hjoin & _).
  destruct (employee_comparison_stops_at_failed_strategy
              (Runs.env (Samples.flaky Samples.staff 5)) DemoService.boot)
    as (_ & _ & Hbatch).
  split; [|split].
  - erewrite Hnaive; [reflexivity|]. vm_compute. reflexivity.
  - erewrite Hjoin; [reflexivity| |]; vm_compute; reflexivity.
  - erewrite Hbatch; [reflexivity| | |]; vm_compute; reflexivity.
Defined.

(** ** A comparison in which every strategy succeeds *)



(** ** Comparisons over the relational database *)

Section ComparisonRelational.
Import Relational.
Variables (db : Database) (ρ : list Z → list Z).
Hypothesis Hfair : fair_order ρ.
Let w : World := world db ρ.







End ComparisonRelational.



(** ** The comparison table *)

(** [<] on binary64 values is transitive. *)
Lemma SFcompare_Lt_trans a c b :
  SFcompare a c = Some Lt → SFcompare c b = Some Lt → SFcompare a b = Some Lt.
Proof.
  destruct a as [sa|sa| |sa ma ea], c as [sc|sc| |sc mc ec], b as [sb|sb| |sb mb eb];
    cbn [SFcompare]; try done;
    try (destruct sa; try done); try (destruct sc; try done); try (destruct sb; try done).
  all: change (PosDef.Pos.compare_cont Eq ?x ?y) with (Pos.compare x y).
  all: destruct (Z.compare_spec ea ec), (Z.compare_spec ec eb), (Z.compare_spec ea eb);
    try done; try lia.
  all: destruct (Pos.compare_spec ma mc), (Pos.compare_spec mc mb),
         (Pos.compare_spec ma mb); cbn [CompOpp]; try done; try lia.
Qed.

Lemma ltb_false_step (a b c : float64) :
  PrimFloat.ltb a b = false → PrimFloat.ltb a c = true → PrimFloat.ltb c b = false.
Proof.
  rewrite !FloatAxioms.ltb_spec. unfold SFltb. intros Hab Hac.
  destruct (SFcompare (Prim2SF c) (Prim2SF b)) as [[| |]|] eqn:Hcb; try done.
  destruct (SFcompare (Prim2SF a) (Prim2SF c)) as [[| |]|] eqn:Hac'; try done.
  by rewrite (SFcompare_Lt_trans _ _ _ Hac' Hcb) in Hab.
Qed.

Lemma ltb_irrefl (a : float64) : PrimFloat.ltb a a = false.
Proof.
  rewrite FloatAxioms.ltb_spec. unfold SFltb.
  destruct (Prim2SF a) as [s|s| |s m e]; cbn [SFcompare]; try done; destruct s; try done.
  all: change (PosDef.Pos.compare_cont Eq ?x ?y) with (Pos.compare x y).
  all: by rewrite Z.compare_refl, Pos.compare_refl.
Qed.

(** The loop that looks for the best result keeps a result seen so far, its
    own speed-up, and no result seen so far has a greater one. *)
Lemma best_of_invariant baseDuration rest : ∀ seen best,
  best ∈ seen →
  (∀ r, r ∈ seen →
     PrimFloat.ltb (service.improvement baseDuration (service.ExecutionTime best))
       (service.improvement baseDuration (service.ExecutionTime r)) = false) →
  ∃ best',
    service.best_of baseDuration rest
      (best, service.improvement baseDuration (service.ExecutionTime best))
    = (best', service.improvement baseDuration (service.ExecutionTime best'))
    ∧ best' ∈ seen ++ rest
    ∧ ∀ r, r ∈ seen ++ rest →
        PrimFloat.ltb (service.improvement baseDuration (service.ExecutionTime best'))
          (service.improvement baseDuration (service.ExecutionTime r)) = false.
Proof.
  induction rest as [|x rest IH]; intros seen best Hbest Hmax.
  { exists best. rewrite app_nil_r. by split. }
  unfold service.best_of. cbn [foldl fst snd].
  destruct (PrimFloat.ltb _ (service.improvement baseDuration (service.ExecutionTime x)))
    eqn:Hlt.
  - destruct (IH (seen ++ [x]) x) as (best' & Hrun & Hin & Hmax').
    + apply elem_of_app. right. by left.
    + intros r [Hr| ->%list_elem_of_singleton]%elem_of_app.
      * by eapply ltb_false_step; [apply Hmax|].
      * apply ltb_irrefl.
    + exists best'. by rewrite <-app_assoc in Hin, Hmax'.
  - destruct (IH (seen ++ [x]) best) as (best' & Hrun & Hin & Hmax').
    + apply elem_of_app. by left.
    + intros r [Hr| ->%list_elem_of_singleton]%elem_of_app; [by apply Hmax|done].
    + exists best'. by rewrite <-app_assoc in Hin, Hmax'.
Qed.

(** With fewer than two results the comparison table is not printed.
    Otherwise it has a header, the baseline, one line per other result with
    its speed-up against the baseline, and two closing lines on the best
    result: that result is one of the non-baseline results, the speed-up
    printed for it is its own, and no non-baseline result has a greater
    one. *)
Theorem comparison_table_names_a_fastest_result (results : list service.PerformanceResult) :
  ((List.length results < 2)%nat → service.displayPerformanceComparison results = [])
  ∧ (∀ base rest,
       results = base :: rest → rest ≠ [] →
       let speedup (r : service.PerformanceResult) :=
         service.improvement (service.ExecutionTime base) (service.ExecutionTime r) in
       ∃ best,
         best ∈ rest
         ∧ service.displayPerformanceComparison results
           = [service.Header;
              service.BaseLine (service.Method base) (service.ExecutionTime base)]
             ++ ((λ r, service.SpeedupLine (service.Method r) (service.ExecutionTime r)
                         (speedup r)) <$> rest)
             ++ [service.BestMethodLine (service.Method best);
                 service.BestEffectLine (speedup best)
                   (PrimFloat.div
                      (service.float64_of_int64 (service.ExecutionTime base)) 1e6%float)
                   (PrimFloat.div
                      (service.float64_of_int64 (service.ExecutionTime best)) 1e6%float)]
         ∧ ∀ r, r ∈ rest → PrimFloat.ltb (speedup best) (speedup r) = false).
Proof.
  split.
  - destruct results as [|base [|second others]]; cbn [List.length]; [done|done|lia].
  - intros base [|second others] -> Hrest speedup; [done|].
    destruct (best_of_invariant (service.ExecutionTime base) others [second] second)
      as (best & Hrun & Hin & Hmax).
    { by left. }
    { intros r ->%list_elem_of_singleton. apply ltb_irrefl. }
    exists best. split; [done|]. split; [|done].
    unfold service.displayPerformanceComparison. by rewrite Hrun.
Qed.

Lemma comparison_table_names_a_fastest_result_witness :
  ∃ best,
    best ∈ [Timings.join (Timings.ms 3); Timings.batch (Timings.ms 5)]
    ∧ ∀ r, r ∈ [Timings.join (Timings.ms 3); Timings.batch (Timings.ms 5)] →
        PrimFloat.ltb
          (service.improvement (Timings.ms 30) (service.ExecutionTime best))
          (service.improvement (Timings.ms 30) (service.ExecutionTime r)) = false.
Proof.
  destruct (comparison_table_names_a_fastest_result
              [Timings.naive (Timings.ms 30); Timings.join (Timings.ms 3);
               Timings.batch (Timings.ms 5)]) as [_ Htable].
  destruct (Htable (Timings.naive (Timings.ms 30))
              [Timings.join (Timings.ms 3); Timings.batch (Timings.ms 5)]
              eq_refl ltac:(discriminate)) as (best & Hin & _ & Hmax).
  exists best. split; [exact Hin|exact Hmax].
Defined.

(** ** The sample display *)

Section SampleDisplay.
Variable s : DemoService.Env.

Lemma Printf_emit o p : DemoService.Printf o p = (tt, emit p [o]).
Proof. reflexivity. Qed.

Lemma emit_emit p out1 out2 : emit (emit p out1) out2 = emit p (out1 ++ out2).
Proof. unfold emit. cbn. by rewrite <-app_assoc. Qed.

Lemma emit_nil p : emit p [] = p.
Proof. destruct p. unfold emit. cbn. by rewrite app_nil_r. Qed.

(** The loop over the details prints the details up to the third and then,
    if one is left, the line on the remainder. *)
Lemma show_details_output n details : ∀ j p,
  (j ≤ 3)%nat →
  DemoService.show_details n j details p
  = (tt, emit p ((DemoService.DetailLine <$> take (3 - j) details)
                 ++ (if bool_decide (3 - j < List.length details)%nat
                     then [DemoService.MoreDetails (Z.of_nat n - 3)] else []))).
Proof.
  induction details as [|d details IH]; intros j p Hj.
  { cbn. rewrite take_nil. cbn. by rewrite emit_nil. }
  cbn [DemoService.show_details]. case_bool_decide as H3.
  - assert (j = 3)%nat as -> by lia. cbn. reflexivity.
  - step_IO. fold (emit p [DemoService.DetailLine d]).
    rewrite IH by lia. rewrite emit_emit. do 2 f_equal.
    replace (3 - j)%nat with (S (3 - S j)) by lia.
    cbn [take fmap list_fmap app List.length]. do 2 f_equal.
    rewrite (bool_decide_ext (3 - S j < List.length details)%nat
               (S (3 - S j) < S (List.length details))%nat) by lia.
    reflexivity.
Qed.

(** The loop over the orders prints the block of each order in turn, and no
    index is out of range. *)
Lemma show_orders_output orders k : ∀ a p,
  (a + k ≤ len orders)%nat →
  DemoService.show_orders orders (seq a k) p
  = (Some tt, emit p (take k (drop a (elems orders)) ≫= order_block)).
Proof.
  induction k as [|k IH]; intros a p Hk.
  { cbn. by rewrite emit_nil. }
  cbn [seq DemoService.show_orders].
  destruct (lookup_lt_is_Some_2 (elems orders) a) as [order Horder];
    [unfold len in Hk; lia|].
  rewrite Horder. step_IO.
  fold (emit p [DemoService.OrderLine (OrderWithDetails.Order order)]).
  rewrite show_details_output by lia.
  rewrite emit_emit.
  match goal with
  | |- context [DemoService.show_orders orders (seq (S a) k) ?q] =>
      change q with (emit (emit p (DemoService.OrderLine (OrderWithDetails.Order order)
          :: (DemoService.DetailLine
                <$> take (3 - 0) (elems (OrderWithDetails.Details order)))
          ++ (if bool_decide
                   (3 - 0 < List.length (elems (OrderWithDetails.Details order)))%nat
              then [DemoService.MoreDetails
                      (Z.of_nat (len (OrderWithDetails.Details order)) - 3)]
              else []))) [DemoService.Println EmptyString])
  end.
  rewrite IH by lia. rewrite !emit_emit. do 2 f_equal.
  rewrite (drop_S _ _ _ Horder). cbn [take]. rewrite bind_cons.
  unfold order_block at 2. cbn zeta. unfold len. cbn [Nat.sub].
  cbn [app]. f_equal. by rewrite <-!app_assoc.
Qed.

Lemma show_employees_output employees k : ∀ a p,
  (a + k ≤ len employees)%nat →
  DemoService.show_employees employees (seq a k) p
  = (Some tt, emit p (employee_line <$> take k (drop a (elems employees)))).
Proof.
  induction k as [|k IH]; intros a p Hk.
  { cbn. by rewrite emit_nil. }
  cbn [seq DemoService.show_employees].
  destruct (lookup_lt_is_Some_2 (elems employees) a) as [emp Hemp];
    [unfold len in Hk; lia|].
  rewrite Hemp. step_IO.
  fold (emit p [DemoService.EmployeeLine (EmployeeWithDepartment.Employee emp)
                  (DemoService.departmentInfo emp)]).
  rewrite IH by lia. rewrite emit_emit. do 2 f_equal.
  by rewrite (drop_S _ _ _ Hemp).
Qed.

Lemma displayCount_take {A} (count : Z) (l : list A) :
  0 < count →
  take (Z.to_nat (DemoService.displayCount count (List.length l))) l
  = take (Z.to_nat count) l.
Proof.
  intros Hcount. unfold DemoService.displayCount. case_bool_decide as Hlen; [|done].
  rewrite Nat2Z.id, firstn_all. symmetry. apply take_ge. lia.
Qed.

Lemma displayCount_le (count : Z) (n : nat) :
  (Z.to_nat (DemoService.displayCount count n) ≤ n)%nat.
Proof. unfold DemoService.displayCount. case_bool_decide; lia. Qed.

Lemma DisplaySampleEmployees_output employeeCount p employees log :
  0 < employeeCount →
  OptimizedEmployeeRepository.GetEmployeesWithDepartmentJoin (DemoService.db s)
    (DemoService.statements p) = (employees, None, log) →
  DemoService.DisplaySampleEmployees s employeeCount p
  = (Some None,
     {| DemoService.statements := log;
        DemoService.readings := DemoService.readings p;
        DemoService.stdout :=
          DemoService.stdout p
          ++ DemoService.EmployeeSampleTitle employeeCount
             :: (employee_line <$> take (Z.to_nat employeeCount) (elems employees)) |}).
Proof.
  intros Hcount Hjoin. unfold DemoService.DisplaySampleEmployees.
  rewrite bool_decide_true by done. step_IO. rewrite Hjoin. step_IO.
  rewrite show_employees_output by (pose proof (displayCount_le employeeCount (len employees)); lia).
  rewrite drop_0. unfold len. rewrite displayCount_take by done.
  unfold emit. cbn. by rewrite <-app_assoc.
Qed.

End SampleDisplay.

(** When both joins succeed, the sample display shows, under its titles, the
    first [orderCount] orders (all of them if there are fewer), each with at
    most three details and the number of details left out, then the first
    [employeeCount] employees: no index is out of range, no error is
    returned, and the two joins are the only statements. *)
Theorem sample_display_lists_the_leading_rows
    (s : DemoService.Env) (orderCount employeeCount : Z) (p : DemoService.Process)
    (orders : slice OrderWithDetails.t) (log1 : list Query)
    (employees : slice EmployeeWithDepartment.t) (log2 : list Query) :
  0 < orderCount →
  0 < employeeCount →
  OptimizedOrderRepository.GetOrdersWithDetailsJoin (DemoService.db s) 30
    (DemoService.statements p) = (Some (orders, None), log1) →
  OptimizedEmployeeRepository.GetEmployeesWithDepartmentJoin (DemoService.db s) log1
  = (employees, None, log2) →
  DemoService.DisplaySampleData s orderCount employeeCount p
  = (Some None,
     {| DemoService.statements := log2;
        DemoService.readings := DemoService.readings p;
        DemoService.stdout :=
          DemoService.stdout p
          ++ [DemoService.Println "=== サンプルデータ表示 ===";
              DemoService.OrderSampleTitle orderCount]
          ++ (take (Z.to_nat orderCount) (elems orders) ≫= order_block)
          ++ DemoService.EmployeeSampleTitle employeeCount
             :: (employee_line <$> take (Z.to_nat employeeCount) (elems employees)) |}).
Proof.
  intros Horders Hemployees Hjoin Hjoin'. unfold DemoService.DisplaySampleData.
  step_IO. rewrite bool_decide_true by done. step_IO. rewrite Hjoin. step_IO.
  rewrite show_orders_output
    by (pose proof (displayCount_le orderCount (len orders)); lia).
  rewrite drop_0. unfold len. rewrite displayCount_take by done.
  erewrite (DisplaySampleEmployees_output s employeeCount _ employees log2 Hemployees);
    [|exact Hjoin'].
  unfold emit. cbn. by rewrite <-!app_assoc.
Qed.

Lemma sample_display_lists_the_leading_rows_witness :
  ∃ orders employees log,
    DemoService.DisplaySampleData
      (Runs.env (Relational.world Runs.catalogue id)) 1 5 DemoService.boot
    = (Some None,
       {| DemoService.statements := log;
          DemoService.readings := 0;
          DemoService.stdout :=
            [DemoService.Println "=== サンプルデータ表示 ===";
             DemoService.OrderSampleTitle 1]
            ++ (take 1 (elems orders) ≫= order_block)
            ++ DemoService.EmployeeSampleTitle 5
               :: (employee_line <$> take 5 (elems employees)) |})
    ∧ len orders = 2%nat ∧ len employees = 2%nat.
Proof.
  eexists _, _, _. split.
  - eapply (sample_display_lists_the_leading_rows
              (Runs.env (Relational.world Runs.catalogue id)) 1 5 DemoService.boot).
    + lia.
    + lia.
    + vm_compute. reflexivity.
    + vm_compute. reflexivity.
  - split; vm_compute; reflexivity.
Defined.

(** The sample display issues no statement for a count that is not positive;
    when the order join fails it returns that error wrapped and does not go
    on to the employees; a panic of the order join ends it; and a failure of
    the employee join is returned wrapped as well. *)
Theorem sample_display_skips_and_stops
    (s : DemoService.Env) (orderCount employeeCount : Z) (p : DemoService.Process) :
  (orderCount ≤ 0 → employeeCount ≤ 0 →
   DemoService.DisplaySampleData s orderCount employeeCount p
   = (Some None, emit p [DemoService.Println "=== サンプルデータ表示 ==="]))
  ∧ (∀ orders e log1,
       0 < orderCount →
       OptimizedOrderRepository.GetOrdersWithDetailsJoin (DemoService.db s) 30
         (DemoService.statements p) = (Some (orders, Some e), log1) →
       DemoService.DisplaySampleData s orderCount employeeCount p
       = (Some (Some (Errorf "受注データの取得に失敗: " e)),
          {| DemoService.statements := log1;
             DemoService.readings := DemoService.readings p;
             DemoService.stdout :=
               DemoService.stdout p
               ++ [DemoService.Println "=== サンプルデータ表示 ===";
                   DemoService.OrderSampleTitle orderCount] |}))
  ∧ (∀ log1,
       0 < orderCount →
       OptimizedOrderRepository.GetOrdersWithDetailsJoin (DemoService.db s) 30
         (DemoService.statements p) = (None, log1) →
       (DemoService.DisplaySampleData s orderCount employeeCount p).1 = None)
  ∧ (∀ employees e log1,
       orderCount ≤ 0 → 0 < employeeCount →
       OptimizedEmployeeRepository.GetEmployeesWithDepartmentJoin (DemoService.db s)
         (DemoService.statements p) = (employees, Some e, log1) →
       DemoService.DisplaySampleData s orderCount employeeCount p
       = (Some (Some (Errorf "社員データの取得に失敗: " e)),
          {| DemoService.statements := log1;
             DemoService.readings := DemoService.readings p;
             DemoService.stdout :=
               DemoService.stdout p
               ++ [DemoService.Println "=== サンプルデータ表示 ===";
                   DemoService.EmployeeSampleTitle employeeCount] |})).
Proof.
  split; [|split; [|split]].
  - intros Horders Hemployees.
    unfold DemoService.DisplaySampleData, DemoService.DisplaySampleEmployees. step_IO.
    rewrite !bool_decide_false by lia. reflexivity.
  - intros orders e log1 Horders Hjoin. unfold DemoService.DisplaySampleData. step_IO.
    rewrite bool_decide_true by done. step_IO. rewrite Hjoin. step_IO.
    by rewrite <-!app_assoc.
  - intros log1 Horders Hjoin. unfold DemoService.DisplaySampleData. step_IO.
    rewrite bool_decide_true by done. step_IO. by rewrite Hjoin.
  - intros employees e log1 Horders Hemployees Hjoin.
    unfold DemoService.DisplaySampleData, DemoService.DisplaySampleEmployees. step_IO.
    rewrite bool_decide_false by lia. rewrite bool_decide_true by done. step_IO.
    rewrite Hjoin. step_IO. by rewrite <-!app_assoc.
Qed.

Lemma sample_display_skips_and_stops_witness :
  DemoService.statements
    (DemoService.DisplaySampleData
       (Runs.env (Relational.world Runs.catalogue id)) 0 (-1) DemoService.boot).2 = []
  ∧ DemoService.statements
      (DemoService.DisplaySampleData
         (Runs.env (Samples.flaky Runs.catalogue 0)) 5 5 DemoService.boot).2
    = [SelectOrdersJoinDetails 30]
  ∧ (DemoService.DisplaySampleData (Runs.env Runs.half_null_join) 5 5
       DemoService.boot).1 = None
  ∧ DemoService.statements
      (DemoService.DisplaySampleData
         (Runs.env (Samples.flaky Runs.catalogue 0)) 0 5 DemoService.boot).2
    = [SelectEmployeesJoinDepartments].
Proof.
  destruct (sample_display_skips_and_stops
              (Runs.env (Relational.world Runs.catalogue id)) 0 (-1) DemoService.boot)
    as (Hskip & _).
  destruct (sample_display_skips_and_stops
              (Runs.env (Samples.flaky Runs.catalogue 0)) 5 5 DemoService.boot)
    as (_ & Horders & _).
  destruct (sample_display_skips_and_stops
              (Runs.env Runs.half_null_join) 5 5 DemoService.boot)
    as (_ & _ & Hpanic & _).
  destruct (sample_display_skips_and_stops
              (Runs.env (Samples.flaky Runs.catalogue 0)) 0 5 DemoService.boot)
    as (_ & _ & _ & Hemployees).
  split; [|split; [|split]].
  - rewrite Hskip by lia. reflexivity.
  - erewrite Horders; [reflexivity|lia|]. vm_compute. reflexivity.
  - eapply Hpanic; [lia|]. vm_compute. reflexivity.
  - erewrite Hemployees; [reflexivity|lia|lia|]. vm_compute. reflexivity.
Defined.

(** ** The cache package *)

Lemma SFcompare_Eq_left a b c :
  SFcompare a b = Some Eq → SFcompare b c = SFcompare a c.
Proof.
  destruct a as [sa|sa| |sa ma ea], b as [sb|sb| |sb mb eb]; cbn [SFcompare]; try done;
    try (destruct sa; try done); try (destruct sb; try done).
  all: change (PosDef.Pos.compare_cont Eq ?x ?y) with (Pos.compare x y).
  all: destruct (Z.compare_spec ea eb); try done.
  all: destruct (Pos.compare_spec ma mb); cbn [CompOpp]; try done.
  all: by subst.
Qed.

(** [a <= b] and [b < c] give [a < c] on binary64 values. *)
Lemma leb_ltb_trans (a b c : float64) :
  PrimFloat.leb a b = true → PrimFloat.ltb b c = true → PrimFloat.ltb a c = true.
Proof.
  rewrite FloatAxioms.leb_spec, !FloatAxioms.ltb_spec. unfold SFleb, SFltb.
  destruct (SFcompare (Prim2SF a) (Prim2SF b)) as [[| |]|] eqn:Hab; try done.
  - by rewrite (SFcompare_Eq_left _ _ _ Hab).
  - destruct (SFcompare (Prim2SF b) (Prim2SF c)) as [[| |]|] eqn:Hbc; try done.
    by rewrite (SFcompare_Lt_trans _ _ _ Hab Hbc).
Qed.

Lemma not_low_and_excellent (h low high : float64) :
  PrimFloat.ltb high low = false →
  PrimFloat.ltb h low = true → PrimFloat.leb high h = true → False.
Proof.
  intros Hbounds Hlow Hhigh. by rewrite (leb_ltb_trans _ _ _ Hhigh Hlow) in Hbounds.
Qed.

(** The recommendations of either cache are its fixed lines followed by at
    most three remarks on the metrics, and the remark on a low hit ratio and
    the one on an excellent hit ratio never come together.  Without metrics
    only the fixed lines are returned. *)
Theorem recommendations_are_fixed_lines_and_remarks :
  (∀ metrics,
     ∃ remarks,
       OracleResultCache.GetOptimizationRecommendations metrics
       = OracleResultCache.recommendations ++ remarks
       ∧ (List.length remarks ≤ 3)%nat
       ∧ (metrics = None → remarks = [])
       ∧ ¬ (OracleResultCache.low_hit_ratio ∈ remarks
            ∧ OracleResultCache.excellent_hit_ratio ∈ remarks))
  ∧ (∀ metrics,
       ∃ remarks,
         OracleBufferCache.GetOptimizationRecommendations metrics
         = OracleBufferCache.recommendations ++ remarks
         ∧ (List.length remarks ≤ 3)%nat
         ∧ (metrics = None → remarks = [])
         ∧ ¬ (OracleBufferCache.low_hit_ratio ∈ remarks
              ∧ OracleBufferCache.excellent_hit_ratio ∈ remarks)).
Proof.
  split; intros [m|].
  - unfold OracleResultCache.GetOptimizationRecommendations, append_if.
    destruct (PrimFloat.ltb _ 50) eqn:Hlow, (PrimFloat.leb 80 _) eqn:Hhigh;
      [destruct (not_low_and_excellent _ 50%float 80%float eq_refl Hlow Hhigh)|..];
      destruct (bool_decide (_ ÷ 2 < _)), (bool_decide (_ < _));
      rewrite <-?app_assoc; eexists; (split; [reflexivity|]);
      (split; [cbn; lia|]); (split; [done|]);
      intros [H1 H2]; apply (bool_decide_pack _) in H1, H2;
      vm_compute in H1, H2; tauto.
  - exists []. rewrite app_nil_r. repeat split; [cbn; lia|]. by intros [?%elem_of_nil _].
  - unfold OracleBufferCache.GetOptimizationRecommendations, append_if.
    destruct (PrimFloat.ltb _ 90) eqn:Hlow, (PrimFloat.leb 95 _) eqn:Hhigh;
      [destruct (not_low_and_excellent _ 90%float 95%float eq_refl Hlow Hhigh)|..];
      destruct (bool_decide (100 < BufferCacheMetrics.BufferBusyWaits m)),
        (bool_decide (100 < BufferCacheMetrics.FreeBufferWaits m));
      rewrite <-?app_assoc; eexists; (split; [reflexivity|]);
      (split; [cbn; lia|]); (split; [done|]);
      intros [H1 H2]; apply (bool_decide_pack _) in H1, H2;
      vm_compute in H1, H2; tauto.
  - exists []. rewrite app_nil_r. repeat split; [cbn; lia|]. by intros [?%elem_of_nil _].
Qed.

(** Unfolds the monadic steps of the cache test. *)
Ltac step_cache :=
  unfold mbind, mret, OracleResultCache.IO_bind, OracleResultCache.IO_ret,
    OracleResultCache.db_Query, OracleResultCache.time_Since,
    OracleResultCache.time_Now, OracleResultCache.set_metrics;
  cbn beta iota zeta;
  cbn [OracleResultCache.metrics OracleResultCache.statements
         OracleResultCache.readings].

Lemma foldl_pointwise {A B} (f g : A → B → A) (l : list B) : ∀ a,
  (∀ a b, f a b = g a b) → foldl f a l = foldl g a l.
Proof.
  induction l as [|b l IH]; intros a Hfg; [done|]. cbn. rewrite Hfg. by apply IH.
Qed.

Section CacheTest.
Import OracleResultCache.
Variable s : Env.

(** The queries of one run leave [rc.metrics] and the clock alone; they stop
    at the first statement that fails and wrap its error. *)
Lemma run_queries_outcome queries : ∀ p,
  metrics (run_queries s queries p).2 = metrics p
  ∧ readings (run_queries s queries p).2 = readings p
  ∧ ∃ issued,
      statements (run_queries s queries p).2 = statements p ++ issued
      ∧ issued `prefix_of` queries
      ∧ match (run_queries s queries p).1 with
        | None => issued = queries
        | Some err =>
            ∃ before i cause,
              issued = before ++ [i]
              ∧ respond s (List.length (statements p ++ before)) i = Some cause
              ∧ err = Errorf ("result cacheクエリ" +:+ fmt_d (Z.of_nat i + 1)
                              +:+ "実行エラー: ") cause
        end.
Proof.
  induction queries as [|i queries IH]; intros p.
  { cbn. repeat split. exists []. by rewrite app_nil_r. }
  cbn [run_queries]. step_cache.
  destruct (respond s (List.length (statements p)) i) as [cause|] eqn:Hrespond.
  - cbn. repeat split. exists [i]. split; [done|]. split.
    { by apply prefix_cons, prefix_nil. }
    exists [], i, cause. by rewrite app_nil_r.
  - destruct (IH {| metrics := metrics p; statements := statements p ++ [i];
                    readings := readings p |})
      as (Hmetrics & Hreadings & issued & Hissued & Hprefix & Hresult).
    cbn [metrics statements readings] in *.
    split; [done|]. split; [done|].
    exists (i :: issued). split; [by rewrite Hissued, <-app_assoc|].
    split; [by apply prefix_cons|].
    destruct (run_queries s queries _).1 as [err|].
    + destruct Hresult as (before & k & cause & -> & Hk & ->).
      exists (i :: before), k, cause. split; [done|]. split; [|done].
      by rewrite <-app_assoc in Hk.
    + by rewrite Hresult.
Qed.

(** The runs of a test leave [rc.metrics] alone, and an error that ends them
    is the error of one statement under two prefixes. *)
Lemma test_runs_outcome n : ∀ i totalDuration p,
  metrics (test_runs s n i totalDuration p).2 = metrics p
  ∧ ∀ err,
      (test_runs s n i totalDuration p).1 = inl err →
      ∃ k cause,
        (k < 4)%nat
        ∧ last (statements (test_runs s n i totalDuration p).2) = Some k
        ∧ err = Errorf "result cacheテスト実行エラー: "
                  (Errorf ("result cacheクエリ" +:+ fmt_d (Z.of_nat k + 1)
                           +:+ "実行エラー: ") cause).
Proof.
  induction n as [|n IH]; intros i totalDuration p.
  { cbn. split; [done|]. by intros err. }
  cbn [test_runs]. step_cache. unfold executeResultCacheTest.
  set (p1 := {| metrics := metrics p; statements := statements p;
                readings := S (readings p) |}).
  destruct (run_queries_outcome [0; 1; 2; 3]%nat p1)
    as (Hmetrics & _ & issued & Hissued & Hprefix & Hresult).
  destruct (run_queries s [0; 1; 2; 3]%nat p1) as [[err|] p2] eqn:Hrun;
    cbn [fst snd] in *.
  - split; [done|]. intros err' [= <-].
    destruct Hresult as (before & k & cause & -> & _ & ->).
    exists k, cause. split; [|split; [|done]].
    + assert (k ∈ [0; 1; 2; 3]%nat) as Hk.
      { destruct Hprefix as [rest ->]. rewrite <-app_assoc.
        apply elem_of_app. right. by left. }
      apply (bool_decide_unpack _). revert Hk.
      rewrite !elem_of_cons, elem_of_nil. intros [->|[->|[->|[->|[]]]]]; done.
    + by rewrite Hissued, app_assoc, last_snoc.
  - step_cache.
    match goal with
    | |- context [test_runs s n ?i' ?t' ?q] => destruct (IH i' t' q) as [IHm IHe]
    end.
    cbn [metrics] in IHm. split; [by rewrite IHm|]. exact IHe.
Qed.

(** When no statement fails, [n] runs issue the four statements [n] times
    and read the clock twice per run. *)
Lemma test_runs_healthy n : ∀ i totalDuration p,
  (∀ k j, respond s k j = None) →
  test_runs s n i totalDuration p
  = (inr (foldl (λ total k,
                   int64 (total + time.Sub (clock s (readings p + 2 * k + 1)%nat)
                                    (clock s (readings p + 2 * k)%nat)))
            totalDuration (seq 0 n)),
     {| metrics := metrics p;
        statements := statements p ++ mjoin (replicate n [0; 1; 2; 3]%nat);
        readings := readings p + 2 * n |}).
Proof.
  intros i totalDuration p Hhealthy. revert i totalDuration p.
  induction n as [|n IH]; intros i totalDuration p.
  { cbn. rewrite app_nil_r, Nat.add_0_r. by destruct p. }
  cbn [test_runs]. step_cache. unfold executeResultCacheTest.
  cbn [run_queries]. step_cache. rewrite !Hhealthy. step_cache.
  rewrite IH. cbn [metrics statements readings]. f_equal.
  - f_equal. cbn [seq foldl]. rewrite <-seq_shift, foldl_fmap.
    replace (readings p + 2 * 0 + 1)%nat with (S (readings p)) by lia.
    replace (readings p + 2 * 0)%nat with (readings p) by lia.
    apply foldl_pointwise. intros total k. cbn beta.
    replace (S (S (readings p)) + 2 * k + 1)%nat
      with (readings p + 2 * S k + 1)%nat by lia.
    by replace (S (S (readings p)) + 2 * k)%nat with (readings p + 2 * S k)%nat by lia.
  - f_equal; [|lia]. cbn [replicate mjoin list_join]. by rewrite <-!app_assoc.
Qed.

End CacheTest.

Lemma calculateDifferential_collected :
  OracleResultCache.calculateDifferential OracleResultCache.collectMetrics.1
    OracleResultCache.collectMetrics.1
  = ResultCacheMetrics.zero.
Proof. reflexivity. Qed.

Lemma TestResultCachePerformance_unfold s runs p :
  OracleResultCache.TestResultCachePerformance s runs p
  = let '(total, p') := OracleResultCache.test_runs s (Z.to_nat runs) 0 0 p in
    match total with
    | inl err => (Some (None, Some err), p')
    | inr totalDuration =>
        if bool_decide (runs = 0)
        then (None,
              {| OracleResultCache.metrics := Some ResultCacheMetrics.zero;
                 OracleResultCache.statements := OracleResultCache.statements p';
                 OracleResultCache.readings := OracleResultCache.readings p' |})
        else
          let measured :=
            OracleResultCache.with_TestExecutionTime ResultCacheMetrics.zero
              (int64 (totalDuration ÷ runs)) in
          (Some (Some measured, None),
           {| OracleResultCache.metrics := Some measured;
              OracleResultCache.statements := OracleResultCache.statements p';
              OracleResultCache.readings := OracleResultCache.readings p' |})
    end.
Proof.
  unfold OracleResultCache.TestResultCachePerformance.
  cbn [OracleResultCache.checkResultCacheStatus OracleResultCache.collectMetrics].
  step_cache.
  destruct (OracleResultCache.test_runs s (Z.to_nat runs) 0 0 p) as [[err|total] p'];
    [done|].
  step_cache. by case_bool_decide.
Qed.

(** The result cache test panics exactly when it is asked for zero runs: it
    then divides the total duration by zero, after it has issued no
    statement and has replaced [rc.metrics] by the zero metrics. *)
Theorem result_cache_test_panics_exactly_without_runs
    (s : OracleResultCache.Env) (runs : Z) (p : OracleResultCache.Process) :
  ((OracleResultCache.TestResultCachePerformance s runs p).1 = None ↔ runs = 0)
  ∧ (runs = 0 →
     (OracleResultCache.TestResultCachePerformance s runs p).2
     = {| OracleResultCache.metrics := Some ResultCacheMetrics.zero;
          OracleResultCache.statements := OracleResultCache.statements p;
          OracleResultCache.readings := OracleResultCache.readings p |}).
Proof.
  rewrite TestResultCachePerformance_unfold. split.
  - destruct (OracleResultCache.test_runs s (Z.to_nat runs) 0 0 p)
      as [[err|total] p'] eqn:Hruns.
    + split; [done|]. intros ->. cbn in Hruns. by injection Hruns.
    + case_bool_decide; by split.
  - intros ->. reflexivity.
Qed.

Lemma result_cache_test_panics_exactly_without_runs_witness :
  (OracleResultCache.TestResultCachePerformance CacheRuns.healthy 0
     OracleResultCache.NewOracleResultCache).1 = None
  ∧ (OracleResultCache.TestResultCachePerformance CacheRuns.healthy 0
       OracleResultCache.NewOracleResultCache).2
    = OracleResultCache.NewOracleResultCache.
Proof.
  destruct (result_cache_test_panics_exactly_without_runs CacheRuns.healthy 0
              OracleResultCache.NewOracleResultCache) as [Hpanic Hstate].
  split.
  - by apply Hpanic.
  - by rewrite Hstate.
Defined.

(** Whatever the database does, a result cache test that returns metrics
    returns the zero metrics apart from the average time, keeps them in
    [rc.metrics], and the recommendations after it are the fixed lines and
    the remark on a low hit ratio.  A test that returns an error returns no
    metrics and leaves [rc.metrics] as it was; its error is the error of the
    last statement issued, under the prefix of that query and the prefix of
    the test. *)
Theorem result_cache_test_outcomes
    (s : OracleResultCache.Env) (runs : Z) (p : OracleResultCache.Process) :
  (∀ m err,
     (OracleResultCache.TestResultCachePerformance s runs p).1 = Some (Some m, err) →
     err = None
     ∧ m = OracleResultCache.with_TestExecutionTime ResultCacheMetrics.zero
             (ResultCacheMetrics.TestExecutionTime m)
     ∧ OracleResultCache.metrics
         (OracleResultCache.TestResultCachePerformance s runs p).2 = Some m
     ∧ OracleResultCache.GetOptimizationRecommendations (Some m)
       = OracleResultCache.recommendations ++ [OracleResultCache.low_hit_ratio])
  ∧ (∀ res err,
       (OracleResultCache.TestResultCachePerformance s runs p).1
       = Some (res, Some err) →
       res = None
       ∧ OracleResultCache.metrics
           (OracleResultCache.TestResultCachePerformance s runs p).2
         = OracleResultCache.metrics p
       ∧ ∃ k cause,
           (k < 4)%nat
           ∧ last (OracleResultCache.statements
                     (OracleResultCache.TestResultCachePerformance s runs p).2)
             = Some k
           ∧ err = Errorf "result cacheテスト実行エラー: "
                     (Errorf ("result cacheクエリ" +:+ fmt_d (Z.of_nat k + 1)
                              +:+ "実行エラー: ") cause)).
Proof.
  rewrite TestResultCachePerformance_unfold.
  destruct (test_runs_outcome s (Z.to_nat runs) 0 0 p) as [Hmetrics Herror].
  destruct (OracleResultCache.test_runs s (Z.to_nat runs) 0 0 p)
    as [[e|total] p'] eqn:Hruns; cbn [fst snd] in *.
  - split; [done|]. intros res err [= <- <-]. split; [done|]. split; [done|].
    by apply Herror.
  - case_bool_decide; [done|]. cbn zeta. split; [|done].
    intros m err [= <- <-]. by repeat split.
Qed.

Lemma result_cache_test_outcomes_witness :
  (∃ m, (OracleResultCache.TestResultCachePerformance CacheRuns.healthy 10
           OracleResultCache.NewOracleResultCache).1 = Some (Some m, None)
        ∧ OracleResultCache.GetOptimizationRecommendations (Some m)
          = OracleResultCache.recommendations ++ [OracleResultCache.low_hit_ratio])
  ∧ OracleResultCache.metrics
      (OracleResultCache.TestResultCachePerformance (CacheRuns.flaky 6) 10
         OracleResultCache.NewOracleResultCache).2
    = Some ResultCacheMetrics.zero.
Proof.
  destruct (result_cache_test_outcomes CacheRuns.healthy 10
              OracleResultCache.NewOracleResultCache) as [Hsuccess _].
  destruct (result_cache_test_outcomes (CacheRuns.flaky 6) 10
              OracleResultCache.NewOracleResultCache) as [_ Hfailure].
  split.
  - eexists. split; [vm_compute; reflexivity|].
    eapply Hsuccess. vm_compute. reflexivity.
  - edestruct Hfailure as (_ & Hmetrics & _).
    { vm_compute. reflexivity. }
    exact Hmetrics.
Defined.

(** When no statement fails, a test of [runs] runs, [runs] positive, issues
    the four statements [runs] times in their order, reads the clock twice
    per run, and reports as its time the sum of the durations of the runs
    divided by [runs], truncated. *)
Theorem result_cache_test_averages_the_runs
    (s : OracleResultCache.Env) (runs : Z) (p : OracleResultCache.Process) :
  (∀ k j, OracleResultCache.respond s k j = None) →
  0 < runs →
  let measured :=
    OracleResultCache.with_TestExecutionTime ResultCacheMetrics.zero
      (int64 (total_duration (OracleResultCache.clock s) (OracleResultCache.readings p)
                (Z.to_nat runs) ÷ runs)) in
  OracleResultCache.TestResultCachePerformance s runs p
  = (Some (Some measured, None),
     {| OracleResultCache.metrics := Some measured;
        OracleResultCache.statements :=
          OracleResultCache.statements p
          ++ mjoin (replicate (Z.to_nat runs) [0; 1; 2; 3]%nat);
        OracleResultCache.readings :=
          OracleResultCache.readings p + 2 * Z.to_nat runs |}).
Proof.
  intros Hhealthy Hruns measured. rewrite TestResultCachePerformance_unfold.
  rewrite (test_runs_healthy s (Z.to_nat runs) 0 0 p Hhealthy).
  rewrite bool_decide_false by lia. reflexivity.
Qed.

Lemma result_cache_test_averages_the_runs_witness :
  ResultCacheMetrics.TestExecutionTime
    <$> (OracleResultCache.TestResultCachePerformance CacheRuns.healthy 2
           OracleResultCache.NewOracleResultCache).1 ≫= fst
  = Some (Timings.ms 3)
  ∧ OracleResultCache.statements
      (OracleResultCache.TestResultCachePerformance CacheRuns.healthy 2
         OracleResultCache.NewOracleResultCache).2
    = [0; 1; 2; 3; 0; 1; 2; 3]%nat.
Proof.
  rewrite (result_cache_test_averages_the_runs CacheRuns.healthy 2
             OracleResultCache.NewOracleResultCache).
  - split; vm_compute; reflexivity.
  - reflexivity.
  - lia.
Defined.

(** *** The buffer cache test *)

(** Unfolds the monadic steps of the buffer cache test. *)
Ltac step_buffer :=
  unfold mbind, mret, OracleBufferCache.IO_bind, OracleBufferCache.IO_ret,
    OracleBufferCache.db_Query, OracleBufferCache.time_Since,
    OracleBufferCache.time_Now, OracleBufferCache.set_metrics;
  cbn beta iota zeta;
  cbn [OracleBufferCache.metrics OracleBufferCache.statements
         OracleBufferCache.readings].

Section BufferTest.
Import OracleBufferCache.
Variable s : Env.

Lemma buffer_run_queries_outcome queries : ∀ p,
  metrics (run_queries s queries p).2 = metrics p
  ∧ match (run_queries s queries p).1 with
    | None => True
    | Some err =>
        ∃ i cause,
          i ∈ queries
          ∧ last (statements (run_queries s queries p).2) = Some (TestQuery i)
          ∧ err = Errorf ("クエリ" +:+ fmt_d (Z.of_nat i + 1) +:+ "実行エラー: ") cause
    end.
Proof.
  induction queries as [|i queries IH]; intros p.
  { by cbn. }
  cbn [run_queries]. step_buffer.
  destruct (respond s (List.length (statements p)) (TestQuery i)) as [cause|].
  - cbn. split; [done|]. exists i, cause. split; [by left|]. by rewrite last_snoc.
  - destruct (IH {| metrics := metrics p; statements := statements p ++ [TestQuery i];
                    readings := readings p |}) as (Hmetrics & Hresult).
    split; [done|].
    destruct (run_queries s queries _).1 as [err|]; [|done].
    destruct Hresult as (k & cause & Hk & Hlast & ->).
    exists k, cause. split; [by right|]. by split.
Qed.

Lemma buffer_test_runs_outcome n : ∀ i totalDuration p,
  metrics (test_runs s n i totalDuration p).2 = metrics p
  ∧ ∀ err,
      (test_runs s n i totalDuration p).1 = inl err →
      ∃ k cause,
        (k < 4)%nat
        ∧ last (statements (test_runs s n i totalDuration p).2) = Some (TestQuery k)
        ∧ err = Errorf "buffer Cacheテスト実行エラー: "
                  (Errorf ("クエリ" +:+ fmt_d (Z.of_nat k + 1) +:+ "実行エラー: ") cause).
Proof.
  induction n as [|n IH]; intros i totalDuration p.
  { cbn. split; [done|]. by intros err. }
  cbn [test_runs]. step_buffer. unfold executeBufferCacheTest.
  set (p1 := {| metrics := metrics p; statements := statements p;
                readings := S (readings p) |}).
  destruct (buffer_run_queries_outcome [0; 1; 2; 3]%nat p1) as (Hmetrics & Hresult).
  destruct (run_queries s [0; 1; 2; 3]%nat p1) as [[err|] p2] eqn:Hrun;
    cbn [fst snd] in *.
  - split; [done|]. intros err' [= <-].
    destruct Hresult as (k & cause & Hk & Hlast & ->).
    exists k, cause. split; [|by split].
    apply (bool_decide_unpack _). revert Hk.
    rewrite !elem_of_cons, elem_of_nil. intros [->|[->|[->|[->|[]]]]]; done.
  - step_buffer.
    match goal with
    | |- context [test_runs s n ?i' ?t' ?q] => destruct (IH i' t' q) as [IHm IHe]
    end.
    cbn [metrics] in IHm. split; [by rewrite IHm|]. exact IHe.
Qed.

Lemma buffer_test_runs_healthy n : ∀ i totalDuration p,
  (∀ k j, respond s k (TestQuery j) = None) →
  test_runs s n i totalDuration p
  = (inr (foldl (λ total k,
                   int64 (total + time.Sub (clock s (readings p + 2 * k + 1)%nat)
                                    (clock s (readings p + 2 * k)%nat)))
            totalDuration (seq 0 n)),
     {| metrics := metrics p;
        statements := statements p
                      ++ (TestQuery <$> mjoin (replicate n [0; 1; 2; 3]%nat));
        readings := readings p + 2 * n |}).
Proof.
  intros i totalDuration p Hhealthy. revert i totalDuration p.
  induction n as [|n IH]; intros i totalDuration p.
  { cbn. rewrite app_nil_r, Nat.add_0_r. by destruct p. }
  cbn [test_runs]. step_buffer. unfold executeBufferCacheTest.
  cbn [run_queries]. step_buffer. rewrite !Hhealthy. step_buffer.
  rewrite IH. cbn [metrics statements readings]. f_equal.
  - f_equal. cbn [seq foldl]. rewrite <-seq_shift, foldl_fmap.
    replace (readings p + 2 * 0 + 1)%nat with (S (readings p)) by lia.
    replace (readings p + 2 * 0)%nat with (readings p) by lia.
    apply foldl_pointwise. intros total k. cbn beta.
    replace (S (S (readings p)) + 2 * k + 1)%nat
      with (readings p + 2 * S k + 1)%nat by lia.
    by replace (S (S (readings p)) + 2 * k)%nat with (readings p + 2 * S k)%nat by lia.
  - f_equal; [|lia]. cbn [replicate mjoin list_join]. rewrite fmap_app.
    cbn [fmap list_fmap app]. by rewrite <-!app_assoc.
Qed.

(** The analysis returns after its first statement when that one fails, and
    issues all three otherwise; it leaves [bc.metrics] and the clock alone. *)
Lemma analyzeBufferCacheEfficiency_run p :
  (analyzeBufferCacheEfficiency s p).2
  = {| metrics := metrics p;
       statements :=
         statements p
         ++ match respond s (List.length (statements p)) PoolQuery with
            | Some _ => [PoolQuery]
            | None => [PoolQuery; WaitEventQuery; AdvisoryQuery]
            end;
       readings := readings p |}.
Proof.
  unfold analyzeBufferCacheEfficiency, analyzeTopWaitEvents, analyzeBufferCacheAdvisory.
  step_buffer.
  destruct (respond s (List.length (statements p)) PoolQuery); [done|].
  step_buffer. by rewrite <-!app_assoc.
Qed.

Lemma buffer_calculateDifferential_collected :
  calculateDifferential collectMetrics.1 collectMetrics.1 = BufferCacheMetrics.zero.
Proof. reflexivity. Qed.

Lemma TestBufferCachePerformance_unfold runs p :
  TestBufferCachePerformance s runs p
  = let '(total, p') := test_runs s (Z.to_nat runs) 0 0 p in
    match total with
    | inl err => (Some (None, Some err), p')
    | inr totalDuration =>
        if bool_decide (runs = 0)
        then (None,
              {| metrics := Some BufferCacheMetrics.zero;
                 statements := statements p'; readings := readings p' |})
        else
          let measured :=
            with_TestExecutionTime BufferCacheMetrics.zero
              (int64 (totalDuration ÷ runs)) in
          (Some (Some measured, None),
           {| metrics := Some measured;
              statements :=
                statements p'
                ++ match respond s (List.length (statements p')) PoolQuery with
                   | Some _ => [PoolQuery]
                   | None => [PoolQuery; WaitEventQuery; AdvisoryQuery]
                   end;
              readings := readings p' |})
    end.
Proof.
  unfold TestBufferCachePerformance. cbn [collectMetrics]. step_buffer.
  destruct (test_runs s (Z.to_nat runs) 0 0 p) as [[err|total] p']; [done|].
  step_buffer. case_bool_decide; [done|]. step_buffer.
  match goal with
  | |- context [analyzeBufferCacheEfficiency s ?q] =>
      pose proof (analyzeBufferCacheEfficiency_run q) as Hrun;
      destruct (analyzeBufferCacheEfficiency s q) as [err p'']
  end.
  cbn [snd metrics statements readings] in Hrun. by rewrite Hrun.
Qed.

End BufferTest.

(** The buffer cache test panics exactly when it is asked for zero runs.
    Whatever the database does, a test that returns metrics returns the zero
    metrics apart from the average time, keeps them in [bc.metrics], and the
    recommendations after it are the fixed lines and the remark on a low hit
    ratio; a test that returns an error returns no metrics, leaves
    [bc.metrics] as it was, and its error is the error of the last statement
    issued, a test query, under two prefixes. *)
Theorem buffer_cache_test_outcomes
    (s : OracleBufferCache.Env) (runs : Z) (p : OracleBufferCache.Process) :
  ((OracleBufferCache.TestBufferCachePerformance s runs p).1 = None ↔ runs = 0)
  ∧ (∀ m err,
       (OracleBufferCache.TestBufferCachePerformance s runs p).1 = Some (Some m, err) →
       err = None
       ∧ m = OracleBufferCache.with_TestExecutionTime BufferCacheMetrics.zero
               (BufferCacheMetrics.TestExecutionTime m)
       ∧ OracleBufferCache.metrics
           (OracleBufferCache.TestBufferCachePerformance s runs p).2 = Some m
       ∧ OracleBufferCache.GetOptimizationRecommendations (Some m)
         = OracleBufferCache.recommendations ++ [OracleBufferCache.low_hit_ratio])
  ∧ (∀ res err,
       (OracleBufferCache.TestBufferCachePerformance s runs p).1
       = Some (res, Some err) →
       res = None
       ∧ OracleBufferCache.metrics
           (OracleBufferCache.TestBufferCachePerformance s runs p).2
         = OracleBufferCache.metrics p
       ∧ ∃ k cause,
           (k < 4)%nat
           ∧ last (OracleBufferCache.statements
                     (OracleBufferCache.TestBufferCachePerformance s runs p).2)
             = Some (OracleBufferCache.TestQuery k)
           ∧ err = Errorf "buffer Cacheテスト実行エラー: "
                     (Errorf ("クエリ" +:+ fmt_d (Z.of_nat k + 1) +:+ "実行エラー: ")
                        cause)).
Proof.
  rewrite TestBufferCachePerformance_unfold.
  destruct (buffer_test_runs_outcome s (Z.to_nat runs) 0 0 p) as [Hmetrics Herror].
  destruct (OracleBufferCache.test_runs s (Z.to_nat runs) 0 0 p)
    as [[e|total] p'] eqn:Hruns; cbn [fst snd] in *.
  - split; [|split; [done|]].
    + split; [done|]. intros ->. cbn in Hruns. by injection Hruns.
    + intros res err [= <- <-]. split; [done|]. split; [done|]. by apply Herror.
  - case_bool_decide as Hzero; cbn zeta; cbn [fst snd].
    + by repeat split.
    + split; [by split|]. split; [|done].
      intros m err [= <- <-]. by repeat split.
Qed.

Lemma buffer_cache_test_outcomes_witness :
  (OracleBufferCache.TestBufferCachePerformance CacheRuns.analysis_fails 0
     OracleBufferCache.NewOracleBufferCache).1 = None
  ∧ ∃ m, (OracleBufferCache.TestBufferCachePerformance CacheRuns.analysis_fails 10
            OracleBufferCache.NewOracleBufferCache).1 = Some (Some m, None)
         ∧ OracleBufferCache.GetOptimizationRecommendations (Some m)
           = OracleBufferCache.recommendations ++ [OracleBufferCache.low_hit_ratio].
Proof.
  destruct (buffer_cache_test_outcomes CacheRuns.analysis_fails 0
              OracleBufferCache.NewOracleBufferCache) as [Hpanic _].
  destruct (buffer_cache_test_outcomes CacheRuns.analysis_fails 10
              OracleBufferCache.NewOracleBufferCache) as (_ & Hsuccess & _).
  split.
  - by apply Hpanic.
  - eexists. split; [vm_compute; reflexivity|].
    eapply Hsuccess. vm_compute. reflexivity.
Defined.

(** When no test query fails, the buffer cache test returns its metrics
    whatever becomes of the analysis: after the four test queries of each
    run it issues the statement on the buffer pools and, only if that one
    succeeds, the statements on the wait events and on the advisory, whose
    failures change nothing. *)
Theorem buffer_cache_analysis_never_fails_the_test
    (s : OracleBufferCache.Env) (runs : Z) (p : OracleBufferCache.Process) :
  (∀ k j, OracleBufferCache.respond s k (OracleBufferCache.TestQuery j) = None) →
  0 < runs →
  let measured :=
    OracleBufferCache.with_TestExecutionTime BufferCacheMetrics.zero
      (int64 (total_duration (OracleBufferCache.clock s) (OracleBufferCache.readings p)
                (Z.to_nat runs) ÷ runs)) in
  let tested :=
    OracleBufferCache.statements p
    ++ (OracleBufferCache.TestQuery
          <$> mjoin (replicate (Z.to_nat runs) [0; 1; 2; 3]%nat)) in
  OracleBufferCache.TestBufferCachePerformance s runs p
  = (Some (Some measured, None),
     {| OracleBufferCache.metrics := Some measured;
        OracleBufferCache.statements :=
          tested
          ++ match OracleBufferCache.respond s (List.length tested)
                     OracleBufferCache.PoolQuery with
             | Some _ => [OracleBufferCache.PoolQuery]
             | None => [OracleBufferCache.PoolQuery; OracleBufferCache.WaitEventQuery;
                        OracleBufferCache.AdvisoryQuery]
             end;
        OracleBufferCache.readings :=
          OracleBufferCache.readings p + 2 * Z.to_nat runs |}).
Proof.
  intros Hhealthy Hruns measured tested. rewrite TestBufferCachePerformance_unfold.
  rewrite (buffer_test_runs_healthy s (Z.to_nat runs) 0 0 p Hhealthy).
  rewrite bool_decide_false by lia. reflexivity.
Qed.

Lemma buffer_cache_analysis_never_fails_the_test_witness :
  OracleBufferCache.statements
    (OracleBufferCache.TestBufferCachePerformance CacheRuns.analysis_fails 1
       OracleBufferCache.NewOracleBufferCache).2
  = (OracleBufferCache.TestQuery <$> [0; 1; 2; 3]%nat) ++ [OracleBufferCache.PoolQuery]
  ∧ OracleBufferCache.statements
      (OracleBufferCache.TestBufferCachePerformance CacheRuns.wait_events_fail 1
         OracleBufferCache.NewOracleBufferCache).2
    = (OracleBufferCache.TestQuery <$> [0; 1; 2; 3]%nat)
      ++ [OracleBufferCache.PoolQuery; OracleBufferCache.WaitEventQuery;
          OracleBufferCache.AdvisoryQuery].
Proof.
  split.
  - rewrite (buffer_cache_analysis_never_fails_the_test CacheRuns.analysis_fails 1
               OracleBufferCache.NewOracleBufferCache); [reflexivity|done|lia].
  - rewrite (buffer_cache_analysis_never_fails_the_test CacheRuns.wait_events_fail 1
               OracleBufferCache.NewOracleBufferCache); [reflexivity|done|lia].
Defined.

(** ** The mode flags *)

(** Which tests a run makes: the cache tests exactly with [-cache-only] or
    [-cache-test], and then last; the order tests unless [-cache-only] is
    given or [-employee-only] is given without [-order-only]; the employee
    tests unless [-cache-only] or [-order-only] is given, so that with both
    [-order-only] and [-employee-only] only the orders are tested.  No test
    is made twice. *)
Theorem mode_flags_select_the_tests (f : main.Flags) :
  (main.runCacheTests (main.benchmarkRuns f) ∈ main.mode f
   ↔ main.cacheOnly f ∨ main.cacheTest f)
  ∧ (main.runCacheTests (main.benchmarkRuns f) ∈ main.mode f →
     last (main.mode f) = Some (main.runCacheTests (main.benchmarkRuns f)))
  ∧ (main.runOrderTests (main.days f) ∈ main.mode f
     ↔ ¬ main.cacheOnly f ∧ (main.orderOnly f ∨ ¬ main.employeeOnly f))
  ∧ (main.runEmployeeTests ∈ main.mode f
     ↔ ¬ main.cacheOnly f ∧ ¬ main.orderOnly f)
  ∧ NoDup (main.mode f).
Proof.
  unfold main.mode, main.runAllTests.
  destruct (main.cacheOnly f), (main.cacheTest f), (main.orderOnly f),
    (main.employeeOnly f); cbn [andb negb app Is_true last];
    rewrite ?NoDup_cons, ?elem_of_cons, ?elem_of_nil;
    split_and!; try apply NoDup_nil_2; intuition congruence.
Qed.

(** ** The cache service *)

(** Unfolds the monadic steps of the cache service. *)
Ltac step_service :=
  unfold mbind, mret, CacheService.IO_bind, CacheService.IO_ret,
    CacheService.db_Query, CacheService.db_QueryRow, CacheService.time_Since,
    CacheService.time_Now, CacheService.append_result,
    CacheService.getBufferCacheStats;
  cbn beta iota zeta;
  cbn [CacheService.results CacheService.statements CacheService.readings].

Lemma int64_small (z : Z) : - 2 ^ 63 ≤ z < 2 ^ 63 → int64 z = z.
Proof. intros Hz. unfold int64. rewrite Z.mod_small by lia. lia. Qed.

Lemma scan_rows_ok (rows : list unit) : ∀ count,
  ∃ count', CacheService.scan_rows (ScanOk <$> rows) count = inr count'.
Proof.
  induction rows as [|row rows IH]; intros count; [by exists count|]. apply IH.
Qed.

(** Counting with a wrapping counter agrees with counting, below [2 ^ 63]. *)
Lemma count_by_increment {A} (P : A → Prop) `{∀ x, Decision (P x)} (l : list A) : ∀ h,
  0 ≤ h → h + Z.of_nat (List.length l) < 2 ^ 63 →
  foldl (λ h x, if bool_decide (P x) then int64 (h + 1) else h) h l
  = h + Z.of_nat (List.length (filter P l)).
Proof.
  induction l as [|x l IH]; intros h Hh Hlen; [cbn; lia|].
  cbn [foldl List.length] in *. rewrite filter_cons. case_bool_decide.
  - rewrite decide_True by done. rewrite int64_small by lia.
    rewrite IH by lia. cbn [List.length]. lia.
  - rewrite decide_False by done. apply IH; lia.
Qed.

Section FallbackTest.
Import CacheService.
Variable s : Env.
Hypothesis Hhealthy : ∀ n, ∃ rows, query s n = QueryRows (ScanOk <$> rows).

Lemma buffer_runs_healthy n : ∀ i0 totalDuration hitCount p r0,
  readings p = (r0 + 2 * i0)%nat →
  let duration k := time.Sub (clock s (r0 + 2 * k + 1)%nat) (clock s (r0 + 2 * k)%nat) in
  buffer_runs s n (Z.of_nat i0) totalDuration hitCount p
  = (inr (foldl (λ total k, int64 (total + duration k)) totalDuration (seq i0 n),
          foldl (λ hits k,
                   if bool_decide ((0 < k)%nat ∧ duration k < 50000000)
                   then int64 (hits + 1) else hits)
            hitCount (seq i0 n)),
     {| results := results p;
        statements := statements p ++ replicate n BufferCacheQuery;
        readings := readings p + 2 * n |}).
Proof.
  induction n as [|n IH]; intros i0 totalDuration hitCount p r0 Hreadings duration.
  { cbn. rewrite app_nil_r, Nat.add_0_r. by destruct p. }
  cbn [buffer_runs]. step_service.
  destruct (Hhealthy (List.length (statements p))) as [rows ->].
  destruct (scan_rows_ok rows 0) as [count ->]. step_service.
  replace (Z.of_nat i0 + 1) with (Z.of_nat (S i0)) by lia.
  rewrite (IH (S i0) _ _ _ r0) by (cbn [readings]; lia).
  cbn [results statements readings seq foldl]. rewrite Hreadings.
  replace (S (r0 + 2 * i0)) with (r0 + 2 * i0 + 1)%nat by lia.
  fold (duration i0). f_equal.
  - do 2 f_equal.
    destruct (bool_decide (0 < Z.of_nat i0)) eqn:Hi, (bool_decide (duration i0 < 50000000)) eqn:Hd;
      cbn [andb]; try apply bool_decide_eq_true in Hi; try apply bool_decide_eq_false in Hi;
      try apply bool_decide_eq_true in Hd; try apply bool_decide_eq_false in Hd.
    + by rewrite (bool_decide_true ((0 < i0)%nat ∧ _)) by (split; [lia|done]).
    + by rewrite (bool_decide_false ((0 < i0)%nat ∧ _)) by (intros [_ ?]; done).
    + by rewrite (bool_decide_false ((0 < i0)%nat ∧ _)) by (intros [? _]; lia).
    + by rewrite (bool_decide_false ((0 < i0)%nat ∧ _)) by (intros [? _]; lia).
  - f_equal; [|lia]. by rewrite <-app_assoc.
Qed.

Lemma testDatabaseBufferCache_healthy runs p :
  0 < runs < 2 ^ 63 →
  testDatabaseBufferCache s runs p
  = (Some None,
     {| results :=
          append (results p)
            {| Method := "Oracle_Buffer_Cache";
               ExecutionTime :=
                 int64 (total_duration (clock s) (readings p) (Z.to_nat runs) ÷ runs);
               MemoryUsage := 0;
               HitRate :=
                 PrimFloat.mul
                   (PrimFloat.div
                      (service.float64_of_int64
                         (fast_later_runs (clock s) (readings p) (Z.to_nat runs)))
                      (service.float64_of_int64 (runs - 1)))
                   100;
               Description :=
                 "Oracle Database Buffer Cache（データブロックキャッシュ）" |};
        statements :=
          statements p ++ replicate (Z.to_nat runs) BufferCacheQuery ++ [BufferCacheStats];
        readings := readings p + 2 * Z.to_nat runs |}).
Proof.
  intros Hruns. unfold testDatabaseBufferCache. step_service.
  change 0 with (Z.of_nat 0) at 1.
  rewrite (buffer_runs_healthy (Z.to_nat runs) 0 0 0 p (readings p)) by lia.
  cbn zeta. rewrite bool_decide_false by lia. step_service.
  rewrite (int64_small (runs - 1)) by lia.
  rewrite (count_by_increment
             (λ k, (0 < k)%nat
                   ∧ time.Sub (clock s (readings p + 2 * k + 1)%nat)
                       (clock s (readings p + 2 * k)%nat) < 50000000))
    by (rewrite ?length_seq; lia).
  rewrite Z.add_0_l, <-app_assoc. reflexivity.
Qed.

End FallbackTest.

(** When the test query never fails and no row fails to scan, the fallback
    buffer cache test of [runs] runs appends one result to [c.results]: its
    time is the truncated average of the runs, and its hit rate is the
    number of runs after the first that took less than 50 milliseconds,
    divided by [runs - 1], as a percentage.  The statement on the statistics
    is issued last, and its failure changes nothing. *)
Theorem fallback_buffer_test_records_hit_rate
    (s : CacheService.Env) (runs : Z) (p : CacheService.Process) :
  (∀ n, ∃ rows, CacheService.query s n = QueryRows (ScanOk <$> rows)) →
  0 < runs < 2 ^ 63 →
  CacheService.testDatabaseBufferCache s runs p
  = (Some None,
     {| CacheService.results :=
          append (CacheService.results p)
            {| CacheService.Method := "Oracle_Buffer_Cache";
               CacheService.ExecutionTime :=
                 int64 (total_duration (CacheService.clock s) (CacheService.readings p)
                          (Z.to_nat runs) ÷ runs);
               CacheService.MemoryUsage := 0;
               CacheService.HitRate :=
                 PrimFloat.mul
                   (PrimFloat.div
                      (service.float64_of_int64
                         (fast_later_runs (CacheService.clock s)
                            (CacheService.readings p) (Z.to_nat runs)))
                      (service.float64_of_int64 (runs - 1)))
                   100;
               CacheService.Description :=
                 "Oracle Database Buffer Cache（データブロックキャッシュ）" |};
        CacheService.statements :=
          CacheService.statements p
          ++ replicate (Z.to_nat runs) CacheService.BufferCacheQuery
          ++ [CacheService.BufferCacheStats];
        CacheService.readings := CacheService.readings p + 2 * Z.to_nat runs |}).
Proof.
  intros Hhealthy Hruns. exact (testDatabaseBufferCache_healthy s Hhealthy runs p Hruns).
Qed.

Lemma fallback_buffer_test_records_hit_rate_witness :
  (CacheService.HitRate <$> elems (CacheService.results
     (CacheService.testDatabaseBufferCache CacheRuns.two_rows 3
        CacheService.NewCacheService).2))
  = [100%float].
Proof.
  rewrite (fallback_buffer_test_records_hit_rate CacheRuns.two_rows 3
             CacheService.NewCacheService).
  - vm_compute. reflexivity.
  - intros n. by exists [tt; tt].
  - lia.
Defined.

(** With zero runs the fallback buffer cache test panics on the division by
    the number of runs, before it has issued a statement.  With one run that
    succeeds, the hit rate it records is zero divided by zero: not a number,
    which the comparison table formats as a rate instead of showing [N/A]. *)
Theorem fallback_buffer_test_edge_runs
    (s : CacheService.Env) (p : CacheService.Process) :
  CacheService.testDatabaseBufferCache s 0 p = (None, p)
  ∧ ((∀ n, ∃ rows, CacheService.query s n = QueryRows (ScanOk <$> rows)) →
     ∃ result,
       CacheService.results (CacheService.testDatabaseBufferCache s 1 p).2
       = append (CacheService.results p) result
       ∧ PrimFloat.eqb (CacheService.HitRate result) (CacheService.HitRate result)
         = false
       ∧ CacheService.hitRateStr result = Some (CacheService.HitRate result)).
Proof.
  split.
  - unfold CacheService.testDatabaseBufferCache. cbn. by destruct p.
  - intros Hhealthy. eexists. split.
    + rewrite (testDatabaseBufferCache_healthy s Hhealthy 1 p) by lia. reflexivity.
    + split; reflexivity.
Qed.

Lemma fallback_buffer_test_edge_runs_witness :
  ∃ result,
    CacheService.results
      (CacheService.testDatabaseBufferCache CacheRuns.two_rows 1
         CacheService.NewCacheService).2
    = append (slice_of []) result
    ∧ CacheService.hitRateStr result = Some (CacheService.HitRate result).
Proof.
  destruct (fallback_buffer_test_edge_runs CacheRuns.two_rows
              CacheService.NewCacheService) as [_ Hone].
  destruct Hone as (result & Hresults & _ & Hshown).
  - intros n. by exists [tt; tt].
  - exists result. by split.
Defined.

(** ** The configuration *)

(** A variable that is set to the empty string counts as not set. *)
Lemma getEnv_nonempty (Getenv : string → string) (key defaultValue : string) :
  defaultValue ≠ EmptyString → config.getEnv Getenv key defaultValue ≠ EmptyString.
Proof. intros Hdefault. unfold config.getEnv. by case_decide. Qed.

Lemma getEnv_without_default (Getenv : string → string) (key : string) :
  config.getEnv Getenv key EmptyString = Getenv key.
Proof. unfold config.getEnv. by case_decide. Qed.

(** The configuration loads exactly when both ports parse and both
    credentials are set to something non-empty; an invalid port is reported
    before a missing credential.  No text setting of a loaded configuration
    is empty except possibly the Redis password: in particular its Redis
    host is never empty. *)
Theorem loaded_configuration_is_complete {E : Type}
    (Getenv : string → string) (Atoi : string → E + Z) :
  ((∃ cfg, config.LoadConfig Getenv Atoi = inr cfg)
   ↔ (∃ port, Atoi (config.getEnv Getenv "DB_PORT" "1521") = inr port)
     ∧ (∃ port, Atoi (config.getEnv Getenv "REDIS_PORT" "6379") = inr port)
     ∧ Getenv "DB_USERNAME" ≠ EmptyString
     ∧ Getenv "DB_PASSWORD" ≠ EmptyString)
  ∧ (∀ err, Atoi (config.getEnv Getenv "DB_PORT" "1521") = inl err →
            config.LoadConfig Getenv Atoi = inl (config.InvalidDBPort err))
  ∧ (∀ cfg,
       config.LoadConfig Getenv Atoi = inr cfg →
       config.DBHost cfg ≠ EmptyString
       ∧ config.DBServiceName cfg ≠ EmptyString
       ∧ config.DBUsername cfg = Getenv "DB_USERNAME"
       ∧ config.DBUsername cfg ≠ EmptyString
       ∧ config.DBPassword cfg = Getenv "DB_PASSWORD"
       ∧ config.DBPassword cfg ≠ EmptyString
       ∧ config.RedisHost cfg ≠ EmptyString
       ∧ config.RedisDB cfg = 0).
Proof.
  unfold config.LoadConfig. rewrite !getEnv_without_default.
  destruct (Atoi (config.getEnv Getenv "DB_PORT" "1521")) as [err1|port].
  { split; [|split; [by intros err [= ->]|by intros cfg]].
    split; [by intros [cfg ?]|by intros ([port ?] & _)]. }
  destruct (Atoi (config.getEnv Getenv "REDIS_PORT" "6379")) as [err2|redisPort].
  { split; [|by split]. split; [by intros [cfg ?]|by intros (_ & [port' ?] & _)]. }
  case_decide as Husername; [|case_decide as Hpassword].
  - split; [|by split]. split; [by intros [cfg ?]|by intros (_ & _ & ? & _)].
  - split; [|by split]. split; [by intros [cfg ?]|by intros (_ & _ & _ & ?)].
  - split; [|split; [done|]].
    + split; [|by eexists]. intros _. split; [by eexists|]. split; [by eexists|]. done.
    + intros cfg [= <-]. cbn. split_and!; try done; by apply getEnv_nonempty.
Qed.

Lemma loaded_configuration_is_complete_witness :
  ∃ cfg,
    config.LoadConfig Environments.credentials Environments.default_ports = inr cfg
    ∧ config.RedisHost cfg ≠ EmptyString.
Proof.
  destruct (loaded_configuration_is_complete Environments.credentials
              Environments.default_ports) as ([_ Hloads] & _ & Hcomplete).
  destruct Hloads as [cfg Hcfg].
  - split; [exists 1521; vm_compute; reflexivity|].
    split; [exists 6379; vm_compute; reflexivity|].
    split; vm_compute; discriminate.
  - exists cfg. split; [exact Hcfg|]. by apply (Hcomplete cfg).
Defined.
